(** * Buffer SDK demo client: a shallow embedding of [src/client.ts]

    The development follows the TypeScript source of the [BufferClient]
    class.  Conventions of the embedding:

    - JavaScript numbers that the code keeps integral (timestamps in
      milliseconds, counters, floored metrics) are [Z]; the others
      (engagement rates, random draws, multipliers) are exact rationals [Q].
      Rounding of IEEE-754 doubles is not modelled.
    - [NaN] (an invalid date, or arithmetic on one) is [None] in an
      [option] number.
    - [Date.now()] and [Math.random()] read two oracles carried by the
      [World]; every call consumes one reading.
    - A promise that may reject, or a function that may throw, is a
      computation in the monad [M], whose result is [inl error] or
      [inr value]; the world reached when the exception is thrown is kept. *)

From Stdlib Require Import ZArith QArith Qround Qminmax.
From Stdlib Require Import List String Ascii Bool Lia.
From Stdlib Require Import DecimalString DecimalZ Permutation Lqa Sorted.
Import ListNotations.

Local Open Scope string_scope.
Local Open Scope Z_scope.

(* ================================================================= *)
(** ** JavaScript values, exceptions and the world *)

Module JS.

(** The values the client reads from HTTP response bodies. *)
#[warnings="-register-all"] Inductive Value : Type :=
| VUndefined
| VString (s : string)
| VNumber (n : Z)
| VObject (fields : list (string * Value)).

(** Exceptions.  [BufferAPIError] is the class of [types.ts]; every other
    thrown value (a [TypeError], a plain [Error]) is [OtherError]. *)
Inductive Error : Type :=
| BufferAPIError (code : string) (message : string) (statusCode : option Z)
| OtherError (name : string) (message : string).

Definition Result (A : Type) : Type := (Error + A)%type.

(** One HTTP request as it reaches the transport. *)
Record HttpRequest : Type := mkHttpRequest {
  http_method : string;
  http_url : string;
  http_body : Value }.

Record World : Type := mkWorld {
  clock : nat -> Z;          (* successive readings of Date.now() *)
  clock_reads : nat;
  dice : nat -> Q;           (* successive results of Math.random() *)
  dice_rolls : nat;
  network : nat -> Result Value;   (* outcome of the n-th transport call:
                                      the axios response, or the rejection *)
  sent : list HttpRequest    (* requests issued so far, oldest first *) }.

Definition M (A : Type) : Type := World -> Result A * World.

Definition ret {A} (a : A) : M A := fun w => (inr a, w).

Definition throw {A} (e : Error) : M A := fun w => (inl e, w).

Definition bind {A B} (m : M A) (k : A -> M B) : M B :=
  fun w => match m w with
           | (inl e, w') => (inl e, w')
           | (inr a, w') => k a w'
           end.

Definition Date_now : M Z :=
  fun w => (inr (clock w (clock_reads w)),
            mkWorld (clock w) (S (clock_reads w)) (dice w) (dice_rolls w)
                    (network w) (sent w)).

Definition Math_random : M Q :=
  fun w => (inr (dice w (dice_rolls w)),
            mkWorld (clock w) (clock_reads w) (dice w) (S (dice_rolls w))
                    (network w) (sent w)).

(** [httpClient.post(url, body)] before any interceptor is installed. *)
Definition http_post (url : string) (body : Value) : M Value :=
  fun w => (network w (List.length (sent w)),
            mkWorld (clock w) (clock_reads w) (dice w) (dice_rolls w)
                    (network w) (sent w ++ [mkHttpRequest "POST" url body])).

(** Property access [v.name]; reading a property of [undefined] throws. *)
Fixpoint lookup_field (name : string) (fields : list (string * Value)) : Value :=
  match fields with
  | [] => VUndefined
  | (k, v) :: rest => if String.eqb k name then v else lookup_field name rest
  end.

Definition get_property (v : Value) (name : string) : Result Value :=
  match v with
  | VUndefined =>
      inl (OtherError "TypeError"
             ("Cannot read properties of undefined (reading '" ++ name ++ "')"))
  | VObject fields => inr (lookup_field name fields)
  | _ => inr VUndefined
  end.

(** Template-literal rendering of an integral number. *)
Definition string_of_Z (z : Z) : string := NilZero.string_of_int (Z.to_int z).

(** [Math.floor], [Math.ceil] and the truncation applied by [new Date(t)]. *)
Definition Math_floor (q : Q) : Z := Qfloor q.
Definition Math_ceil (q : Q) : Z := Qceiling q.
Definition Q_trunc (q : Q) : Z :=
  if Qle_bool 0 q then Qfloor q else Qceiling q.

(** [a || b] on numbers and on strings. *)
Definition Z_or (a b : Z) : Z := if Z.eqb a 0 then b else a.
Definition string_or (a b : string) : string :=
  if String.eqb a "" then b else a.

End JS.

Import JS.

Declare Scope js_scope.
Delimit Scope js_scope with js.
Notation "x <- m ;; k" := (bind m (fun x => k))
  (at level 61, m at next level, right associativity) : js_scope.
Notation "m ;;; k" := (bind m (fun _ => k))
  (at level 61, right associativity) : js_scope.
Local Open Scope js_scope.

(* ================================================================= *)
(** ** Rate limiting ([checkRateLimit]) *)

Module RateLimit.

Record RateLimitState : Type := mkRateLimitState {
  requests : Z;
  resetTime : Z }.

(** [config.rateLimit]. *)
Record RateLimitConfig : Type := mkRateLimitConfig {
  quota : Z;      (* config.rateLimit.requests *)
  window : Z      (* config.rateLimit.window, in ms *) }.

(** First statement of [checkRateLimit]: a window that has expired is
    replaced by a fresh one. *)
Definition resetIfExpired (cfg : RateLimitConfig) (now : Z)
    (st : RateLimitState) : RateLimitState :=
  if now >? resetTime st
  then mkRateLimitState 0 (now + window cfg)
  else st.

Definition rateLimitError (waitTime : Z) : Error :=
  BufferAPIError "RATE_LIMIT_EXCEEDED"
    ("Rate limit exceeded. Try again in "
       ++ string_of_Z (Math_ceil (inject_Z waitTime / 1000))
       ++ " seconds.")
    (Some 429).

(** Second statement: refuse when the quota is used up, else count. *)
Definition countRequest (cfg : RateLimitConfig) (now : Z)
    (st : RateLimitState) : Result unit * RateLimitState :=
  if requests st >=? quota cfg
  then (inl (rateLimitError (resetTime st - now)), st)
  else (inr tt, mkRateLimitState (requests st + 1) (resetTime st)).

(** [checkRateLimit], with the reading of [Date.now()] as argument. *)
Definition checkRateLimit (cfg : RateLimitConfig) (now : Z)
    (st : RateLimitState) : Result unit * RateLimitState :=
  countRequest cfg now (resetIfExpired cfg now st).

(** A sequence of checks at the given times; the outcomes in order. *)
Fixpoint checkAll (cfg : RateLimitConfig) (times : list Z)
    (st : RateLimitState) : list (Result unit) * RateLimitState :=
  match times with
  | [] => ([], st)
  | now :: rest =>
      let (r, st1) := checkRateLimit cfg now st in
      let (rs, st2) := checkAll cfg rest st1 in
      (r :: rs, st2)
  end.

End RateLimit.

(* ================================================================= *)
(** ** Retry with exponential backoff ([retryRequest]) *)

Module Retry.

Record RetryConfig : Type := mkRetryConfig {
  attempts : Z;
  delay : Z;
  backoffFactor : Z }.

Definition retryableCodes : list string :=
  ["NETWORK_ERROR"; "TIMEOUT"; "HTTP_500"; "HTTP_502"; "HTTP_503"].

(** [Array.prototype.includes] on strings. *)
Definition includes (l : list string) (s : string) : bool :=
  existsb (String.eqb s) l.

(** What a run of [retryRequest] does, in order: each call of [requestFn]
    with the number of the attempt and the error it threw, if any, and
    each [sleep] with its duration in milliseconds. *)
Inductive Event : Type :=
| Attempted (attempt : Z) (failure : option Error)
| Slept (ms : Z).

Record Run (W T : Type) : Type := mkRun {
  outcome : option (Result T);     (* [None]: the recursion bound was hit *)
  trace : list Event;
  final : W }.
Arguments mkRun {W T}.
Arguments outcome {W T}.
Arguments trace {W T}.
Arguments final {W T}.

Section RetryRequest.
Context {W T : Type}.
Variable retryConfig : RetryConfig.
Variable requestFn : W -> Result T * W.

(** The body of [retryRequest]; [fuel] bounds the depth of the
    recursive calls. *)
Fixpoint retryRequest_rec (fuel : nat) (currentAttempt : Z) (w : W)
    : Run W T :=
  match requestFn w with
  | (inr v, w1) => mkRun (Some (inr v)) [Attempted currentAttempt None] w1
  | (inl error, w1) =>
      if currentAttempt >=? attempts retryConfig
      then mkRun (Some (inl error))
                 [Attempted currentAttempt (Some error)] w1
      else if match error with
              | BufferAPIError code _ _ =>
                  negb (includes retryableCodes code)
              | OtherError _ _ => false
              end
      then mkRun (Some (inl error))
                 [Attempted currentAttempt (Some error)] w1
      else
        let d := delay retryConfig
                 * Z.pow (backoffFactor retryConfig) (currentAttempt - 1) in
        match fuel with
        | O => mkRun None
                 [Attempted currentAttempt (Some error); Slept d] w1
        | S fuel' =>
            let r := retryRequest_rec fuel' (currentAttempt + 1) w1 in
            mkRun (outcome r)
                  (Attempted currentAttempt (Some error) :: Slept d :: trace r)
                  (final r)
        end
  end.

(** [retryRequest(requestFn, currentAttempt)]: a recursive call is made
    only while [currentAttempt < attempts], so [attempts - currentAttempt]
    bounds their number. *)
Definition retryRequest_from (currentAttempt : Z) : W -> Run W T :=
  retryRequest_rec (Z.to_nat (attempts retryConfig - currentAttempt))
                   currentAttempt.

(** [retryRequest(requestFn)], the default [currentAttempt = 1]. *)
Definition retryRequest : W -> Run W T := retryRequest_from 1.

End RetryRequest.

Definition isAttempt (e : Event) : bool :=
  match e with Attempted _ _ => true | Slept _ => false end.

Definition attemptsMade (t : list Event) : nat :=
  List.length (filter isAttempt t).

Fixpoint sleeps (t : list Event) : list Z :=
  match t with
  | [] => []
  | Slept d :: rest => d :: sleeps rest
  | Attempted _ _ :: rest => sleeps rest
  end.

End Retry.

(* ================================================================= *)
(** ** Dates: [Date.prototype.toISOString] and [new Date(string)] *)

Module Dates.

Definition msPerDay : Z := 24 * 60 * 60 * 1000.

(** Largest time value of an ECMAScript [Date]. *)
Definition maxTime : Z := 8640000000000000.

(** Day number since 1970-01-01 of a date of the proleptic Gregorian
    calendar, and back. *)
Definition days_from_civil (y m d : Z) : Z :=
  let y' := if m <=? 2 then y - 1 else y in
  let era := y' / 400 in
  let yoe := y' - era * 400 in
  let doy := (153 * (if m >? 2 then m - 3 else m + 9) + 2) / 5 + d - 1 in
  let doe := yoe * 365 + yoe / 4 - yoe / 100 + doy in
  era * 146097 + doe - 719468.

Definition civil_from_days (z : Z) : Z * Z * Z :=
  let z' := z + 719468 in
  let era := z' / 146097 in
  let doe := z' - era * 146097 in
  let yoe := (doe - doe / 1460 + doe / 36524 - doe / 146096) / 365 in
  let doy := doe - (365 * yoe + yoe / 4 - yoe / 100) in
  let mp := (5 * doy + 2) / 153 in
  let d := doy - (153 * mp + 2) / 5 + 1 in
  let m := if mp <? 10 then mp + 3 else mp - 9 in
  ((if m <=? 2 then yoe + era * 400 + 1 else yoe + era * 400), m, d).

Definition isLeap (y : Z) : bool :=
  ((y mod 4 =? 0) && negb (y mod 100 =? 0)) || (y mod 400 =? 0).

Definition daysInMonth (y m : Z) : Z :=
  if m =? 2 then (if isLeap y then 29 else 28)
  else if (m =? 4) || (m =? 6) || (m =? 9) || (m =? 11) then 30 else 31.

(** Decimal rendering on at least [width] digits. *)
Fixpoint zeros (n : nat) : string :=
  match n with O => "" | S k => "0" ++ zeros k end.

Definition pad (width : nat) (z : Z) : string :=
  let s := string_of_Z z in
  zeros (width - String.length s) ++ s.

Definition formatYear (y : Z) : string :=
  if (0 <=? y) && (y <=? 9999) then pad 4 y
  else if y <? 0 then "-" ++ pad 6 (- y) else "+" ++ pad 6 y.

(** [new Date(t).toISOString()] for a time value [t] in range. *)
Definition toISOString (t : Z) : string :=
  let '(y, m, d) := civil_from_days (t / msPerDay) in
  let r := t mod msPerDay in
  formatYear y ++ "-" ++ pad 2 m ++ "-" ++ pad 2 d ++ "T"
    ++ pad 2 (r / 3600000) ++ ":" ++ pad 2 (r / 60000 mod 60) ++ ":"
    ++ pad 2 (r / 1000 mod 60) ++ "." ++ pad 3 (r mod 1000) ++ "Z".

(** [s.split('T')[0]]. *)
Fixpoint beforeT (s : string) : string :=
  match s with
  | EmptyString => EmptyString
  | String c rest => if Ascii.eqb c "T" then EmptyString
                     else String c (beforeT rest)
  end.

(** [new Date(t).toISOString().split('T')[0]]. *)
Definition toDateString (t : Z) : string := beforeT (toISOString t).

Definition digit (c : ascii) : option Z :=
  let n := nat_of_ascii c in
  if (48 <=? n)%nat && (n <=? 57)%nat then Some (Z.of_nat (n - 48)) else None.

Fixpoint numberOf (s : string) (acc : Z) : option Z :=
  match s with
  | EmptyString => Some acc
  | String c rest =>
      match digit c with
      | Some d => numberOf rest (10 * acc + d)
      | None => None
      end
  end.

(** The [len] decimal digits of [s] from position [start]. *)
Definition field (s : string) (start len : nat) : option Z :=
  let f := substring start len s in
  if (String.length f =? len)%nat then numberOf f 0 else None.

Definition charAt (s : string) (n : nat) (c : ascii) : bool :=
  match String.get n s with
  | Some c' => Ascii.eqb c c'
  | None => false
  end.

Definition timeOfDay (s : string) (off : nat) : option Z :=
  match field s (off + 7) 2, field s (off + 10) 2,
        field s (off + 13) 2, field s (off + 16) 3 with
  | Some hh, Some mi, Some ss, Some ms =>
      if charAt s (off + 6) "T" && charAt s (off + 9) ":"
         && charAt s (off + 12) ":" && charAt s (off + 15) "."
         && charAt s (off + 19) "Z"
         && (hh <=? 23) && (mi <=? 59) && (ss <=? 59)
      then Some (hh * 3600000 + mi * 60000 + ss * 1000 + ms)
      else None
  | _, _, _, _ => None
  end.

(** [new Date(s).getTime()]; [None] is [NaN] (Invalid Date).  The two
    shapes recognised are the ISO date [YYYY-MM-DD], read as midnight UTC,
    and the full form written by [toISOString]; the year may be in the
    expanded form of a sign and six digits.  ECMAScript leaves every other
    format to the implementation; they are invalid here. *)
Definition parseDate (s : string) : option Z :=
  let '(off, year) :=
    match String.get 0 s with
    | Some "+"%char => (7%nat, field s 1 6)
    | Some "-"%char =>
        (7%nat, match field s 1 6 with
                | Some y => if y =? 0 then None else Some (- y)
                | None => None
                end)
    | _ => (4%nat, field s 0 4)
    end in
  match year, field s (off + 1) 2, field s (off + 4) 2 with
  | Some y, Some m, Some d =>
      if charAt s off "-" && charAt s (off + 3) "-"
         && (1 <=? m) && (m <=? 12) && (1 <=? d) && (d <=? daysInMonth y m)
      then
        let day := days_from_civil y m d in
        let t :=
          if (String.length s =? off + 6)%nat then Some (day * msPerDay)
          else if (String.length s =? off + 20)%nat
          then match timeOfDay s off with
               | Some r => Some (day * msPerDay + r)
               | None => None
               end
          else None in
        match t with
        | Some t' => if Z.abs t' <=? maxTime then Some t' else None
        | None => None
        end
      else None
  | _, _, _ => None
  end.

End Dates.

(* ================================================================= *)
(** ** The data model ([types.ts]) *)

Module Types.

(** ['x' | 'linkedin' | 'facebook' | 'instagram']. *)
Inductive SocialPlatform : Type := PlatformX | LinkedIn | Facebook | Instagram.

Definition platformName (p : SocialPlatform) : string :=
  match p with
  | PlatformX => "x"
  | LinkedIn => "linkedin"
  | Facebook => "facebook"
  | Instagram => "instagram"
  end.

Definition platform_eqb (a b : SocialPlatform) : bool :=
  match a, b with
  | PlatformX, PlatformX | LinkedIn, LinkedIn
  | Facebook, Facebook | Instagram, Instagram => true
  | _, _ => false
  end.

(** ['7d' | '30d' | '90d' | '1y' | 'custom']. *)
Inductive TimeRange : Type := TR_7d | TR_30d | TR_90d | TR_1y | TR_custom.

Record Schedule : Type := mkSchedule {
  days : list string;
  times : list string }.

Record BufferProfile : Type := mkProfile {
  id : string;
  service : SocialPlatform;
  service_username : string;
  service_id : string;
  formatted_username : string;
  avatar : string;
  timezone : string;
  schedules : list Schedule;
  default : bool }.

Inductive PostStatus : Type :=
  StatusBuffer | StatusSent | StatusFailed | StatusDraft.

Record Statistics : Type := mkStatistics {
  stat_reach : Z;
  stat_clicks : Z;
  stat_retweets : Z;
  stat_favorites : Z;
  stat_mentions : Z;
  stat_comments : Z;
  stat_shares : Z }.

(** [BufferPost]; [due_at] is [None] when the code computes [NaN]. *)
Record BufferPost : Type := mkPost {
  post_id : string;
  profile_id : string;
  status : PostStatus;
  text : string;
  text_formatted : string;
  created_at : Z;
  due_at : option Z;
  statistics : Statistics }.

(** The fields of [CreatePostData] that the client reads. *)
Record CreatePostData : Type := mkCreatePostData {
  data_text : string;
  scheduled_at : option string }.

(** The metric bag of a [PostAnalytics]: four fields always present and
    three that exist on some platforms only. *)
Record Metrics : Type := mkMetrics {
  likes : Z;
  comments : Z;
  shares : Z;
  clicks : Z;
  retweets : option Z;
  reactions : option Z;
  saves : option Z }.

Record PostAnalytics : Type := mkPostAnalytics {
  postId : string;
  pa_profileId : string;
  pa_service : SocialPlatform;
  publishedAt : string;
  pa_text : string;
  metrics : Metrics;
  engagementRate : Q;
  reach : Z;
  impressions : Z }.

(** [AnalyticsOptions] after normalisation.  An empty string is the falsy
    [start] or [end]; [period] has type [any] in the source and is compared
    with strings only.  [includeMetrics], [groupBy] and [customDateRange]
    are copied by the client and never read; they are left out. *)
Record AnalyticsOptions : Type := mkAnalyticsOptions {
  timeRange : TimeRange;
  start : string;
  end_ : string;
  period : string;
  platforms : option (list SocialPlatform) }.

(** [Partial<AnalyticsOptions>], as the caller passes it. *)
Record PartialAnalyticsOptions : Type := mkPartialOptions {
  opt_timeRange : option TimeRange;
  opt_start : option string;
  opt_end : option string;
  opt_period : option string;
  opt_platforms : option (list SocialPlatform) }.

Record TopMetrics : Type := mkTopMetrics {
  top_likes : Z;
  top_comments : Z;
  top_shares : Z;
  top_clicks : Z;
  top_reach : Z;
  top_impressions : Z }.

Record PlatformBreakdown : Type := mkBreakdown {
  platform : SocialPlatform;
  postCount : nat;
  bd_engagementRate : Q;
  bd_reach : Z }.

Inductive Direction : Type := Up | Down | Stable.

Record AnalyticsSummary : Type := mkSummary {
  sum_profileId : string;
  sum_timeRange : TimeRange;
  totalPosts : nat;
  totalEngagement : Z;
  averageEngagementRate : Q;
  bestPerformingPost : string;
  topPerformingTime : string;
  topMetrics : TopMetrics;
  platformBreakdown : list PlatformBreakdown;
  trendDirection : Direction;
  trendPercentage : Z }.

End Types.

Import Types.

(* ================================================================= *)
(** ** The mock data generators *)

Module Mock.

(** Synchronous code that reads the clock and the random source and does
    not throw. *)
Definition G (A : Type) : Type := World -> A * World.

Definition gret {A} (a : A) : G A := fun w => (a, w).

Definition gbind {A B} (m : G A) (k : A -> G B) : G B :=
  fun w => let (a, w') := m w in k a w'.

Definition now : G Z :=
  fun w => (clock w (clock_reads w),
            mkWorld (clock w) (S (clock_reads w)) (dice w) (dice_rolls w)
                    (network w) (sent w)).

Definition random : G Q :=
  fun w => (dice w (dice_rolls w),
            mkWorld (clock w) (clock_reads w) (dice w) (S (dice_rolls w))
                    (network w) (sent w)).

(** A generator used where a promise is expected. *)
Definition lift {A} (g : G A) : M A := fun w => let (a, w') := g w in (inr a, w').

Notation "x <~ m ;; k" := (gbind m (fun x => k))
  (at level 61, m at next level, right associativity) : js_scope.

(** [for (let i = 0; i < bound && cond(state); i++) body(i)], where [n]
    is the number of values of [i] below [bound] still to visit.  A
    [continue] in the source is a body that returns the state unchanged. *)
Fixpoint for_loop {S : Type} (n : nat) (i : Z) (cond : S -> bool)
    (body : Z -> S -> G S) (s : S) : G S :=
  match n with
  | O => gret s
  | Datatypes.S n' =>
      if cond s
      then s' <~ body i s ;; for_loop n' (i + 1) cond body s'
      else gret s
  end.

(** [a > b] on rationals. *)
Definition Qgtb (a b : Q) : bool := negb (Qle_bool a b).

(* ----------------------------------------------------------------- *)
(** *** Profiles *)

Definition generateMockProfiles : list BufferProfile :=
  [ mkProfile "profile_x_001" PlatformX "bufferoptimizer" "1234567890"
      "@bufferoptimizer"
      "https://images.unsplash.com/photo-1472099645785-5658abf4ff4e?w=150&h=150&fit=crop&crop=face"
      "America/Los_Angeles"
      [ mkSchedule ["mon"; "tue"; "wed"; "thu"; "fri"]
                   ["09:00"; "13:00"; "17:00"; "20:00"];
        mkSchedule ["sat"; "sun"] ["11:00"; "15:00"] ]
      true;
    mkProfile "profile_linkedin_002" LinkedIn "buffer-content-optimizer"
      "0987654321" "Buffer Content Optimizer"
      "https://images.unsplash.com/photo-1560250097-0b93528c311a?w=150&h=150&fit=crop&crop=face"
      "America/Los_Angeles"
      [ mkSchedule ["mon"; "tue"; "wed"; "thu"; "fri"]
                   ["08:00"; "12:00"; "16:00"] ]
      false;
    mkProfile "profile_facebook_003" Facebook "BufferContentOptimizer"
      "1122334455" "Buffer Content Optimizer"
      "https://images.unsplash.com/photo-1507003211169-0a1dd7228f2d?w=150&h=150&fit=crop&crop=face"
      "America/Los_Angeles"
      [ mkSchedule ["mon"; "tue"; "wed"; "thu"; "fri"; "sat"; "sun"]
                   ["10:00"; "14:00"; "19:00"] ]
      false;
    mkProfile "profile_instagram_004" Instagram "buffer.optimizer"
      "5566778899" "@buffer.optimizer"
      "https://images.unsplash.com/photo-1494790108755-2616b612b647?w=150&h=150&fit=crop&crop=face"
      "America/Los_Angeles"
      [ mkSchedule ["mon"; "wed"; "fri"] ["12:00"; "17:00"];
        mkSchedule ["sat"; "sun"] ["10:00"; "14:00"; "18:00"] ]
      false ].

(* ----------------------------------------------------------------- *)
(** *** Single posts *)

Definition zeroStatistics : Statistics := mkStatistics 0 0 0 0 0 0 0.

(** [generateMockPost(postId, data?)]. *)
Definition generateMockPost (postId : string) (data : option CreatePostData)
    : G BufferPost :=
  let dataText := match data with Some d => data_text d | None => "" end in
  let content := string_or dataText ("Mock post content for " ++ postId) in
  created <~ now ;;
  due <~ match data with
         | Some (mkCreatePostData _ (Some when)) =>
             if String.eqb when "" then n <~ now ;; gret (Some (n + 3600000))
             else gret (Dates.parseDate when)
         | _ => n <~ now ;; gret (Some (n + 3600000))
         end ;;
  gret (mkPost postId "profile_mock_001" StatusBuffer content content
               created due zeroStatistics).

(** [generateMockPostAnalytics(postId)]: every number is an independent
    draw. *)
Definition generateMockPostAnalytics (postId : string) : G PostAnalytics :=
  t <~ now ;;
  r_likes <~ random ;;
  r_comments <~ random ;;
  r_shares <~ random ;;
  r_clicks <~ random ;;
  r_retweets <~ random ;;
  r_rate <~ random ;;
  r_reach <~ random ;;
  r_impressions <~ random ;;
  gret (mkPostAnalytics postId "profile_mock_001" PlatformX
          (Dates.toISOString (t - 86400000))
          "Sample post for analytics"
          (mkMetrics (Math_floor (r_likes * 200))
                     (Math_floor (r_comments * 50))
                     (Math_floor (r_shares * 30))
                     (Math_floor (r_clicks * 100))
                     (Some (Math_floor (r_retweets * 25)))
                     None None)
          (r_rate * (1 # 10))%Q
          (Math_floor (r_reach * 5000))
          (Math_floor (r_impressions * 10000))).

(* ----------------------------------------------------------------- *)
(** *** Platform tables *)

Definition allPlatforms : list SocialPlatform :=
  [PlatformX; LinkedIn; Facebook; Instagram].

Definition includesPlatform (l : list SocialPlatform) (p : SocialPlatform)
    : bool :=
  existsb (platform_eqb p) l.

(** [profileMap[platform] || fallbackId]; the table has an entry for
    every platform. *)
Definition getProfileIdForPlatform (p : SocialPlatform) (fallbackId : string)
    : string :=
  string_or match p with
            | PlatformX => "profile_x_001"
            | LinkedIn => "profile_linkedin_002"
            | Facebook => "profile_facebook_003"
            | Instagram => "profile_instagram_004"
            end
            fallbackId.

Definition getBaseEngagementForPlatform (p : SocialPlatform) : Q :=
  match p with
  | PlatformX => 45 # 1000
  | LinkedIn => 54 # 1000
  | Facebook => 63 # 1000
  | Instagram => 71 # 1000
  end.

Definition reachRange (p : SocialPlatform) : Z * Z :=
  match p with
  | PlatformX => (800, 8000)
  | LinkedIn => (500, 3000)
  | Facebook => (1200, 12000)
  | Instagram => (600, 6000)
  end.

Definition getPlatformReach (p : SocialPlatform) : G Z :=
  let (min, max) := reachRange p in
  r <~ random ;;
  gret (Math_floor (r * inject_Z (max - min) + inject_Z min)).

Definition multipliers (p : SocialPlatform) : Q :=
  match p with
  | PlatformX => 18 # 10
  | LinkedIn => 14 # 10
  | Facebook => 22 # 10
  | Instagram => 16 # 10
  end.

Definition getPlatformImpressionMultiplier (p : SocialPlatform) : G Q :=
  r <~ random ;;
  gret (multipliers p + r * (4 # 10))%Q.

Definition contentTemplates (p : SocialPlatform) : list string :=
  match p with
  | PlatformX =>
      [ "üöÄ Exciting updates coming to our platform! What feature would you like to see next? #innovation #tech #startup";
        "üìä Data shows that engaged teams are 3x more productive. How do you keep your team motivated? #productivity #leadership";
        "üí° Pro tip: Schedule your social media posts during peak engagement hours for maximum reach! #socialmedia #marketing";
        "üî• Just launched our new analytics dashboard! The insights are incredible. Check it out üëá #analytics #data" ]
  | LinkedIn =>
      [ "Thrilled to share insights from our latest industry report. Key findings that every professional should know about the future of social media marketing.";
        "Leadership isn't about having all the answers‚Äîit's about asking the right questions and empowering your team to find innovative solutions.";
        "The future of work is hybrid, and companies that adapt quickly will thrive. How is your organization preparing for this transformation?";
        "Data-driven decision making has revolutionized our business operations. Here's how we leverage analytics to drive sustainable growth and innovation." ]
  | Facebook =>
      [ "We're so grateful for our amazing community! üôè Thank you for your continued support and feedback. Your input helps us build better tools every day.";
        "Behind the scenes look at our team working hard to bring you the best social media optimization features. The dedication is incredible! üí™";
        "What's your favorite way to stay productive while working from home? Share your tips below ‚Äì we love learning from our community! üè†";
        "Celebrating another milestone! üéâ Thanks to everyone who's been part of this incredible journey. Here's to many more achievements together." ]
  | Instagram =>
      [ "‚ú® Creating magic one post at a time. What inspires your content creation journey? Drop a comment below! #contentcreator #inspiration";
        "üåü Monday motivation: Your only limit is your mind. Dream big, work hard, and make it happen! #mondaymotivation #dreambig #hustle";
        "üì∑ Captured this amazing moment during our team retreat last week. Nothing beats good vibes and great people! #teamretreat #goodvibes";
        "üé® Design is not just what it looks like‚Äîdesign is how it works. Function meets beauty in everything we create. #designthinking #ux" ]
  end.

Definition generatePlatformContent (p : SocialPlatform) (index : Z) : string :=
  let templates := contentTemplates p in
  nth (Z.to_nat (index mod Z.of_nat (List.length templates))) templates "".

(** One row of [distributions]; an absent weight is [None]. *)
Record Distribution : Type := mkDistribution {
  d_likes : Q;
  d_retweets : option Q;
  d_comments : option Q;
  d_shares : option Q;
  d_clicks : option Q;
  d_saves : option Q }.

Definition distributions (p : SocialPlatform) : Distribution :=
  match p with
  | PlatformX =>
      mkDistribution (6 # 10) (Some (15 # 100)) (Some (15 # 100)) None
                     (Some (1 # 10)) None
  | LinkedIn =>
      mkDistribution (5 # 10) None (Some (25 # 100)) (Some (15 # 100))
                     (Some (1 # 10)) None
  | Facebook =>
      mkDistribution (55 # 100) None (Some (2 # 10)) (Some (15 # 100))
                     (Some (1 # 10)) None
  | Instagram =>
      mkDistribution (75 # 100) None (Some (15 # 100)) None
                     (Some (2 # 100)) (Some (8 # 100))
  end.

(** [w || 0] on a weight that may be absent. *)
Definition weight_or0 (w : option Q) : Q :=
  match w with Some q => q | None => 0 end.

(** [generatePlatformMetrics(platform, engagementRate, reach)]. *)
Definition generatePlatformMetrics (p : SocialPlatform) (rate : Q) (reach : Z)
    : Metrics :=
  let totalEngagement := Math_floor (inject_Z reach * rate) in
  let dist := distributions p in
  let share (w : Q) := Math_floor (inject_Z totalEngagement * w) in
  let baseMetrics :=
    mkMetrics (share (d_likes dist))
              (share (weight_or0 (d_comments dist)))
              (share (weight_or0 (d_shares dist)))
              (share (weight_or0 (d_clicks dist)))
              None None None in
  match p with
  | PlatformX =>
      mkMetrics (likes baseMetrics) (comments baseMetrics)
                (shares baseMetrics) (clicks baseMetrics)
                (Some (share (weight_or0 (d_retweets dist)))) None None
  | LinkedIn =>
      mkMetrics (likes baseMetrics) (comments baseMetrics)
                (share (weight_or0 (d_shares dist))) (clicks baseMetrics)
                None None None
  | Facebook =>
      mkMetrics (likes baseMetrics) (comments baseMetrics)
                (share (weight_or0 (d_shares dist))) (clicks baseMetrics)
                None (Some (likes baseMetrics)) None
  | Instagram =>
      mkMetrics (likes baseMetrics) (comments baseMetrics)
                (shares baseMetrics) (clicks baseMetrics)
                None None (Some (share (weight_or0 (d_saves dist))))
  end.

(* ----------------------------------------------------------------- *)
(** *** Batch analytics ([generateMockAnalytics]) *)

Definition timeRangeMap (t : TimeRange) : Z :=
  match t with
  | TR_7d => 7
  | TR_30d => 30
  | TR_90d => 90
  | TR_1y => 365
  | TR_custom => 30
  end.

(** [getTimeRangeDays(options)]; [None] is [NaN], the difference of two
    dates of which one is invalid. *)
Definition getTimeRangeDays (options : AnalyticsOptions) : option Z :=
  if negb (String.eqb (start options) "")
     && negb (String.eqb (end_ options) "")
  then
    match Dates.parseDate (start options), Dates.parseDate (end_ options) with
    | Some startTime, Some endTime =>
        Some (Math_ceil (inject_Z (endTime - startTime)
                         / inject_Z (24 * 60 * 60 * 1000)))
    | _, _ => None
    end
  else Some (Z_or (timeRangeMap (timeRange options)) 30).

(** [calculatePostCount(days, options)]. *)
Definition calculatePostCount (days : Z) (options : AnalyticsOptions) : Z :=
  let platformCount :=
    match platforms options with
    | Some l => Z_or (Z.of_nat (List.length l)) 4
    | None => 4
    end in
  let basePostsPerDay := platformCount in
  let multiplier := 1%Q in
  let multiplier :=
    if String.eqb (period options) "week" then (5 # 10)%Q else multiplier in
  let multiplier :=
    if String.eqb (period options) "month" then (3 # 10)%Q else multiplier in
  Z.min (Math_floor (inject_Z days * inject_Z basePostsPerDay * multiplier))
        500.

Definition platformsToUse (options : AnalyticsOptions) : list SocialPlatform :=
  match platforms options with
  | Some l =>
      if (0 <? List.length l)%nat
      then filter (includesPlatform allPlatforms) l
      else allPlatforms
  | None => allPlatforms
  end.

(** The variables the two loops update. *)
Record Batch : Type := mkBatch {
  postIndex : Z;
  analytics : list PostAnalytics }.

(** [options.start && postDate < new Date(options.start)]; a comparison
    with an invalid date is false. *)
Definition beforeStart (options : AnalyticsOptions) (postDate : Z) : bool :=
  negb (String.eqb (start options) "")
  && match Dates.parseDate (start options) with
     | Some t => postDate <? t
     | None => false
     end.

(** [options.end && postDate > new Date(options.end)]. *)
Definition afterEnd (options : AnalyticsOptions) (postDate : Z) : bool :=
  negb (String.eqb (end_ options) "")
  && match Dates.parseDate (end_ options) with
     | Some t => postDate >? t
     | None => false
     end.

(** The record pushed for one post, from the three draws. *)
Definition makePost (profileId : string) (p : SocialPlatform) (index : Z)
    (postDate : Z) (r_variation r_reach r_multiplier : Q) : PostAnalytics :=
  let currentProfileId := getProfileIdForPlatform p profileId in
  let content := generatePlatformContent p index in
  let baseEngagement := getBaseEngagementForPlatform p in
  let variation := ((r_variation - (5 # 10)) * (2 # 100))%Q in
  let rate := Qmax (1 # 100) (baseEngagement + variation) in
  let (min, max) := reachRange p in
  let reach := Math_floor (r_reach * inject_Z (max - min) + inject_Z min) in
  let impressions :=
    Math_floor (inject_Z reach * (multipliers p + r_multiplier * (4 # 10))) in
  mkPostAnalytics
    ("post_" ++ platformName p ++ "_" ++ string_of_Z index)
    currentProfileId p (Dates.toISOString postDate) content
    (generatePlatformMetrics p rate reach) rate reach impressions.

(** Body of the inner loop. *)
Definition postStep (profileId : string) (options : AnalyticsOptions)
    (day dailyPostCount : Z) (i : Z) (s : Batch) : G Batch :=
  let active := platformsToUse options in
  let platformIndex := postIndex s mod Z.of_nat (List.length active) in
  let p := nth (Z.to_nat platformIndex) active PlatformX in
  t <~ now ;;
  let postDate :=
    Q_trunc (inject_Z t - inject_Z (day * (24 * 60 * 60 * 1000))
             - inject_Z i * (inject_Z (24 * 60 * 60 * 1000)
                             / inject_Z dailyPostCount)) in
  if beforeStart options postDate then gret s
  else if afterEnd options postDate then gret s
  else
    r_variation <~ random ;;
    r_reach <~ random ;;
    r_multiplier <~ random ;;
    gret (mkBatch (postIndex s + 1)
            (analytics s
             ++ [makePost profileId p (postIndex s) postDate
                          r_variation r_reach r_multiplier])).

(** Body of the outer loop. *)
Definition dayStep (profileId : string) (options : AnalyticsOptions)
    (totalPosts postsPerDay : Z) (day : Z) (s : Batch) : G Batch :=
  let dailyPostCount := Z.min postsPerDay (totalPosts - postIndex s) in
  for_loop (Z.to_nat dailyPostCount) 0
           (fun s' => postIndex s' <? totalPosts)
           (postStep profileId options day dailyPostCount) s.

(** Comparator of the final sort; [NaN] counts as [0]. *)
Definition newestFirst (a b : PostAnalytics) : Z :=
  match Dates.parseDate (publishedAt b), Dates.parseDate (publishedAt a) with
  | Some tb, Some ta => tb - ta
  | _, _ => 0
  end.

(** [Array.prototype.sort(compare)] is stable: an insertion sort. *)
Fixpoint insert {A : Type} (compare : A -> A -> Z) (a : A) (l : list A)
    : list A :=
  match l with
  | [] => [a]
  | b :: rest =>
      if compare a b <=? 0 then a :: b :: rest
      else b :: insert compare a rest
  end.

Fixpoint sort {A : Type} (compare : A -> A -> Z) (l : list A) : list A :=
  match l with
  | [] => []
  | a :: rest => insert compare a (sort compare rest)
  end.

(** The posts in the order they are pushed.  With [timeRangeDays] equal
    to [NaN] the guard [day < timeRangeDays] fails at once. *)
Definition generateUnsorted (profileId : string) (options : AnalyticsOptions)
    : G (list PostAnalytics) :=
  match getTimeRangeDays options with
  | None => gret []
  | Some timeRangeDays =>
      let totalPosts := calculatePostCount timeRangeDays options in
      let postsPerDay :=
        Math_ceil (inject_Z totalPosts / inject_Z timeRangeDays) in
      s <~ for_loop (Z.to_nat timeRangeDays) 0 (fun _ => true)
             (dayStep profileId options totalPosts postsPerDay)
             (mkBatch 0 []) ;;
      gret (analytics s)
  end.

(** [generateMockAnalytics(profileId, options)]. *)
Definition generateMockAnalytics (profileId : string)
    (options : AnalyticsOptions) : G (list PostAnalytics) :=
  posts <~ generateUnsorted profileId options ;;
  gret (sort newestFirst posts).

(* ----------------------------------------------------------------- *)
(** *** Summary ([generateMockSummary]) *)

(** [Object.values(metrics)]: the values of the fields that exist. *)
Definition optionalValue (v : option Z) : list Z :=
  match v with Some z => [z] | None => [] end.

Definition metricValues (m : Metrics) : list Z :=
  [likes m; comments m; clicks m; shares m]
    ++ optionalValue (retweets m) ++ optionalValue (reactions m)
    ++ optionalValue (saves m).

Definition sumRates (posts : list PostAnalytics) : Q :=
  fold_left (fun sum post => (sum + engagementRate post)%Q) posts 0%Q.

Definition sumReach (posts : list PostAnalytics) : Z :=
  fold_left (fun sum post => sum + reach post) posts 0.

Definition breakdownFor (posts : list PostAnalytics) (p : SocialPlatform)
    : PlatformBreakdown :=
  let platformPosts := filter (fun post => platform_eqb (pa_service post) p)
                              posts in
  let platformEngagement := sumRates platformPosts in
  let avgRate :=
    if (0 <? List.length platformPosts)%nat
    then (platformEngagement
          / inject_Z (Z.of_nat (List.length platformPosts)))%Q
    else 0%Q in
  mkBreakdown p (List.length platformPosts) avgRate (sumReach platformPosts).

(** [generateMockSummary(profileId, options)]. *)
Definition generateMockSummary (profileId : string)
    (options : AnalyticsOptions) : G AnalyticsSummary :=
  posts <~ generateMockAnalytics profileId options ;;
  let totalEngagement :=
    fold_left
      (fun sum post =>
         sum + fold_left (fun metricSum val => metricSum + Z_or val 0)
                         (metricValues (metrics post)) 0)
      posts 0 in
  let avgEngagementRate :=
    if (0 <? List.length posts)%nat
    then (sumRates posts / inject_Z (Z.of_nat (List.length posts)))%Q
    else 0%Q in
  let bestPost :=
    match posts with
    | [] => None
    | first :: _ =>
        Some (fold_left
                (fun best current =>
                   if Qgtb (engagementRate current) (engagementRate best)
                   then current else best)
                posts first)
    end in
  let breakdown :=
    filter (fun item => (0 <? postCount item)%nat)
           (map (breakdownFor posts) allPlatforms) in
  r <~ random ;;
  gret (mkSummary profileId (timeRange options)
          (List.length posts) totalEngagement avgEngagementRate
          (string_or match bestPost with
                     | Some best => postId best
                     | None => ""
                     end
                     ("post_" ++ profileId ++ "_best"))
          "14:00"
          (mkTopMetrics
             (fold_left (fun sum post => sum + Z_or (likes (metrics post)) 0)
                        posts 0)
             (fold_left (fun sum post => sum + Z_or (comments (metrics post)) 0)
                        posts 0)
             (fold_left (fun sum post => sum + Z_or (shares (metrics post)) 0)
                        posts 0)
             (fold_left (fun sum post => sum + Z_or (clicks (metrics post)) 0)
                        posts 0)
             (sumReach posts)
             (fold_left (fun sum post => sum + impressions post) posts 0))
          breakdown
          (if Qgtb avgEngagementRate (5 # 100) then Up else Down)
          (Math_floor (r * 20) + 5)).

End Mock.

Import Mock.

(* ================================================================= *)
(** ** The client: initialisation and the public operations *)

Module Client.

(** [config.bufferSDK]; [code] is not declared in [BufferClientConfig]
    and is [undefined] unless the caller adds it. *)
Record BufferSDK : Type := mkBufferSDK {
  clientId : string;
  clientSecret : string;
  redirectUri : string;
  code : Value;
  sdkMockMode : bool }.

(** [Partial<BufferClientConfig>], the argument of the constructor. *)
Record ClientConfig : Type := mkClientConfig {
  cfg_accessToken : option string;
  cfg_timeout : option Z;
  cfg_retryAttempts : option Z;
  cfg_retryDelay : option Z;
  cfg_rateLimit : option RateLimit.RateLimitConfig;
  cfg_bufferSDK : option BufferSDK }.

(** [this.config] once [initialize] has run. *)
Record Config : Type := mkConfig {
  accessToken : Value;
  baseUrl : string;
  timeout : Z;
  retryAttempts : Z;
  retryDelay : Z;
  rateLimit : RateLimit.RateLimitConfig;
  bufferSDK : BufferSDK }.

Record Client : Type := mkClient {
  config : Config;
  retryConfig : Retry.RetryConfig;
  rateLimitState : RateLimit.RateLimitState }.

Definition tokenEndpoint : string :=
  "http://localhost:8083/api/v1/auth/oauth2/token.json".

(** [o || d] on an optional number. *)
Definition number_or (o : option Z) (d : Z) : Z :=
  match o with Some v => Z_or v d | None => d end.

Definition liftResult {A} (r : Result A) : M A :=
  match r with inl e => throw e | inr a => ret a end.

(** [exchangeCodeForTokens(bufferSDK)]: destructuring [undefined] throws;
    otherwise one POST, issued on the transport directly. *)
Definition exchangeCodeForTokens (sdk : option BufferSDK) : M Value :=
  match sdk with
  | None =>
      throw (OtherError "TypeError"
               "Cannot destructure property 'clientId' of 'undefined'")
  | Some s =>
      response <- http_post tokenEndpoint
                    (VObject [ ("client_id", VString (clientId s));
                               ("client_secret", VString (clientSecret s));
                               ("redirect_uri", VString (redirectUri s));
                               ("code", code s);
                               ("grant_type", VString "authorization_code") ]) ;;
      liftResult (get_property response "data")
  end.

(** [initialize()].  The transport is always the axios instance set by the
    constructor, so the branch that throws for a missing HTTP client is
    not reachable; [setupHttpClient] only configures that instance. *)
Definition initialize (clientConfig : ClientConfig) : M Client :=
  response <- exchangeCodeForTokens (cfg_bufferSDK clientConfig) ;;
  token <- match response with
           | VUndefined => ret VUndefined
           | _ => data <- liftResult (get_property response "data") ;;
                  liftResult (get_property data "access_token")
           end ;;
  match cfg_bufferSDK clientConfig with
  | None => throw (OtherError "TypeError" "bufferSDK is undefined")
  | Some sdk =>
      let cfg :=
        mkConfig token "http://localhost:8083/api/v1/sdk"
          (number_or (cfg_timeout clientConfig) 10000)
          (number_or (cfg_retryAttempts clientConfig) 3)
          (number_or (cfg_retryDelay clientConfig) 1000)
          (RateLimit.mkRateLimitConfig
             (number_or (option_map RateLimit.quota
                                    (cfg_rateLimit clientConfig)) 100)
             (number_or (option_map RateLimit.window
                                    (cfg_rateLimit clientConfig)) 3600000))
          sdk in
      t <- Date_now ;;
      ret (mkClient cfg
             (Retry.mkRetryConfig (retryAttempts cfg) (retryDelay cfg) 2)
             (RateLimit.mkRateLimitState
                0 (t + RateLimit.window (rateLimit cfg))))
  end.

(** [createCompleteAnalyticsOptions(options)]; [new Date()] reads the
    clock like [Date.now()]. *)
Definition createCompleteAnalyticsOptions (options : PartialAnalyticsOptions)
    : G AnalyticsOptions :=
  t1 <~ now ;;
  let defaultStart :=
    Dates.toDateString (t1 - 30 * 24 * 60 * 60 * 1000) in
  t2 <~ now ;;
  let defaultEnd := Dates.toDateString t2 in
  let given (o : option string) :=
    match o with Some s => s | None => "" end in
  gret (mkAnalyticsOptions
          match opt_timeRange options with Some t => t | None => TR_30d end
          (string_or (given (opt_start options)) defaultStart)
          (string_or (given (opt_end options)) defaultEnd)
          (string_or (given (opt_period options)) "day")
          (opt_platforms options)).

Section Operations.
Variable client : Client.

(** [this.config.bufferSDK.sdkMockMode]. *)
Definition mockMode : bool := sdkMockMode (bufferSDK (config client)).

(** In each operation [live] is the branch taken outside simulation
    mode: the request sent through [retryRequest]. *)

Definition profiles_list (live : M (list BufferProfile))
    : M (list BufferProfile) :=
  if mockMode then ret generateMockProfiles else live.

Definition profiles_get (live : M BufferProfile) (profileId : string)
    : M BufferProfile :=
  if mockMode then
    let profiles := generateMockProfiles in
    match find (fun p => String.eqb (id p) profileId) profiles with
    | None =>
        throw (BufferAPIError "PROFILE_NOT_FOUND"
                 ("Profile " ++ profileId ++ " not found") (Some 404))
    | Some profile => ret profile
    end
  else live.

Definition posts_get (live : M BufferPost) (postId : string)
    : M BufferPost :=
  if mockMode then lift (generateMockPost postId None) else live.

Definition posts_create (live : M BufferPost) (profileId : string)
    (data : CreatePostData) : M BufferPost :=
  if mockMode then
    lift (t <~ now ;;
          generateMockPost ("mock_" ++ string_of_Z t) (Some data))
  else live.

Definition posts_analytics (live : M PostAnalytics) (postId : string)
    : M PostAnalytics :=
  if mockMode then lift (generateMockPostAnalytics postId) else live.

(** [executeAnalyticsRequest]. *)
Definition executeAnalyticsRequest {T : Type}
    (options : PartialAnalyticsOptions) (profileId : string)
    (mockDataGenerator : string -> AnalyticsOptions -> G T)
    (live : M T) : M T :=
  if mockMode then
    lift (completeOptions <~ createCompleteAnalyticsOptions options ;;
          mockDataGenerator profileId completeOptions)
  else live.

Definition analytics_posts (live : M (list PostAnalytics))
    (profileId : string) (options : PartialAnalyticsOptions)
    : M (list PostAnalytics) :=
  executeAnalyticsRequest options profileId generateMockAnalytics live.

Definition analytics_summary (live : M AnalyticsSummary)
    (profileId : string) (options : PartialAnalyticsOptions)
    : M AnalyticsSummary :=
  executeAnalyticsRequest options profileId generateMockSummary live.

Definition analytics_insights (live : M Value)
    (profileId : string) (options : PartialAnalyticsOptions) : M Value :=
  executeAnalyticsRequest options profileId
    (fun _ _ => gret (VObject [("insights", VString "mock data")])) live.

End Operations.

End Client.

Import Client.

(* ================================================================= *)
(** ** Sample worlds and clients *)

(** 2026-11-02T12:00:00.000Z. *)
Definition noon : Z := 1793620800000.

(** A world whose clock stands at [t], whose random source always
    returns [r] and whose transport always answers [reply]. *)
Definition steadyWorld (t : Z) (r : Q) (reply : Result Value) : World :=
  mkWorld (fun _ => t) 0 (fun _ => r) 0 (fun _ => reply) [].

Definition tokenReply : Result Value :=
  inr (VObject [("data",
                 VObject [("data",
                           VObject [("access_token", VString "mock-token")])])]).

Definition sampleSDK (mock : bool) : BufferSDK :=
  mkBufferSDK "test-client-id" "test-client-secret"
              "http://localhost:3000/callback" VUndefined mock.

(** The client of the test suite, as [initialize] leaves it. *)
Definition mockClient : Client :=
  mkClient
    (mkConfig (VString "mock-token") "http://localhost:8083/api/v1/sdk"
              10000 3 1000 (RateLimit.mkRateLimitConfig 100 3600000)
              (sampleSDK true))
    (Retry.mkRetryConfig 3 1000 2)
    (RateLimit.mkRateLimitState 0 (noon + 3600000)).

(* ================================================================= *)
(** ** Vocabulary of the statements *)

(** Every call of [requestFn] throws, and what it throws satisfies [P]. *)
Definition alwaysFails {W T : Type} (requestFn : W -> Result T * W)
    (P : Error -> Prop) : Prop :=
  forall w, exists e w', requestFn w = (inl e, w') /\ P e.

(** The test made by the [catch] block of [retryRequest] once attempts
    remain: an error that fails it is thrown again at once. *)
Definition passesFilter (e : Error) : bool :=
  match e with
  | BufferAPIError code _ _ => Retry.includes Retry.retryableCodes code
  | OtherError _ _ => true
  end.

(** The live branch of an operation, for statements about simulation
    mode, where it is not taken. *)
Definition notLive {A : Type} : M A :=
  throw (OtherError "Error" "live request in simulation mode").


(** The configuration of the test suite: an access token and OAuth
    credentials, simulation mode on. *)
Definition testConfig : ClientConfig :=
  mkClientConfig (Some "test-token") None None None None
                 (Some (sampleSDK true)).


(** A world that answers [Math.random()] with the listed draws, then 0. *)
Definition scriptedWorld (t : Z) (draws : list Q) : World :=
  mkWorld (fun _ => t) 0 (fun n => nth n draws 0%Q) 0
          (fun _ => tokenReply) [].

(** Computations that issue no request. *)
Definition keepsSent {A : Type} (m : M A) : Prop :=
  forall w, sent (snd (m w)) = sent w.

(** [analytics.posts(profileId, {timeRange: '7d'})]. *)
Definition sevenDays : PartialAnalyticsOptions :=
  mkPartialOptions (Some TR_7d) None None None None.

(** The time value of a [publishedAt] is more than [days] days before [t]. *)
Definition olderThan (days : Z) (t : Z) (p : PostAnalytics) : bool :=
  match Dates.parseDate (publishedAt p) with
  | Some published => published <? t - days * Dates.msPerDay
  | None => false
  end.

(** [publishedAt] strictly decreases along the list. *)
Fixpoint newestFirstStrictly (posts : list PostAnalytics) : bool :=
  match posts with
  | a :: (b :: _) as rest =>
      match Dates.parseDate (publishedAt a), Dates.parseDate (publishedAt b) with
      | Some ta, Some tb => (tb <? ta) && newestFirstStrictly rest
      | _, _ => false
      end
  | _ => true
  end.

(** The total of a metric bag, field by field; an absent field counts
    for nothing. *)
Definition bagTotal (m : Metrics) : Z :=
  let present (v : option Z) := match v with Some z => z | None => 0 end in
  likes m + comments m + shares m + clicks m
  + present (retweets m) + present (reactions m) + present (saves m).

(** Sum of the metric bags of a list of records. *)
Fixpoint engagementTotal (posts : list PostAnalytics) : Z :=
  match posts with
  | [] => 0
  | p :: rest => bagTotal (metrics p) + engagementTotal rest
  end.

(** Sum and arithmetic mean of the engagement rates. *)
Fixpoint rateTotal (posts : list PostAnalytics) : Q :=
  match posts with
  | [] => 0%Q
  | p :: rest => (engagementRate p + rateTotal rest)%Q
  end.

Definition meanRate (posts : list PostAnalytics) : Q :=
  (rateTotal posts / inject_Z (Z.of_nat (List.length posts)))%Q.

(** [best] is a record of [posts] whose engagement rate none exceeds. *)
Definition hasMaximalRate (posts : list PostAnalytics) (best : PostAnalytics)
    : Prop :=
  In best posts
  /\ forall q, In q posts -> (engagementRate q <= engagementRate best)%Q.

(** The shape of the metric bag that the platform of a record calls for. *)
Definition platformShape (p : PostAnalytics) : Prop :=
  (pa_service p = PlatformX ->
     (exists n, retweets (metrics p) = Some n) /\ saves (metrics p) = None)
  /\ (pa_service p = Instagram ->
        (exists n, saves (metrics p) = Some n)
        /\ retweets (metrics p) = None).

(** [Math.random()] returns numbers of the interval [0, 1). *)
Definition fairDice (w : World) : Prop :=
  forall n, (0 <= dice w n /\ dice w n < 1)%Q.

(* ================================================================= *)
(** ** Error normalisation ([handleAPIError]) *)

Module Transport.

(** The fields of an error response body that the client reads: the
    [code] and [message] of the [APIResponse] envelope. *)
Record ErrorBody : Type := mkErrorBody {
  body_code : option string;
  body_message : option string }.

(** [error.response]: the status and the body, which may be missing. *)
Record ErrorResponse : Type := mkErrorResponse {
  resp_status : Z;
  resp_data : option ErrorBody }.

(** What the transport rejects with: [error.response], whether
    [error.request] is set, and [error.message]. *)
Record RawError : Type := mkRawError {
  raw_response : option ErrorResponse;
  raw_request : bool;
  raw_message : string }.

(** [o || d] on an optional string. *)
Definition given_or (o : option string) (d : string) : string :=
  match o with Some s => string_or s d | None => d end.

(** [handleAPIError(error)]; the [details] of the error are not kept. *)
Definition handleAPIError (error : RawError) : Error :=
  match raw_response error with
  | Some r =>
      let errorData := resp_data r in
      BufferAPIError
        (given_or match errorData with
                  | Some b => body_code b
                  | None => None
                  end
                  ("HTTP_" ++ string_of_Z (resp_status r)))
        (given_or match errorData with
                  | Some b => body_message b
                  | None => None
                  end
                  (raw_message error))
        (Some (resp_status r))
  | None =>
      if raw_request error
      then BufferAPIError "NETWORK_ERROR"
                          "No response received from Buffer API" None
      else BufferAPIError "REQUEST_ERROR" (raw_message error) None
  end.


End Transport.

(* ================================================================= *)
(** ** Listing posts in simulation mode ([generateMockPosts]) *)

Module PostList.

(** A post of [posts.list]: a [BufferPost] together with [sent_at], the
    optional field that only this generator fills. *)
Record ListedPost : Type := mkListedPost {
  listed : BufferPost;
  sent_at : option Z }.

(** One post, for the loop index [i]. *)
Definition listedPost (profileId : string) (i : Z) : G ListedPost :=
  r_status <~ random ;;
  created <~ now ;;
  due <~ now ;;
  r_sent <~ random ;;
  sent <~ (if Qgtb r_sent (5 # 10)
           then t <~ now ;; gret (Some (t - i * 3600000))
           else gret None) ;;
  r_reach <~ random ;;
  r_clicks <~ random ;;
  r_retweets <~ random ;;
  r_favorites <~ random ;;
  r_mentions <~ random ;;
  r_comments <~ random ;;
  r_shares <~ random ;;
  gret (mkListedPost
          (mkPost ("post_" ++ profileId ++ "_" ++ string_of_Z i)
                  profileId
                  (if Qgtb r_status (8 # 10) then StatusBuffer else StatusSent)
                  ("Sample post content " ++ string_of_Z (i + 1)
                     ++ " with engaging text and hashtags #buffer #socialmedia")
                  ("Sample post content " ++ string_of_Z (i + 1)
                     ++ " with engaging text and hashtags <strong>#buffer</strong> <strong>#socialmedia</strong>")
                  (created - i * 86400000)
                  (Some (due + i * 3600000))
                  (mkStatistics (Math_floor (r_reach * 10000))
                                (Math_floor (r_clicks * 500))
                                (Math_floor (r_retweets * 100))
                                (Math_floor (r_favorites * 200))
                                (Math_floor (r_mentions * 50))
                                (Math_floor (r_comments * 30))
                                (Math_floor (r_shares * 40))))
          sent).

(** [generateMockPosts(profileId, options)], with [options.count] as
    argument: the only option the generator reads. *)
Definition generateMockPosts (profileId : string) (optionsCount : option Z)
    : G (list ListedPost) :=
  let count := number_or optionsCount 20 in
  for_loop (Z.to_nat count) 0 (fun _ => true)
           (fun i posts => p <~ listedPost profileId i ;;
                           gret (posts ++ [p])%list)
           [].

(** [posts.list(profileId, options)]. *)
Definition posts_list (client : Client) (live : M (list ListedPost))
    (profileId : string) (optionsCount : option Z) : M (list ListedPost) :=
  if mockMode client then lift (generateMockPosts profileId optionsCount)
  else live.

End PostList.

(* ================================================================= *)
(** ** Query parameters of the live analytics requests *)

Module Params.

(** [convertTimeRangeToDateRange(timeRange)]; its table of days is the
    one of [getTimeRangeDays]. *)
Definition convertTimeRangeToDateRange (t : TimeRange) : G (string * string) :=
  let days := Z_or (timeRangeMap t) 30 in
  endDate <~ now ;;
  gret (Dates.toDateString (endDate - days * 24 * 60 * 60 * 1000),
        Dates.toDateString endDate).

(** A string option that is set and not empty. *)
Definition truthy (o : option string) : bool :=
  match o with Some s => negb (String.eqb s "") | None => false end.

Definition appendIf (o : option string) (name : string)
    (params : list (string * string)) : list (string * string) :=
  match o with
  | Some s => if String.eqb s "" then params else (params ++ [(name, s)])%list
  | None => params
  end.

(** [buildAnalyticsParams(options)]: the [URLSearchParams] as the list of
    its entries in the order they are appended.  [groupBy], which
    [PartialAnalyticsOptions] leaves out, is passed beside it. *)
Definition buildAnalyticsParams (options : PartialAnalyticsOptions)
    (groupBy : option string) : G (list (string * string)) :=
  dates <~ (if truthy (opt_start options) || truthy (opt_end options)
            then gret (appendIf (opt_end options) "end"
                         (appendIf (opt_start options) "start" []))
            else
              range <~ convertTimeRangeToDateRange
                         match opt_timeRange options with
                         | Some t => t
                         | None => TR_30d
                         end ;;
              gret [("start", fst range); ("end", snd range)]) ;;
  gret (appendIf groupBy "groupBy"
          (appendIf (opt_period options) "period" dates)).

(** The value of the first entry named [name]: [params.get(name)]. *)
Fixpoint get (name : string) (params : list (string * string))
    : option string :=
  match params with
  | [] => None
  | (k, v) :: rest => if String.eqb k name then Some v else get name rest
  end.

End Params.

(* ================================================================= *)
(** ** Vocabulary of the further statements *)

(** Number of checks of a sequence that were let through. *)
Definition passed (results : list (Result unit)) : nat :=
  List.length (filter (fun r => match r with inr _ => true | inl _ => false end)
                      results).

(** The clock never runs backwards. *)
Definition monotoneClock (w : World) : Prop :=
  forall n m, (n <= m)%nat -> clock w n <= clock w m.

(** The options [o] with another [timeRange]. *)
Definition withTimeRange (o : PartialAnalyticsOptions)
    (t : option TimeRange) : PartialAnalyticsOptions :=
  mkPartialOptions t (opt_start o) (opt_end o) (opt_period o)
                   (opt_platforms o).

(** Totals over the entries of a platform breakdown. *)
Fixpoint countTotal (l : list PlatformBreakdown) : nat :=
  match l with
  | [] => 0%nat
  | b :: rest => (postCount b + countTotal rest)%nat
  end.

Fixpoint reachTotal (l : list PlatformBreakdown) : Z :=
  match l with
  | [] => 0
  | b :: rest => bd_reach b + reachTotal rest
  end.

(* ================================================================= *)
(** ** Vocabulary of the statements about dates *)

(** The time values of the years 0000 to 9999, which [toISOString]
    writes with four digits. *)
Definition commonEra (t : Z) : Prop :=
  -62167219200000 <= t <= 253402300799999.

(** [f] holds of the [n] integers from [z] on. *)
Fixpoint allFrom (n : nat) (z : Z) (f : Z -> bool) : bool :=
  match n with
  | O => true
  | S k => f z && allFrom k (z + 1) f
  end.

(** [pad width z] has [width] characters, starts with a digit and reads
    back as [z]. *)
Definition padReadsBack (width : nat) (z : Z) : bool :=
  (String.length (Dates.pad width z) =? width)%nat
  && match Dates.numberOf (Dates.pad width z) 0 with
     | Some v => v =? z
     | None => false
     end
  && match Dates.pad width z with
     | String c _ => match Dates.digit c with Some _ => true | None => false end
     | EmptyString => false
     end.

(** What [parseDate] does once the year and the offset of the rest are
    known. *)
Definition parseAfterYear (s : string) (off : nat) (year : option Z)
    : option Z :=
  match year, Dates.field s (off + 1) 2, Dates.field s (off + 4) 2 with
  | Some y, Some m, Some d =>
      if Dates.charAt s off "-" && Dates.charAt s (off + 3) "-"
         && (1 <=? m) && (m <=? 12) && (1 <=? d)
         && (d <=? Dates.daysInMonth y m)
      then
        let day := Dates.days_from_civil y m d in
        let t :=
          if (String.length s =? off + 6)%nat
          then Some (day * Dates.msPerDay)
          else if (String.length s =? off + 20)%nat
          then match Dates.timeOfDay s off with
               | Some r => Some (day * Dates.msPerDay + r)
               | None => None
               end
          else None in
        match t with
        | Some t' => if Z.abs t' <=? Dates.maxTime then Some t' else None
        | None => None
        end
      else None
  | _, _, _ => None
  end.

(** [a] was published no earlier than [b]. *)
Definition notOlder (a b : PostAnalytics) : Prop :=
  exists ta tb,
    Dates.parseDate (publishedAt a) = Some ta
    /\ Dates.parseDate (publishedAt b) = Some tb
    /\ tb <= ta.

(** [p] was published at a time between [lo] and [hi]. *)
Definition publishedWithin (lo hi : Z) (p : PostAnalytics) : Prop :=
  exists t, Dates.parseDate (publishedAt p) = Some t /\ lo <= t <= hi.

(** Midnight UTC of the day of [t]. *)
Definition midnight (t : Z) : Z := t / Dates.msPerDay * Dates.msPerDay.

(** Options that give a window of January 2024. *)
Definition january : AnalyticsOptions :=
  mkAnalyticsOptions TR_30d "2024-01-01" "2024-01-31" "day" None.

(* ================================================================= *)
(** ** Sanity checks of the date model *)

Example toISOString_sample :
  Dates.toISOString 1793620800123 = "2026-11-02T12:00:00.123Z"
  /\ Dates.toDateString 1793620800123 = "2026-11-02"
  /\ Dates.parseDate "2026-11-02" = Some 1793577600000
  /\ Dates.parseDate "2026-11-02T12:00:00.123Z" = Some 1793620800123
  /\ Dates.parseDate "2024-02-30" = None
  /\ Dates.parseDate "next week" = None
  /\ Dates.toISOString (-1) = "1969-12-31T23:59:59.999Z"
  /\ Dates.toISOString 0 = "1970-01-01T00:00:00.000Z".
Proof. vm_compute. repeat split; reflexivity. Qed.

(** [mockClient] is the client that [initialize] builds from the
    configuration of the test suite. *)
Example initialize_testConfig :
  fst (initialize testConfig (steadyWorld noon (1 # 2) tokenReply))
  = inr mockClient.
Proof. reflexivity. Qed.

(* ================================================================= *)
(** ** Properties of the rate limiter *)

Lemma Forall_firstn_of {A : Type} (P : A -> Prop) (l : list A) :
  Forall P l -> forall k, Forall P (firstn k l).
Proof.
  induction 1 as [|a l Ha Hl IH]; intros [|k]; cbn; constructor; auto.
Qed.

Section RateLimitFacts.
Import RateLimit.
Variable cfg : RateLimitConfig.

Lemma resetIfExpired_within (now : Z) (st : RateLimitState) :
  now <= resetTime st -> resetIfExpired cfg now st = st.
Proof.
  intros H. unfold resetIfExpired.
  destruct (Z.gtb_spec now (resetTime st)); [lia | reflexivity].
Qed.

Lemma resetIfExpired_expired (now : Z) (st : RateLimitState) :
  resetTime st < now ->
  resetIfExpired cfg now st = mkRateLimitState 0 (now + window cfg).
Proof.
  intros H. unfold resetIfExpired.
  destruct (Z.gtb_spec now (resetTime st)); [reflexivity | lia].
Qed.

Lemma countRequest_below (now : Z) (st : RateLimitState) :
  requests st < quota cfg ->
  countRequest cfg now st
  = (inr tt, mkRateLimitState (requests st + 1) (resetTime st)).
Proof.
  intros H. unfold countRequest.
  destruct (Z.geb_spec (requests st) (quota cfg)); [lia | reflexivity].
Qed.

Lemma countRequest_exhausted (now : Z) (st : RateLimitState) :
  quota cfg <= requests st ->
  countRequest cfg now st = (inl (rateLimitError (resetTime st - now)), st).
Proof.
  intros H. unfold countRequest.
  destruct (Z.geb_spec (requests st) (quota cfg)); [reflexivity | lia].
Qed.

(** Within one window, [k] checks that stay below the quota all pass
    and leave the counter [k] higher. *)
Lemma checkAll_within (times : list Z) :
  forall (used reset : Z),
    used + Z.of_nat (List.length times) <= quota cfg ->
    Forall (fun t => t <= reset) times ->
    checkAll cfg times (mkRateLimitState used reset)
    = (repeat (inr tt) (List.length times),
       mkRateLimitState (used + Z.of_nat (List.length times)) reset).
Proof.
  induction times as [|t rest IH]; intros used reset Hq Hw.
  - cbn. now rewrite Z.add_0_r.
  - inversion Hw as [|? ? Ht Hrest]; subst.
    cbn [checkAll List.length repeat]. unfold checkRateLimit.
    rewrite resetIfExpired_within by exact Ht.
    rewrite countRequest_below by (cbn in *; lia).
    cbn [requests resetTime].
    rewrite IH by (cbn [List.length] in Hq; try lia; assumption).
    f_equal. f_equal. cbn [List.length]. lia.
Qed.

Lemma checkAll_app (t1 t2 : list Z) (st : RateLimitState) :
  checkAll cfg (t1 ++ t2) st
  = ((fst (checkAll cfg t1 st)
        ++ fst (checkAll cfg t2 (snd (checkAll cfg t1 st))))%list,
     snd (checkAll cfg t2 (snd (checkAll cfg t1 st)))).
Proof.
  revert st. induction t1 as [|t rest IH]; intros st.
  - cbn. now destruct (checkAll cfg t2 st).
  - cbn [app checkAll].
    destruct (checkRateLimit cfg t st) as [r st1].
    rewrite IH.
    destruct (checkAll cfg rest st1) as [rs st2]. cbn [fst snd].
    now destruct (checkAll cfg t2 st2).
Qed.

End RateLimitFacts.

(** C3. Rate-limit windowing.  Start from a window whose counter is 0 and
    issue [quota + 1] checks, none later than the window's [resetTime]:
    every prefix of [k <= quota] checks succeeds and leaves the counter at
    [k]; the last check fails with RATE_LIMIT_EXCEEDED (status 429), the
    error being built from the remaining wait [resetTime - now]; the
    counter stays at the quota.  Independently, a check made after the
    stored [resetTime] of any state first resets the counter to 0 with the
    new [resetTime = now + window], and then succeeds, counting itself. *)
Theorem C3_rate_limit_windowing :
  forall (cfg : RateLimit.RateLimitConfig) (st used : RateLimit.RateLimitState)
         (times : list Z) (last later : Z),
    0 < RateLimit.quota cfg ->
    RateLimit.requests st = 0 ->
    Z.of_nat (List.length times) = RateLimit.quota cfg ->
    Forall (fun t => t <= RateLimit.resetTime st) (times ++ [last]) ->
    RateLimit.resetTime used < later ->
    (forall k, (k <= List.length times)%nat ->
       RateLimit.checkAll cfg (firstn k times) st
       = (repeat (inr tt) k,
          RateLimit.mkRateLimitState (Z.of_nat k) (RateLimit.resetTime st)))
    /\ RateLimit.checkAll cfg (times ++ [last]) st
       = ((repeat (inr tt) (List.length times)
             ++ [inl (BufferAPIError "RATE_LIMIT_EXCEEDED"
                        ("Rate limit exceeded. Try again in "
                           ++ string_of_Z
                                (Math_ceil
                                   (inject_Z (RateLimit.resetTime st - last)
                                    / 1000))
                           ++ " seconds.")%string
                        (Some 429))])%list,
          RateLimit.mkRateLimitState (RateLimit.quota cfg)
                                     (RateLimit.resetTime st))
    /\ RateLimit.resetIfExpired cfg later used
       = RateLimit.mkRateLimitState 0 (later + RateLimit.window cfg)
    /\ RateLimit.checkRateLimit cfg later used
       = (inr tt,
          RateLimit.mkRateLimitState 1 (later + RateLimit.window cfg)).
Proof.
  intros cfg [used0 reset] used times last later Hq H0 Hlen Hwin Hlate.
  cbn [RateLimit.requests RateLimit.resetTime] in *. subst used0.
  apply Forall_app in Hwin. destruct Hwin as [Htimes Hlast].
  inversion Hlast as [|? ? Hl _]; subst.
  repeat split.
  - intros k Hk.
    assert (Hf : List.length (firstn k times) = k)
      by (rewrite length_firstn; lia).
    rewrite checkAll_within.
    + now rewrite Hf.
    + rewrite Hf. lia.
    + now apply Forall_firstn_of.
  - rewrite checkAll_app, checkAll_within by (try lia; assumption).
    cbn [fst snd RateLimit.checkAll]. unfold RateLimit.checkRateLimit.
    rewrite resetIfExpired_within by exact Hl.
    rewrite countRequest_exhausted by (cbn; lia).
    cbn [fst snd]. rewrite Hlen. reflexivity.
  - now apply resetIfExpired_expired.
  - unfold RateLimit.checkRateLimit.
    rewrite resetIfExpired_expired by exact Hlate.
    rewrite countRequest_below by (cbn; lia). reflexivity.
Qed.

(** A quota of 2 in a window that closes at 5000 ms: checks at 1000 and
    2000 pass, the check at 3000 is refused, the check at 9000 opens a
    new window. *)
Lemma C3_rate_limit_windowing_witness :
  RateLimit.checkAll (RateLimit.mkRateLimitConfig 2 5000) [1000; 2000; 3000]
                     (RateLimit.mkRateLimitState 0 5000)
  = ([inr tt; inr tt;
      inl (BufferAPIError "RATE_LIMIT_EXCEEDED"
             "Rate limit exceeded. Try again in 2 seconds." (Some 429))],
     RateLimit.mkRateLimitState 2 5000)
  /\ RateLimit.checkRateLimit (RateLimit.mkRateLimitConfig 2 5000) 9000
                              (RateLimit.mkRateLimitState 2 5000)
     = (inr tt, RateLimit.mkRateLimitState 1 14000).
Proof.
  destruct (C3_rate_limit_windowing
              (RateLimit.mkRateLimitConfig 2 5000)
              (RateLimit.mkRateLimitState 0 5000)
              (RateLimit.mkRateLimitState 2 5000)
              [1000; 2000] 3000 9000) as (_ & Hall & _ & Hnext).
  - cbn; lia.
  - reflexivity.
  - reflexivity.
  - repeat constructor; cbn; lia.
  - cbn; lia.
  - split; [exact Hall | exact Hnext].
Defined.

(* ================================================================= *)
(** ** Properties of the retry wrapper *)

Section RetryFacts.
Import Retry.
Context {W T : Type}.
Variable cfg : RetryConfig.
Variable requestFn : W -> Result T * W.

(** A failure that passes the filter while attempts remain leads to a
    sleep and a further call. *)
Lemma retryRequest_rec_retry (fuel : nat) (cur : Z) (w w1 : W) (e : Error) :
  requestFn w = (inl e, w1) ->
  cur < attempts cfg ->
  passesFilter e = true ->
  retryRequest_rec cfg requestFn (S fuel) cur w
  = let r := retryRequest_rec cfg requestFn fuel (cur + 1) w1 in
    mkRun (outcome r)
          (Attempted cur (Some e)
             :: Slept (delay cfg * Z.pow (backoffFactor cfg) (cur - 1))
             :: trace r)
          (final r).
Proof.
  intros Hreq Hcur Hpass. cbn [retryRequest_rec]. rewrite Hreq.
  destruct (Z.geb_spec cur (attempts cfg)); [lia|].
  destruct e as [code msg sc | name msg]; [|reflexivity].
  change (includes retryableCodes code = true) in Hpass.
  rewrite Hpass. reflexivity.
Qed.

(** The last attempt rethrows whatever it caught. *)
Lemma retryRequest_rec_last (fuel : nat) (cur : Z) (w w1 : W) (e : Error) :
  requestFn w = (inl e, w1) ->
  attempts cfg <= cur ->
  retryRequest_rec cfg requestFn fuel cur w
  = mkRun (Some (inl e)) [Attempted cur (Some e)] w1.
Proof.
  intros Hreq Hcur. destruct fuel; cbn [retryRequest_rec]; rewrite Hreq;
    destruct (Z.geb_spec cur (attempts cfg)); (lia || reflexivity).
Qed.

(** An error that fails the filter is rethrown by the attempt that
    caught it. *)
Lemma retryRequest_rec_rethrow (fuel : nat) (cur : Z) (w w1 : W) (e : Error) :
  requestFn w = (inl e, w1) ->
  passesFilter e = false ->
  retryRequest_rec cfg requestFn fuel cur w
  = mkRun (Some (inl e)) [Attempted cur (Some e)] w1.
Proof.
  intros Hreq Hpass.
  destruct e as [code msg sc | name msg]; [|discriminate Hpass].
  change (includes retryableCodes code = false) in Hpass.
  destruct fuel; cbn [retryRequest_rec]; rewrite Hreq;
    destruct (cur >=? attempts cfg); try reflexivity;
    rewrite Hpass; reflexivity.
Qed.

(** When every call fails with an error that passes the filter, the
    attempts numbered [cur] to [attempts] are all made and the error of
    the last one is the result. *)
Lemma retryRequest_rec_exhausts (P : Error -> Prop) :
  alwaysFails requestFn P ->
  (forall e, P e -> passesFilter e = true) ->
  forall (n : nat) (cur : Z) (w : W),
    cur + Z.of_nat n = attempts cfg ->
    let r := retryRequest_rec cfg requestFn n cur w in
    attemptsMade (trace r) = S n
    /\ exists e, P e /\ outcome r = Some (inl e)
                 /\ List.last (trace r) (Slept 0)
                    = Attempted (attempts cfg) (Some e).
Proof.
  intros Hfail Hpass. induction n as [|n IH]; intros cur w Hcur.
  - destruct (Hfail w) as (e & w1 & Hreq & He).
    cbn zeta. rewrite (retryRequest_rec_last 0 cur w w1 e Hreq) by lia.
    cbn. split; [reflexivity|]. exists e. repeat split; auto.
    f_equal. lia.
  - destruct (Hfail w) as (e & w1 & Hreq & He).
    cbn zeta.
    rewrite (retryRequest_rec_retry n cur w w1 e Hreq) by (auto; lia).
    destruct (IH (cur + 1) w1) as (Hn & e' & He' & Hout & Hlast); [lia|].
    cbn zeta in *. cbn [trace outcome].
    split.
    + unfold attemptsMade in *. cbn. now rewrite Hn.
    + exists e'. repeat split; auto.
      remember (trace (retryRequest_rec cfg requestFn n (cur + 1) w1)) as t.
      destruct t as [|ev t]; [discriminate Hn|].
      exact Hlast.
Qed.



End RetryFacts.

(** C4. Retry bound.  With [attempts = N >= 1]: when every call of the
    request function throws a [BufferAPIError] whose code is one of
    NETWORK_ERROR, TIMEOUT, HTTP_500, HTTP_502, HTTP_503, [retryRequest]
    calls it exactly [N] times and rejects with the error of the [N]-th
    call; when every call throws a [BufferAPIError] with any other code,
    it is called exactly once and that error is the result. *)
Theorem C4_retry_bound :
  forall (W T : Type) (cfg : Retry.RetryConfig)
         (requestFn : W -> Result T * W) (w : W),
    1 <= Retry.attempts cfg ->
    (alwaysFails requestFn
       (fun e => exists code msg sc,
            e = BufferAPIError code msg sc
            /\ In code ["NETWORK_ERROR"; "TIMEOUT"; "HTTP_500";
                        "HTTP_502"; "HTTP_503"]) ->
     let r := Retry.retryRequest cfg requestFn w in
     Retry.attemptsMade (Retry.trace r) = Z.to_nat (Retry.attempts cfg)
     /\ exists e, Retry.outcome r = Some (inl e)
                  /\ List.last (Retry.trace r) (Retry.Slept 0)
                     = Retry.Attempted (Retry.attempts cfg) (Some e))
    /\ (alwaysFails requestFn
          (fun e => exists code msg sc,
               e = BufferAPIError code msg sc
               /\ ~ In code ["NETWORK_ERROR"; "TIMEOUT"; "HTTP_500";
                             "HTTP_502"; "HTTP_503"]) ->
        let r := Retry.retryRequest cfg requestFn w in
        Retry.attemptsMade (Retry.trace r) = 1%nat
        /\ exists e, Retry.outcome r = Some (inl e)
                     /\ Retry.trace r = [Retry.Attempted 1 (Some e)]).
Proof.
  intros W T cfg requestFn w HN. split.
  - intros Hfail. unfold Retry.retryRequest, Retry.retryRequest_from.
    pose (P := fun e : Error => exists code msg sc,
                 e = BufferAPIError code msg sc
                 /\ In code ["NETWORK_ERROR"; "TIMEOUT"; "HTTP_500";
                             "HTTP_502"; "HTTP_503"]).
    destruct (retryRequest_rec_exhausts cfg requestFn P Hfail) with
      (n := Z.to_nat (Retry.attempts cfg - 1)) (cur := 1) (w := w)
      as (Hn & e & _ & Hout & Hlast).
    + intros e (code & msg & sc & -> & Hin). cbn.
      cbn in Hin.
      repeat (destruct Hin as [<- | Hin]; [reflexivity|]). contradiction.
    + lia.
    + cbn zeta. split.
      * rewrite Hn. lia.
      * exists e. split; assumption.
  - intros Hfail. destruct (Hfail w) as (e & w1 & Hreq & code & msg & sc & -> & Hnot).
    cbn zeta. unfold Retry.retryRequest, Retry.retryRequest_from.
    rewrite (retryRequest_rec_rethrow cfg requestFn _ 1 w w1 _ Hreq).
    + cbn. split; [reflexivity|]. eexists. split; reflexivity.
    + change (Retry.includes Retry.retryableCodes code = false).
      unfold Retry.includes.
      destruct (existsb (String.eqb code) Retry.retryableCodes) eqn:Hex;
        [|reflexivity].
      apply existsb_exists in Hex. destruct Hex as (c & Hc & Heq).
      apply String.eqb_eq in Heq. subst c. contradiction.
Qed.

(** Three attempts allowed: a transport that always answers HTTP_503 is
    called three times, one that always answers HTTP_404 once. *)
Lemma C4_retry_bound_witness :
  (let r := Retry.retryRequest (Retry.mkRetryConfig 3 1000 2)
              (fun n : nat =>
                 (inl (BufferAPIError "HTTP_503" "unavailable" (Some 503))
                    : Result unit, S n)) 0%nat in
   Retry.attemptsMade (Retry.trace r) = 3%nat
   /\ Retry.final r = 3%nat)
  /\ (let r := Retry.retryRequest (Retry.mkRetryConfig 3 1000 2)
                 (fun n : nat =>
                    (inl (BufferAPIError "HTTP_404" "missing" (Some 404))
                       : Result unit, S n)) 0%nat in
      Retry.attemptsMade (Retry.trace r) = 1%nat
      /\ Retry.final r = 1%nat).
Proof.
  split.
  - destruct (C4_retry_bound nat unit (Retry.mkRetryConfig 3 1000 2)
                (fun n : nat =>
                   (inl (BufferAPIError "HTTP_503" "unavailable" (Some 503))
                      : Result unit, S n)) 0%nat) as [Hretry _].
    + cbn; lia.
    + destruct Hretry as [Hn _].
      * intros n. eexists; eexists; split; [reflexivity|].
        do 3 eexists; split; [reflexivity|]. cbn. auto 10.
      * cbn zeta. split; [exact Hn | reflexivity].
  - destruct (C4_retry_bound nat unit (Retry.mkRetryConfig 3 1000 2)
                (fun n : nat =>
                   (inl (BufferAPIError "HTTP_404" "missing" (Some 404))
                      : Result unit, S n)) 0%nat) as [_ Honce].
    + cbn; lia.
    + destruct Honce as [Hn _].
      * intros n. eexists; eexists; split; [reflexivity|].
        do 3 eexists; split; [reflexivity|]. cbn.
        intros H; repeat (destruct H as [H | H]; [discriminate H|]);
          exact H.
      * cbn zeta. split; [exact Hn | reflexivity].
Defined.

(** C9. The retryable-code filter applies to [BufferAPIError] instances
    only.  With [attempts = N > 1], when every call of the request
    function throws something that is not a [BufferAPIError], whatever its
    name and message, the request is called again after each failure until
    [N] calls have been made, and the error of the [N]-th call is the
    result. *)
Theorem C9_other_errors_are_retried :
  forall (W T : Type) (cfg : Retry.RetryConfig)
         (requestFn : W -> Result T * W) (w : W),
    1 < Retry.attempts cfg ->
    alwaysFails requestFn (fun e => exists name msg, e = OtherError name msg) ->
    let r := Retry.retryRequest cfg requestFn w in
    Retry.attemptsMade (Retry.trace r) = Z.to_nat (Retry.attempts cfg)
    /\ exists name msg,
         Retry.outcome r = Some (inl (OtherError name msg))
         /\ List.last (Retry.trace r) (Retry.Slept 0)
            = Retry.Attempted (Retry.attempts cfg)
                              (Some (OtherError name msg)).
Proof.
  intros W T cfg requestFn w HN Hfail.
  unfold Retry.retryRequest, Retry.retryRequest_from.
  destruct (retryRequest_rec_exhausts cfg requestFn _ Hfail) with
    (n := Z.to_nat (Retry.attempts cfg - 1)) (cur := 1) (w := w)
    as (Hn & e & (name & msg & ->) & Hout & Hlast).
  - intros e (name & msg & ->). reflexivity.
  - lia.
  - cbn zeta. split.
    + rewrite Hn. lia.
    + exists name, msg. split; assumption.
Qed.

(** Three attempts allowed and a request function that always throws a
    plain [Error]: it is called three times. *)
Lemma C9_other_errors_are_retried_witness :
  let r := Retry.retryRequest (Retry.mkRetryConfig 3 1000 2)
             (fun n : nat =>
                (inl (OtherError "Error" "boom") : Result unit, S n)) 0%nat in
  Retry.attemptsMade (Retry.trace r) = 3%nat
  /\ Retry.sleeps (Retry.trace r) = [1000; 2000]
  /\ Retry.final r = 3%nat.
Proof.
  destruct (C9_other_errors_are_retried nat unit
              (Retry.mkRetryConfig 3 1000 2)
              (fun n : nat =>
                 (inl (OtherError "Error" "boom") : Result unit, S n))
              0%nat) as [Hn _].
  - cbn; lia.
  - intros n. eexists; eexists; split; [reflexivity|].
    do 2 eexists; reflexivity.
  - cbn zeta. split; [exact Hn | split; reflexivity].
Defined.

(* ================================================================= *)
(** ** Properties of the public operations in simulation mode *)

Lemma find_absent {A : Type} (f : A -> bool) (l : list A) :
  (forall a, In a l -> f a = false) -> find f l = None.
Proof.
  induction l as [|a l IH]; intros H; [reflexivity|]. cbn.
  rewrite (H a) by (left; reflexivity). apply IH.
  intros b Hb. apply H. now right.
Qed.

(** C5 as stated fails for posts: in simulation mode [posts.get] on an id
    that nothing generated does not fail with POST_NOT_FOUND, it returns a
    post with that id. *)
Lemma C5_posts_get_never_fails :
  exists post w',
    posts_get mockClient notLive "no-such-post"
              (steadyWorld noon (1 # 2) tokenReply)
    = (inr post, w')
    /\ post_id post = "no-such-post"
    /\ text post = "Mock post content for no-such-post".
Proof. do 2 eexists. split; [reflexivity | split; reflexivity]. Qed.

(** C5, amended.  In simulation mode [profiles.get] fails with
    PROFILE_NOT_FOUND (status 404) for every id that no entry of the
    four-entry mock catalog carries, issuing no request and leaving the
    world as it was; [posts.get] searches no catalog: for every post id it
    succeeds with a fabricated post that carries the requested id. *)
Theorem C5_not_found_in_simulation :
  forall (client : Client) (liveProfile : M BufferProfile)
         (livePost : M BufferPost) (profileId postId : string) (w : World),
    mockMode client = true ->
    (forall p, In p generateMockProfiles -> id p <> profileId) ->
    List.length generateMockProfiles = 4%nat
    /\ profiles_get client liveProfile profileId w
       = (inl (BufferAPIError "PROFILE_NOT_FOUND"
                 ("Profile " ++ profileId ++ " not found") (Some 404)), w)
    /\ exists post w',
         posts_get client livePost postId w = (inr post, w')
         /\ post_id post = postId.
Proof.
  intros client liveProfile livePost profileId postId w Hmock Habsent.
  split; [reflexivity|]. split.
  - unfold profiles_get. rewrite Hmock.
    rewrite find_absent; [reflexivity|].
    intros p Hp. apply String.eqb_neq. now apply Habsent.
  - unfold posts_get. rewrite Hmock. do 2 eexists.
    split; reflexivity.
Qed.

Lemma C5_not_found_in_simulation_witness :
  profiles_get mockClient notLive "non-existent-id"
               (steadyWorld noon (1 # 2) tokenReply)
  = (inl (BufferAPIError "PROFILE_NOT_FOUND"
            "Profile non-existent-id not found" (Some 404)),
     steadyWorld noon (1 # 2) tokenReply).
Proof.
  destruct (C5_not_found_in_simulation mockClient notLive notLive
              "non-existent-id" "post_1"
              (steadyWorld noon (1 # 2) tokenReply)) as (_ & H & _).
  - reflexivity.
  - intros p Hp. cbn in Hp.
    repeat (destruct Hp as [<- | Hp]; [discriminate|]). contradiction.
  - exact H.
Defined.


Lemma keepsSent_throw {A : Type} (e : Error) : keepsSent (@throw A e).
Proof. intros w. reflexivity. Qed.










(** C10. [posts.create] in simulation mode.  For every profile id and
    every post data the call succeeds; the post has [profile_id]
    "profile_mock_001" whatever profile was named, the id "mock_" followed
    by the reading of [Date.now()] made by the call, status 'buffer',
    statistics that are all zero, and, when the supplied text is not
    empty, that text. *)
Theorem C10_create_in_simulation :
  forall (client : Client) (live : M BufferPost) (profileId : string)
         (data : CreatePostData) (w : World),
    mockMode client = true ->
    exists post w',
      posts_create client live profileId data w = (inr post, w')
      /\ profile_id post = "profile_mock_001"
      /\ post_id post = "mock_" ++ string_of_Z (clock w (clock_reads w))
      /\ status post = StatusBuffer
      /\ statistics post = mkStatistics 0 0 0 0 0 0 0
      /\ (data_text data <> "" -> text post = data_text data).
Proof.
  intros client live profileId [txt when] w Hmock.
  unfold posts_create. rewrite Hmock.
  unfold lift, gbind, now, generateMockPost, gbind, now, gret.
  cbn [data_text clock clock_reads].
  assert (Htext : txt <> "" ->
                  string_or txt
                    ("Mock post content for "
                       ++ ("mock_" ++ string_of_Z (clock w (clock_reads w))))
                  = txt).
  { intros Hne. unfold string_or.
    destruct (String.eqb_spec txt ""); [contradiction | reflexivity]. }
  destruct when as [s|]; [destruct (String.eqb s "")|];
    do 2 eexists; (split; [reflexivity|]); cbn; auto 10.
Qed.

Lemma C10_create_in_simulation_witness :
  exists post w',
    posts_create mockClient notLive "profile_x_001"
      (mkCreatePostData "Test post from SDK" None)
      (steadyWorld noon (1 # 2) tokenReply)
    = (inr post, w')
    /\ profile_id post = "profile_mock_001"
    /\ post_id post = "mock_1793620800000"
    /\ text post = "Test post from SDK".
Proof.
  destruct (C10_create_in_simulation mockClient notLive "profile_x_001"
              (mkCreatePostData "Test post from SDK" None)
              (steadyWorld noon (1 # 2) tokenReply))
    as (post & w' & Hrun & Hprofile & Hid & _ & _ & Htext).
  - reflexivity.
  - exists post, w'. repeat split; try assumption.
    apply Htext. discriminate.
Defined.

(** C2 at a failing input.  At 2026-11-02T12:00:00.000Z, with every random
    draw 0.5, [analytics.posts("profile_x_001", {timeRange: '7d'})] in
    simulation mode is given the window 2026-10-03 to 2026-11-02 by
    [createCompleteAnalyticsOptions], for which [getTimeRangeDays] answers
    30; it returns 118 posts, newest first and with distinct dates, of
    which 91 were published more than seven days before the call, the
    oldest on 2026-10-03. *)
Lemma C2_seven_day_range_ignored :
  start (fst (createCompleteAnalyticsOptions sevenDays
                (steadyWorld noon (1 # 2) tokenReply))) = "2026-10-03"
  /\ getTimeRangeDays
       (fst (createCompleteAnalyticsOptions sevenDays
               (steadyWorld noon (1 # 2) tokenReply))) = Some 30
  /\ match analytics_posts mockClient notLive "profile_x_001" sevenDays
             (steadyWorld noon (1 # 2) tokenReply) with
     | (inr posts, _) =>
         List.length posts = 118%nat
         /\ newestFirstStrictly posts = true
         /\ List.length (filter (olderThan 7 noon) posts) = 91%nat
         /\ map publishedAt (skipn 117 posts) = ["2026-10-03T18:00:00.000Z"]
     | (inl _, _) => False
     end.
Proof. vm_compute. repeat split; reflexivity. Qed.

(** C7 at a failing input.  [posts.analytics("post_1")] in simulation
    mode, when [Math.random()] returns 0 for the engagement rate, 0.9 for
    the reach and 0.1 for the impressions: the record has engagement rate
    0, outside (0, 1], and 1000 impressions for a reach of 4500. *)
Lemma C7_single_post_breaks_invariants :
  match posts_analytics mockClient notLive "post_1"
          (scriptedWorld noon
             [1 # 2; 1 # 2; 1 # 2; 1 # 2; 1 # 2; 0; 9 # 10; 1 # 10]%Q) with
  | (inr p, _) =>
      engagementRate p == 0
      /\ reach p = 4500 /\ impressions p = 1000
      /\ impressions p < reach p
  | (inl _, _) => False
  end.
Proof. vm_compute. repeat split; reflexivity. Qed.

(* ================================================================= *)
(** ** Properties of the batch generator *)

Section Loops.
Context {S : Type}.
Variable I : S -> World -> Prop.
Variable cond : S -> bool.
Variable body : Z -> S -> G S.
Hypothesis body_keeps :
  forall i s w, I s w -> cond s = true ->
                I (fst (body i s w)) (snd (body i s w)).

(** An invariant of the body is an invariant of the loop. *)
Lemma for_loop_invariant (n : nat) :
  forall i s w, I s w ->
    I (fst (for_loop n i cond body s w)) (snd (for_loop n i cond body s w)).
Proof.
  induction n as [|n IH]; intros i s w HI; cbn [for_loop].
  - exact HI.
  - destruct (cond s) eqn:Hc; [|exact HI].
    unfold gbind. specialize (body_keeps i s w HI Hc).
    destruct (body i s w) as [s1 w1]. cbn [fst snd] in body_keeps.
    now apply IH.
Qed.
End Loops.

Section Sorting.
Context {A : Type}.
Variable compare : A -> A -> Z.

Lemma insert_Permutation (a : A) (l : list A) :
  Permutation (a :: l) (insert compare a l).
Proof.
  induction l as [|b l IH]; cbn [insert]; [reflexivity|].
  destruct (compare a b <=? 0); [reflexivity|].
  rewrite perm_swap. now constructor.
Qed.

Lemma sort_Permutation (l : list A) : Permutation l (sort compare l).
Proof.
  induction l as [|a l IH]; cbn [sort]; [constructor|].
  rewrite <- insert_Permutation. now constructor.
Qed.
End Sorting.

Section Batch.
Variable profileId : string.
Variable options : AnalyticsOptions.
Variable w0 : World.

(** A property of every record that [makePost] can build from draws of
    the random source of [w0]. *)
Variable P : PostAnalytics -> Prop.
Hypothesis P_makePost :
  forall p index postDate n1 n2 n3,
    P (makePost profileId p index postDate
                (dice w0 n1) (dice w0 n2) (dice w0 n3)).

Let inv (s : Batch) (w : World) : Prop :=
  dice w = dice w0 /\ Forall P (analytics s).

Lemma postStep_keeps (day dailyPostCount i : Z) (s : Batch) (w : World) :
  inv s w ->
  inv (fst (postStep profileId options day dailyPostCount i s w))
      (snd (postStep profileId options day dailyPostCount i s w)).
Proof.
  intros [Hd HP]. unfold postStep, gbind, now, random, gret.
  cbn [clock clock_reads dice dice_rolls network sent].
  match goal with |- context [beforeStart options ?d] =>
    destruct (beforeStart options d) end; [split; assumption|].
  match goal with |- context [afterEnd options ?d] =>
    destruct (afterEnd options d) end; [split; assumption|].
  cbn [fst snd analytics dice]. split; [assumption|].
  apply Forall_app. split; [assumption|].
  constructor; [|constructor]. rewrite Hd. apply P_makePost.
Qed.

Lemma dayStep_keeps (totalPosts postsPerDay day : Z) (s : Batch)
    (w : World) :
  inv s w ->
  inv (fst (dayStep profileId options totalPosts postsPerDay day s w))
      (snd (dayStep profileId options totalPosts postsPerDay day s w)).
Proof.
  intros H. unfold dayStep. apply for_loop_invariant; [|exact H].
  intros i s1 w1 H1 _. now apply postStep_keeps.
Qed.

(** Every record returned by [generateMockAnalytics] was built by
    [makePost] from draws of the random source. *)
Lemma generateMockAnalytics_Forall :
  Forall P (fst (generateMockAnalytics profileId options w0)).
Proof.
  unfold generateMockAnalytics, gbind.
  assert (H : Forall P (fst (generateUnsorted profileId options w0))).
  { unfold generateUnsorted.
    destruct (getTimeRangeDays options) as [timeRangeDays|];
      [|constructor].
    unfold gbind.
    match goal with
    | |- context [for_loop ?n ?i ?c ?b ?s w0] =>
        pose proof (for_loop_invariant inv c b) as Hloop;
        specialize (Hloop
          ltac:(intros; now apply dayStep_keeps) n i s w0);
        destruct (for_loop n i c b s w0) as [s1 w1]
    end.
    cbn [fst snd gret] in *. apply Hloop. split; [reflexivity|constructor]. }
  destruct (generateUnsorted profileId options w0) as [posts w1].
  cbn [fst gret] in *.
  eapply Permutation_Forall; [apply sort_Permutation | exact H].
Qed.

End Batch.

(** In simulation mode an analytics operation is its generator applied to
    the completed options. *)
Lemma executeAnalyticsRequest_mock {T : Type} (client : Client)
    (options : PartialAnalyticsOptions) (profileId : string)
    (generator : string -> AnalyticsOptions -> G T) (live : M T) (w : World) :
  mockMode client = true ->
  executeAnalyticsRequest client options profileId generator live w
  = (inr (fst (generator profileId
                 (fst (createCompleteAnalyticsOptions options w))
                 (snd (createCompleteAnalyticsOptions options w)))),
     snd (generator profileId
            (fst (createCompleteAnalyticsOptions options w))
            (snd (createCompleteAnalyticsOptions options w)))).
Proof.
  intros Hmock. unfold executeAnalyticsRequest. rewrite Hmock.
  unfold lift, gbind.
  destruct (createCompleteAnalyticsOptions options w) as [complete w1].
  cbn [fst snd]. now destruct (generator profileId complete w1).
Qed.

Lemma makePost_shape (profileId : string) (p : SocialPlatform)
    (index postDate : Z) (r1 r2 r3 : Q) :
  platformShape (makePost profileId p index postDate r1 r2 r3).
Proof.
  unfold platformShape.
  destruct p; cbn; split; intros H; try discriminate H;
    (split; [eexists; reflexivity | reflexivity]).
Qed.

(** C8. Platform metric shape.  In simulation mode [analytics.posts]
    succeeds for every profile id and options, and in every record it
    returns: when the service is 'x' the metric bag has a [retweets] field
    and no [saves] field; when the service is 'instagram' it has a [saves]
    field and no [retweets] field. *)
Theorem C8_platform_metric_shape :
  forall (client : Client) (live : M (list PostAnalytics))
         (profileId : string) (options : PartialAnalyticsOptions) (w : World),
    mockMode client = true ->
    exists posts w',
      analytics_posts client live profileId options w = (inr posts, w')
      /\ forall post, In post posts -> platformShape post.
Proof.
  intros client live profileId options w Hmock.
  unfold analytics_posts.
  rewrite executeAnalyticsRequest_mock by exact Hmock.
  do 2 eexists. split; [reflexivity|].
  apply Forall_forall. apply generateMockAnalytics_Forall.
  intros. apply makePost_shape.
Qed.

(** The newest record of the seven-day request of the sample world is an
    'x' post: it has retweets and no saves. *)
Lemma C8_platform_metric_shape_witness :
  exists posts w' post,
    analytics_posts mockClient notLive "profile_x_001" sevenDays
                    (steadyWorld noon (1 # 2) tokenReply) = (inr posts, w')
    /\ nth_error posts 0 = Some post
    /\ pa_service post = PlatformX
    /\ (exists n, retweets (metrics post) = Some n)
    /\ saves (metrics post) = None.
Proof.
  destruct (C8_platform_metric_shape mockClient notLive "profile_x_001"
              sevenDays (steadyWorld noon (1 # 2) tokenReply))
    as (posts & w' & Hrun & Hshape).
  - reflexivity.
  - assert (Hfirst : option_map pa_service (nth_error posts 0)
                     = Some PlatformX).
    { replace posts with
        (match analytics_posts mockClient notLive "profile_x_001" sevenDays
                 (steadyWorld noon (1 # 2) tokenReply) with
         | (inr l, _) => l
         | (inl _, _) => []
         end) by (rewrite Hrun; reflexivity).
      vm_compute. reflexivity. }
    destruct (nth_error posts 0) as [post|] eqn:Hnth; [|discriminate Hfirst].
    injection Hfirst as Hservice.
    exists posts, w', post.
    destruct (Hshape post (nth_error_In _ _ Hnth)) as [Hx _].
    destruct (Hx Hservice) as [Hret Hsaves].
    repeat split; assumption.
Defined.

(* ================================================================= *)
(** ** Rates, reach and impressions of batch records *)

Lemma Qfloor_at_least (z : Z) (q : Q) : (inject_Z z <= q)%Q -> z <= Qfloor q.
Proof.
  intros H. rewrite <- (Qfloor_Z z). now apply Qfloor_resp_le.
Qed.

Lemma inject_Z_nonneg (z : Z) : 0 <= z -> (0 <= inject_Z z)%Q.
Proof. intros H. unfold Qle. cbn. lia. Qed.

(** What [makePost] guarantees when the three draws lie in [0, 1). *)
Lemma makePost_bounds (profileId : string) (p : SocialPlatform)
    (index postDate : Z) (r1 r2 r3 : Q) :
  (0 <= r1 /\ r1 < 1)%Q -> (0 <= r2 /\ r2 < 1)%Q -> (0 <= r3 /\ r3 < 1)%Q ->
  let post := makePost profileId p index postDate r1 r2 r3 in
  (0 < engagementRate post)%Q /\ (engagementRate post <= 1)%Q
  /\ reach post <= impressions post.
Proof.
  intros [H1 H1'] [H2 H2'] [H3 H3'].
  assert (Hrate : forall base : Q,
             (0 <= base)%Q -> (base <= 9 # 10)%Q ->
             (0 < Qmax (1 # 100) (base + (r1 - (5 # 10)) * (2 # 100)))%Q
             /\ (Qmax (1 # 100) (base + (r1 - (5 # 10)) * (2 # 100)) <= 1)%Q).
  { intros base Hb Hb'. split.
    - eapply Qlt_le_trans; [|apply Q.le_max_l]. reflexivity.
    - apply Q.max_lub; [discriminate|]. lra. }
  assert (Hreach : forall (m : Q) (min max : Z),
             0 <= min -> min <= max -> (1 <= m)%Q ->
             let r := Math_floor (r2 * inject_Z (max - min) + inject_Z min) in
             r <= Math_floor (inject_Z r * (m + r3 * (4 # 10)))).
  { intros m min max Hmin Hmax Hm r.
    assert (Hr : min <= r).
    { apply Qfloor_at_least.
      assert (0 <= inject_Z (max - min))%Q
        by (apply inject_Z_nonneg; lia).
      assert (0 <= r2 * inject_Z (max - min))%Q
        by (apply Qmult_le_0_compat; assumption).
      lra. }
    apply Qfloor_at_least.
    assert (Hr0 : (0 <= inject_Z r)%Q) by (apply inject_Z_nonneg; lia).
    assert (Hm1 : (0 <= m + r3 * (4 # 10) - 1)%Q) by lra.
    pose proof (Qmult_le_0_compat _ _ Hr0 Hm1) as Hprod.
    lra. }
  destruct p; cbn zeta; unfold makePost;
    cbn [reachRange getBaseEngagementForPlatform multipliers
         engagementRate reach impressions];
    (split; [apply Hrate; (discriminate || reflexivity || lra)
            | split; [apply Hrate; (discriminate || reflexivity || lra)
                     | apply Hreach;
                       (lia || discriminate || lra)]]).
Qed.

(** The batch generator keeps the invariants that the single-post
    generator breaks: with a fair random source, every record of
    [generateMockAnalytics] has an engagement rate in (0, 1] and at least
    as many impressions as reach. *)
Lemma batch_rate_and_reach (profileId : string) (options : AnalyticsOptions)
    (w : World) :
  fairDice w ->
  Forall (fun post => (0 < engagementRate post)%Q
                      /\ (engagementRate post <= 1)%Q
                      /\ reach post <= impressions post)
         (fst (generateMockAnalytics profileId options w)).
Proof.
  intros Hfair. apply generateMockAnalytics_Forall.
  intros p index postDate n1 n2 n3.
  apply makePost_bounds; apply Hfair.
Qed.

(* ================================================================= *)
(** ** The summary aggregates the generated posts *)

Lemma Z_or_0 (v : Z) : Z_or v 0 = v.
Proof. unfold Z_or. destruct (Z.eqb_spec v 0); congruence. Qed.

Lemma fold_left_Zsum {A : Type} (f : A -> Z) (l : list A) :
  forall acc, fold_left (fun sum a => sum + f a) l acc
              = acc + fold_right (fun a sum => f a + sum) 0 l.
Proof.
  induction l as [|a l IH]; intros acc; cbn; [lia|]. rewrite IH. lia.
Qed.

(** The reduction over [Object.values(post.metrics)] is the total of the
    bag. *)
Lemma metricValues_total (m : Metrics) :
  fold_left (fun metricSum val => metricSum + Z_or val 0) (metricValues m) 0
  = bagTotal m.
Proof.
  destruct m as [l c s k [r|] [a|] [v|]]; unfold metricValues, bagTotal;
    cbn -[Z_or Z.add]; rewrite ?Z_or_0; lia.
Qed.

Lemma totalEngagement_reduce (posts : list PostAnalytics) :
  fold_left
    (fun sum post =>
       sum + fold_left (fun metricSum val => metricSum + Z_or val 0)
                       (metricValues (metrics post)) 0)
    posts 0
  = engagementTotal posts.
Proof.
  rewrite fold_left_Zsum with
    (f := fun post =>
            fold_left (fun metricSum val => metricSum + Z_or val 0)
                      (metricValues (metrics post)) 0).
  rewrite Z.add_0_l.
  induction posts as [|p rest IH]; cbn [fold_right engagementTotal];
    [reflexivity|].
  now rewrite IH, metricValues_total.
Qed.

Lemma sumRates_from (posts : list PostAnalytics) :
  forall acc : Q,
    (fold_left (fun sum post => sum + engagementRate post) posts acc
     == acc + rateTotal posts)%Q.
Proof.
  induction posts as [|p rest IH]; intros acc; cbn [fold_left rateTotal].
  - ring.
  - rewrite IH. ring.
Qed.

Lemma sumRates_rateTotal (posts : list PostAnalytics) :
  (sumRates posts == rateTotal posts)%Q.
Proof. unfold sumRates. rewrite sumRates_from. ring. Qed.

(** The reduction that keeps the current record when its rate is strictly
    greater ends on a record of maximal rate. *)
Lemma bestPost_reduce (posts : list PostAnalytics) :
  forall best : PostAnalytics,
    let result :=
      fold_left (fun best current =>
                   if Qgtb (engagementRate current) (engagementRate best)
                   then current else best)
                posts best in
    (result = best \/ In result posts)
    /\ (engagementRate best <= engagementRate result)%Q
    /\ forall q, In q posts ->
                 (engagementRate q <= engagementRate result)%Q.
Proof.
  induction posts as [|p rest IH]; intros best; cbn [fold_left].
  - split; [now left|]. split; [apply Qle_refl|]. intros q [].
  - destruct (Qgtb (engagementRate p) (engagementRate best)) eqn:Hgt;
      unfold Qgtb in Hgt.
    + apply negb_true_iff in Hgt.
      assert (Hlt : (engagementRate best < engagementRate p)%Q).
      { apply Qnot_le_lt. intros H. apply Qle_bool_iff in H. congruence. }
      destruct (IH p) as (Hin & Hbest & Hall).
      split; [right; destruct Hin as [-> | Hin]; [now left | now right]|].
      split; [eapply Qle_trans; [apply Qlt_le_weak|]; eassumption|].
      intros q [<- | Hq]; [assumption | now apply Hall].
    + apply negb_false_iff, Qle_bool_iff in Hgt.
      destruct (IH best) as (Hin & Hbest & Hall).
      split; [destruct Hin as [Hin | Hin]; [now left | right; now right]|].
      split; [assumption|].
      intros q [<- | Hq]; [|now apply Hall].
      eapply Qle_trans; eassumption.
Qed.

Lemma makePost_id (profileId : string) (p : SocialPlatform)
    (index postDate : Z) (r1 r2 r3 : Q) :
  postId (makePost profileId p index postDate r1 r2 r3) <> "".
Proof. unfold makePost. destruct (reachRange p). cbn. discriminate. Qed.

(** C1. Summary/posts consistency.  In simulation mode, for every profile
    id and options, [analytics.posts] and [analytics.summary] started in
    the same world (same clock, same random source) both succeed, and the
    summary aggregates the very list that [analytics.posts] returns:
    [totalPosts] is its length; [totalEngagement] is the sum of all values
    of all its metric bags; when it is not empty,
    [averageEngagementRate] is the arithmetic mean of its rates and
    [bestPerformingPost] is the id of one of its records whose rate no
    other record exceeds.  For an empty list the average is 0 and the id
    is the placeholder "post_<profileId>_best". *)
Theorem C1_summary_aggregates_posts :
  forall (client : Client) (livePosts : M (list PostAnalytics))
         (liveSummary : M AnalyticsSummary) (profileId : string)
         (options : PartialAnalyticsOptions) (w : World),
    mockMode client = true ->
    exists posts w1 summary w2,
      analytics_posts client livePosts profileId options w = (inr posts, w1)
      /\ analytics_summary client liveSummary profileId options w
         = (inr summary, w2)
      /\ totalPosts summary = List.length posts
      /\ totalEngagement summary = engagementTotal posts
      /\ (posts <> [] ->
          (averageEngagementRate summary == meanRate posts)%Q
          /\ exists best, hasMaximalRate posts best
                          /\ bestPerformingPost summary = postId best)
      /\ (posts = [] ->
          (averageEngagementRate summary == 0)%Q
          /\ bestPerformingPost summary = "post_" ++ profileId ++ "_best").
Proof.
  intros client livePosts liveSummary profileId options w Hmock.
  unfold analytics_posts, analytics_summary.
  rewrite !executeAnalyticsRequest_mock by exact Hmock.
  set (complete := fst (createCompleteAnalyticsOptions options w)).
  set (w1 := snd (createCompleteAnalyticsOptions options w)).
  pose proof (generateMockAnalytics_Forall profileId complete w1
                (fun p => postId p <> "")
                (fun p index postDate n1 n2 n3 =>
                   makePost_id profileId p index postDate _ _ _)) as Hids.
  unfold generateMockSummary, gbind.
  destruct (generateMockAnalytics profileId complete w1) as [posts w2].
  cbn [fst snd] in *. unfold random, gret. cbn [fst snd].
  do 4 eexists. split; [reflexivity|]. split; [reflexivity|].
  cbn [totalPosts totalEngagement averageEngagementRate bestPerformingPost].
  split; [reflexivity|]. split; [apply totalEngagement_reduce|].
  split.
  - intros Hne. destruct posts as [|first rest]; [contradiction|].
    split.
    + cbn [List.length Nat.ltb Nat.leb]. unfold meanRate.
      now rewrite sumRates_rateTotal.
    + destruct (bestPost_reduce (first :: rest) first) as (Hin & _ & Hall).
      cbn zeta in *.
      match goal with
      | |- context [string_or (postId ?b) _] => set (best := b) in *
      end.
      assert (Hbest : In best (first :: rest))
        by (destruct Hin as [-> | Hin]; [now left | exact Hin]).
      exists best. split; [split; assumption|].
      unfold string_or.
      destruct (String.eqb_spec (postId best) ""); [|reflexivity].
      rewrite Forall_forall in Hids. now apply Hids in Hbest.
  - intros ->. split; reflexivity.
Qed.

(** The seven-day request of the sample world: both operations succeed
    and the summary counts the posts returned. *)
Lemma C1_summary_aggregates_posts_witness :
  exists posts w1 summary w2,
    analytics_posts mockClient notLive "profile_x_001" sevenDays
                    (steadyWorld noon (1 # 2) tokenReply) = (inr posts, w1)
    /\ analytics_summary mockClient notLive "profile_x_001" sevenDays
                         (steadyWorld noon (1 # 2) tokenReply)
       = (inr summary, w2)
    /\ totalPosts summary = List.length posts
    /\ totalEngagement summary = engagementTotal posts.
Proof.
  destruct (C1_summary_aggregates_posts mockClient notLive notLive
              "profile_x_001" sevenDays
              (steadyWorld noon (1 # 2) tokenReply))
    as (posts & w1 & summary & w2 & Hposts & Hsummary & Hn & Htotal & _).
  - reflexivity.
  - exists posts, w1, summary, w2. repeat split; assumption.
Defined.

(* ================================================================= *)
(** ** Further properties of the retry wrapper *)

Section RetryRuns.
Import Retry.
Context {W T : Type}.
Variable cfg : RetryConfig.
Variable requestFn : W -> Result T * W.

(** The shape of every run, whatever the request function does: at least
  one call, at most one call per attempt left, one sleep between two
  calls, and the [k]-th sleep of the run lasts
  [delay * backoffFactor ^ (currentAttempt - 1 + k)]. *)
Lemma retryRequest_rec_shape :
forall (n : nat) (cur : Z) (w : W),
  attempts cfg - cur <= Z.of_nat n ->
  let r := retryRequest_rec cfg requestFn n cur w in
  (1 <= attemptsMade (trace r))%nat
  /\ Z.of_nat (attemptsMade (trace r)) <= Z.max 1 (attempts cfg - cur + 1)
  /\ sleeps (trace r)
     = map (fun k => delay cfg
                     * backoffFactor cfg ^ (cur - 1 + Z.of_nat k))
           (seq 0 (attemptsMade (trace r) - 1)).
Proof.
induction n as [|n IH]; intros cur w Hn; cbn zeta; cbn [retryRequest_rec];
  destruct (requestFn w) as [[e | v] w1];
  try (cbn; repeat split; lia);
  destruct (Z.geb_spec cur (attempts cfg));
  try (cbn; repeat split; lia);
  destruct (match e with
            | BufferAPIError code _ _ => negb (includes retryableCodes code)
            | OtherError _ _ => false
            end);
  try (cbn; repeat split; lia).
destruct (IH (cur + 1) w1) as (H1 & H2 & H3); [lia|]. cbn zeta in *.
cbn [trace]. unfold attemptsMade in *. cbn [filter isAttempt List.length sleeps].
remember (List.length
            (filter isAttempt
               (trace (retryRequest_rec cfg requestFn n (cur + 1) w1))))
  as made.
split; [lia|]. split; [lia|].
rewrite H3. replace (S made - 1)%nat with (S (made - 1)) by lia.
cbn [seq map]. f_equal.
- f_equal. f_equal. lia.
- rewrite <- seq_shift, map_map. apply map_ext. intros k.
  f_equal. f_equal. lia.
Qed.

End RetryRuns.


(** X2. Backoff growth.  In every run of [retryRequest] the sleep after
    the [k]-th failed call (counting from 1) lasts
    [delay * backoffFactor ^ (k - 1)] milliseconds. *)
Theorem X2_backoff_schedule :
  forall (W T : Type) (cfg : Retry.RetryConfig)
         (requestFn : W -> Result T * W) (w : W),
    let r := Retry.retryRequest cfg requestFn w in
    Retry.sleeps (Retry.trace r)
    = map (fun k => Retry.delay cfg * Retry.backoffFactor cfg ^ Z.of_nat k)
          (seq 0 (Retry.attemptsMade (Retry.trace r) - 1)).
Proof.
  intros W T cfg requestFn w. cbn zeta.
  unfold Retry.retryRequest, Retry.retryRequest_from.
  destruct (retryRequest_rec_shape cfg requestFn
              (Z.to_nat (Retry.attempts cfg - 1)) 1 w) as (_ & _ & H3);
    [lia|].
  cbn zeta in H3. rewrite H3. apply map_ext. intros k.
  now replace (1 - 1 + Z.of_nat k) with (Z.of_nat k) by lia.
Qed.

(* ================================================================= *)
(** ** Further properties of the rate limiter *)

(** X3. The counter stays within the quota.  With a quota that is not
    negative, a state whose counter lies between 0 and the quota is taken
    by any sequence of checks, at any times, to a state whose counter
    lies between 0 and the quota. *)
Theorem X3_counter_within_quota :
  forall (cfg : RateLimit.RateLimitConfig) (times : list Z)
         (st : RateLimit.RateLimitState),
    0 <= RateLimit.quota cfg ->
    0 <= RateLimit.requests st <= RateLimit.quota cfg ->
    0 <= RateLimit.requests (snd (RateLimit.checkAll cfg times st))
      <= RateLimit.quota cfg.
Proof.
  intros cfg times. induction times as [|t rest IH]; intros st Hq Hst.
  - exact Hst.
  - cbn [RateLimit.checkAll].
    destruct (RateLimit.checkRateLimit cfg t st) as [r st1] eqn:Hcheck.
    specialize (IH st1 Hq).
    destruct (RateLimit.checkAll cfg rest st1) as [rs st2]. cbn [snd] in *.
    apply IH. unfold RateLimit.checkRateLimit, RateLimit.countRequest,
      RateLimit.resetIfExpired in Hcheck.
    destruct (t >? RateLimit.resetTime st);
      cbn [RateLimit.requests RateLimit.resetTime] in Hcheck;
      match type of Hcheck with
      | (if ?c then _ else _) = _ => destruct (Z.geb_spec 0 (RateLimit.quota cfg));
                                     destruct c eqn:Hc
      end;
      injection Hcheck as _ <-; cbn [RateLimit.requests];
      try apply Z.geb_le in Hc; try lia;
      try (destruct (Z.geb_spec (RateLimit.requests st) (RateLimit.quota cfg));
           try discriminate; lia).
Qed.

Lemma X3_counter_within_quota_witness :
  0 <= RateLimit.requests
         (snd (RateLimit.checkAll (RateLimit.mkRateLimitConfig 2 5000)
                 [1000; 2000; 3000; 9000; 9500; 9600]
                 (RateLimit.mkRateLimitState 0 5000)))
    <= 2.
Proof.
  apply (X3_counter_within_quota (RateLimit.mkRateLimitConfig 2 5000)
           [1000; 2000; 3000; 9000; 9500; 9600]
           (RateLimit.mkRateLimitState 0 5000)); cbn; lia.
Defined.

(** X4. At most the quota per window.  Of a sequence of checks none of
    which is later than the stored [resetTime], exactly
    [min (number of checks) (max 0 (quota - counter))] are let through,
    whatever their times, and [resetTime] is left as it was. *)
Theorem X4_passes_per_window :
  forall (cfg : RateLimit.RateLimitConfig) (times : list Z)
         (st : RateLimit.RateLimitState),
    Forall (fun t => t <= RateLimit.resetTime st) times ->
    Z.of_nat (passed (fst (RateLimit.checkAll cfg times st)))
    = Z.min (Z.of_nat (List.length times))
            (Z.max 0 (RateLimit.quota cfg - RateLimit.requests st))
    /\ RateLimit.resetTime (snd (RateLimit.checkAll cfg times st))
       = RateLimit.resetTime st.
Proof.
  intros cfg times. induction times as [|t rest IH]; intros st Hwin.
  - unfold passed. cbn [RateLimit.checkAll fst snd filter List.length].
    split; [lia | reflexivity].
  - inversion Hwin as [|? ? Ht Hrest]; subst.
    cbn [RateLimit.checkAll]. unfold RateLimit.checkRateLimit.
    rewrite resetIfExpired_within by exact Ht.
    destruct (Z.lt_ge_cases (RateLimit.requests st) (RateLimit.quota cfg))
      as [Hbelow | Hfull].
    + rewrite countRequest_below by exact Hbelow.
      specialize (IH (RateLimit.mkRateLimitState (RateLimit.requests st + 1)
                        (RateLimit.resetTime st)) Hrest).
      destruct (RateLimit.checkAll cfg rest _) as [rs st2].
      cbn [fst snd RateLimit.requests RateLimit.resetTime] in *.
      destruct IH as [IHn IHr]. split; [|exact IHr].
      unfold passed in *. cbn [filter List.length]. lia.
    + rewrite countRequest_exhausted by exact Hfull.
      specialize (IH st Hrest).
      destruct (RateLimit.checkAll cfg rest st) as [rs st2].
      cbn [fst snd] in *.
      destruct IH as [IHn IHr]. split; [|exact IHr].
      unfold passed in *. cbn [filter List.length]. lia.
Qed.

Lemma X4_passes_per_window_witness :
  passed (fst (RateLimit.checkAll (RateLimit.mkRateLimitConfig 2 5000)
                 [1000; 2000; 3000; 4000]
                 (RateLimit.mkRateLimitState 0 5000)))
  = 2%nat.
Proof.
  destruct (X4_passes_per_window (RateLimit.mkRateLimitConfig 2 5000)
              [1000; 2000; 3000; 4000]
              (RateLimit.mkRateLimitState 0 5000)) as [H _].
  - repeat constructor; cbn; lia.
  - apply Nat2Z.inj. rewrite H. reflexivity.
Defined.

(** X5. A refusal.  With a window that is not negative, a check that is
    refused reports a wait [resetTime - now] that is not negative, and
    does not count: the state it leaves is the one the expiry test
    produced, with the counter at or above the quota. *)
Theorem X5_refusal_wait :
  forall (cfg : RateLimit.RateLimitConfig) (now : Z)
         (st st' : RateLimit.RateLimitState) (e : Error),
    0 <= RateLimit.window cfg ->
    RateLimit.checkRateLimit cfg now st = (inl e, st') ->
    st' = RateLimit.resetIfExpired cfg now st
    /\ RateLimit.quota cfg <= RateLimit.requests st'
    /\ 0 <= RateLimit.resetTime st' - now
    /\ e = RateLimit.rateLimitError (RateLimit.resetTime st' - now).
Proof.
  intros cfg now st st' e Hw Hcheck.
  unfold RateLimit.checkRateLimit, RateLimit.countRequest in Hcheck.
  destruct (Z.geb_spec
              (RateLimit.requests (RateLimit.resetIfExpired cfg now st))
              (RateLimit.quota cfg)) as [Hfull|]; [|discriminate Hcheck].
  injection Hcheck as <- <-. repeat split; try assumption.
  unfold RateLimit.resetIfExpired.
  destruct (Z.gtb_spec now (RateLimit.resetTime st));
    cbn [RateLimit.resetTime]; lia.
Qed.

Lemma X5_refusal_wait_witness :
  RateLimit.checkRateLimit (RateLimit.mkRateLimitConfig 2 5000) 3000
                           (RateLimit.mkRateLimitState 2 5000)
  = (inl (RateLimit.rateLimitError 2000), RateLimit.mkRateLimitState 2 5000)
  /\ 0 <= RateLimit.resetTime (RateLimit.mkRateLimitState 2 5000) - 3000.
Proof.
  split; [reflexivity|].
  destruct (X5_refusal_wait (RateLimit.mkRateLimitConfig 2 5000) 3000
              (RateLimit.mkRateLimitState 2 5000)
              (RateLimit.mkRateLimitState 2 5000)
              (RateLimit.rateLimitError 2000))
    as (_ & _ & Hwait & _).
  - cbn; lia.
  - reflexivity.
  - exact Hwait.
Defined.

(* ================================================================= *)
(** ** Error normalisation and the retry filter *)

Lemma to_int_not_nil (z : Z) :
  Z.to_int z <> Decimal.Pos Decimal.Nil
  /\ Z.to_int z <> Decimal.Neg Decimal.Nil.
Proof.
  assert (H : Z.to_int z = Decimal.norm (Z.to_int z))
    by (rewrite <- DecimalZ.to_of, DecimalZ.of_to; reflexivity).
  rewrite H.
  destruct (Z.to_int z) as [u | u]; unfold Decimal.norm, Decimal.unorm;
    split; destruct (Decimal.nzhead u); discriminate.
Qed.

(** The decimal rendering of integers is injective. *)
Lemma string_of_Z_inj (a b : Z) : string_of_Z a = string_of_Z b -> a = b.
Proof.
  unfold string_of_Z. intros H. apply DecimalZ.to_int_inj.
  destruct (to_int_not_nil a) as [Ha1 Ha2].
  destruct (to_int_not_nil b) as [Hb1 Hb2].
  pose proof (NilZero.isi _ Ha1 Ha2) as Ia.
  pose proof (NilZero.isi _ Hb1 Hb2) as Ib.
  rewrite H in Ia. congruence.
Qed.

Lemma includes_In (l : list string) (s : string) :
  Retry.includes l s = true <-> In s l.
Proof.
  unfold Retry.includes. rewrite existsb_exists. split.
  - intros (c & Hc & Heq). apply String.eqb_eq in Heq. now subst.
  - intros H. exists s. split; [exact H | apply String.eqb_refl].
Qed.

(** X6. Which HTTP failures are retried.  When the transport rejects with
    a response whose body names no code, the normalised error carries the
    code "HTTP_<status>" and the status, and it passes the retry filter
    exactly when the status is 500, 502 or 503. *)
Theorem X6_http_status_retryable :
  forall (status : Z) (body : option Transport.ErrorBody)
         (request : bool) (message : string),
    match body with
    | Some b => Transport.given_or (Transport.body_code b) "" = ""
    | None => True
    end ->
    let e := Transport.handleAPIError
               (Transport.mkRawError
                  (Some (Transport.mkErrorResponse status body))
                  request message) in
    (exists msg, e = BufferAPIError ("HTTP_" ++ string_of_Z status) msg
                                    (Some status))
    /\ (passesFilter e = true
        <-> status = 500 \/ status = 502 \/ status = 503).
Proof.
  intros status body request message Hbody. cbn zeta.
  unfold Transport.handleAPIError.
  cbn [Transport.raw_response Transport.resp_data Transport.resp_status
       Transport.raw_message].
  assert (Hcode : Transport.given_or
                    match body with
                    | Some b => Transport.body_code b
                    | None => None
                    end ("HTTP_" ++ string_of_Z status)
                  = "HTTP_" ++ string_of_Z status).
  { destruct body as [[[c|] m]|]; cbn in *; try reflexivity.
    unfold string_or in *. destruct (String.eqb_spec c ""); [reflexivity|].
    contradiction. }
  rewrite Hcode. split; [eexists; reflexivity|].
  cbn [passesFilter]. rewrite includes_In. unfold Retry.retryableCodes.
  split.
  - intros [H | [H | [H | [H | [H | []]]]]];
      try discriminate H; injection H as H.
    + left. apply string_of_Z_inj. now rewrite <- H.
    + right; left. apply string_of_Z_inj. now rewrite <- H.
    + right; right. apply string_of_Z_inj. now rewrite <- H.
  - intros [-> | [-> | ->]]; cbn; auto 10.
Qed.

Lemma X6_http_status_retryable_witness :
  passesFilter
    (Transport.handleAPIError
       (Transport.mkRawError
          (Some (Transport.mkErrorResponse 503
                   (Some (Transport.mkErrorBody None (Some "down")))))
          true "Request failed with status code 503")) = true
  /\ passesFilter
       (Transport.handleAPIError
          (Transport.mkRawError
             (Some (Transport.mkErrorResponse 404 None))
             true "Request failed with status code 404")) <> true.
Proof.
  split.
  - apply (X6_http_status_retryable 503
             (Some (Transport.mkErrorBody None (Some "down"))) true
             "Request failed with status code 503"); [reflexivity|].
    right; right; reflexivity.
  - intros H.
    apply (X6_http_status_retryable 404 None true
             "Request failed with status code 404") in H; [|exact I].
    destruct H as [H | [H | H]]; discriminate H.
Defined.

(** X7. The body decides.  When the body of the error response names a
    code, that code, not the HTTP status, is what the retry filter sees:
    the normalised error passes the filter exactly when the named code is
    one of the retryable codes. *)
Theorem X7_body_code_decides :
  forall (status : Z) (code : string) (bodyMessage : option string)
         (request : bool) (message : string),
    code <> "" ->
    let e := Transport.handleAPIError
               (Transport.mkRawError
                  (Some (Transport.mkErrorResponse status
                           (Some (Transport.mkErrorBody (Some code)
                                                        bodyMessage))))
                  request message) in
    (exists msg, e = BufferAPIError code msg (Some status))
    /\ (passesFilter e = true
        <-> In code ["NETWORK_ERROR"; "TIMEOUT"; "HTTP_500";
                     "HTTP_502"; "HTTP_503"]).
Proof.
  intros status code bodyMessage request message Hcode. cbn zeta.
  unfold Transport.handleAPIError.
  cbn [Transport.raw_response Transport.resp_data Transport.resp_status
       Transport.raw_message Transport.body_code Transport.body_message
       Transport.given_or].
  assert (Hor : forall d, string_or code d = code).
  { intros d. unfold string_or.
    destruct (String.eqb_spec code ""); [contradiction | reflexivity]. }
  rewrite Hor. split; [eexists; reflexivity|].
  cbn [passesFilter]. apply includes_In.
Qed.

Lemma X7_body_code_decides_witness :
  passesFilter
    (Transport.handleAPIError
       (Transport.mkRawError
          (Some (Transport.mkErrorResponse 500
                   (Some (Transport.mkErrorBody (Some "VALIDATION_ERROR")
                                                None))))
          true "Request failed with status code 500")) <> true.
Proof.
  intros H.
  apply (X7_body_code_decides 500 "VALIDATION_ERROR" None true
           "Request failed with status code 500") in H; [|discriminate].
  cbn in H. repeat (destruct H as [H | H]; [discriminate H|]). exact H.
Defined.



(* ================================================================= *)
(** ** Properties of the post list of simulation mode *)

Section CountedLoops.
Context {St : Type}.
Variable I : Z -> St -> World -> Prop.
Variable body : Z -> St -> G St.
Hypothesis body_steps :
forall i s w, I i s w -> I (i + 1) (fst (body i s w)) (snd (body i s w)).

(** A loop without exit condition runs its body for every index. *)
Lemma for_loop_counted (n : nat) :
forall i s w, I i s w ->
  I (i + Z.of_nat n)
    (fst (for_loop n i (fun _ => true) body s w))
    (snd (for_loop n i (fun _ => true) body s w)).
Proof.
induction n as [|n IH]; intros i s w HI; cbn [for_loop].
- now rewrite Z.add_0_r.
- unfold gbind. specialize (body_steps i s w HI).
  destruct (body i s w) as [s1 w1]. cbn [fst snd] in body_steps.
  replace (i + Z.of_nat (S n)) with (i + 1 + Z.of_nat n) by lia.
  now apply IH.
Qed.
End CountedLoops.

Section ListedPosts.
Import PostList.
Variable profileId : string.
Variable w0 : World.

(** A property of the post built for index [i] in any world that has the
  clock and the random source of [w0]. *)
Variable Q : Z -> ListedPost -> Prop.
Hypothesis Q_listedPost :
forall i w, 0 <= i -> clock w = clock w0 -> dice w = dice w0 ->
            Q i (fst (listedPost profileId i w)).

Lemma listedPost_oracles (i : Z) (w : World) :
clock (snd (listedPost profileId i w)) = clock w
/\ dice (snd (listedPost profileId i w)) = dice w.
Proof.
unfold listedPost, gbind, random, now, gret.
cbn [clock clock_reads dice dice_rolls network sent].
match goal with |- context [Qgtb ?a ?b] => destruct (Qgtb a b) end;
  split; reflexivity.
Qed.

(** [generateMockPosts] returns one post per index below the count, in
  order, each built by [listedPost] for its index. *)
Lemma generateMockPosts_indexed (optionsCount : option Z) :
let posts := fst (generateMockPosts profileId optionsCount w0) in
List.length posts = Z.to_nat (number_or optionsCount 20)
/\ forall k p, nth_error posts k = Some p -> Q (Z.of_nat k) p.
Proof.
cbn zeta. unfold generateMockPosts.
pose (inv := fun (i : Z) (posts : list ListedPost) (w : World) =>
               Z.of_nat (List.length posts) = i
               /\ clock w = clock w0 /\ dice w = dice w0
               /\ forall k p, nth_error posts k = Some p ->
                              Q (Z.of_nat k) p).
assert (Hloop : inv (0 + Z.of_nat (Z.to_nat (number_or optionsCount 20)))
          (fst (for_loop (Z.to_nat (number_or optionsCount 20)) 0
                  (fun _ => true)
                  (fun i posts => p <~ listedPost profileId i ;;
                                  gret (posts ++ [p])%list) [] w0))
          (snd (for_loop (Z.to_nat (number_or optionsCount 20)) 0
                  (fun _ => true)
                  (fun i posts => p <~ listedPost profileId i ;;
                                  gret (posts ++ [p])%list) [] w0))).
{ apply (for_loop_counted inv).
  - intros i posts w (Hlen & Hc & Hd & Hall). unfold gbind.
    pose proof (listedPost_oracles i w) as [Hc' Hd'].
    pose proof (Q_listedPost i w ltac:(lia) Hc Hd) as HQ.
    destruct (listedPost profileId i w) as [p w1]. cbn [fst snd gret] in *.
    repeat split; try congruence.
    + rewrite length_app. cbn. lia.
    + intros k q Hk.
      destruct (Nat.lt_ge_cases k (List.length posts)) as [Hlt | Hge].
      * rewrite nth_error_app1 in Hk by exact Hlt. now apply Hall.
      * rewrite nth_error_app2 in Hk by exact Hge.
        destruct (k - List.length posts)%nat as [|j] eqn:Hj;
          [|destruct j; discriminate Hk].
        injection Hk as <-.
        replace (Z.of_nat k) with i by lia. exact HQ.
  - repeat split; try reflexivity. intros [|k] p H; discriminate H. }
destruct Hloop as (Hlen & _ & _ & Hall). split; [lia | exact Hall].
Qed.

End ListedPosts.

Lemma posts_list_mock (client : Client) (live : M (list PostList.ListedPost))
    (profileId : string) (optionsCount : option Z) (w : World) :
  mockMode client = true ->
  PostList.posts_list client live profileId optionsCount w
  = (inr (fst (PostList.generateMockPosts profileId optionsCount w)),
     snd (PostList.generateMockPosts profileId optionsCount w)).
Proof.
  intros Hmock. unfold PostList.posts_list, lift. rewrite Hmock.
  now destruct (PostList.generateMockPosts profileId optionsCount w).
Qed.

(** X9. Length and identity of the listed posts.  In simulation mode
    [posts.list] succeeds for every profile id, known or not; it returns
    [count] posts, 20 when no count or a count of 0 is asked for and none
    when the count is negative; the post at position [k] has the id
    "post_<profileId>_<k>" and the requested profile id. *)
Theorem X9_posts_list_shape :
  forall (client : Client) (live : M (list PostList.ListedPost))
         (profileId : string) (optionsCount : option Z) (w : World),
    mockMode client = true ->
    exists posts w',
      PostList.posts_list client live profileId optionsCount w
      = (inr posts, w')
      /\ List.length posts = Z.to_nat (number_or optionsCount 20)
      /\ forall k p, nth_error posts k = Some p ->
           post_id (PostList.listed p)
           = "post_" ++ profileId ++ "_" ++ string_of_Z (Z.of_nat k)
           /\ profile_id (PostList.listed p) = profileId.
Proof.
  intros client live profileId optionsCount w Hmock.
  rewrite posts_list_mock by exact Hmock. do 2 eexists.
  split; [reflexivity|].
  apply (generateMockPosts_indexed profileId w
           (fun i p => post_id (PostList.listed p)
                       = "post_" ++ profileId ++ "_" ++ string_of_Z i
                       /\ profile_id (PostList.listed p) = profileId)).
  intros i w1 _ _ _. unfold PostList.listedPost, gbind, random, now, gret.
  cbn [clock clock_reads dice dice_rolls].
  match goal with |- context [Qgtb ?a (5 # 10)] =>
    destruct (Qgtb a (5 # 10)) end; split; reflexivity.
Qed.

Lemma X9_posts_list_shape_witness :
  exists posts w',
    PostList.posts_list mockClient notLive "profile_x_001" (Some 5)
                        (steadyWorld noon (1 # 2) tokenReply)
    = (inr posts, w')
    /\ List.length posts = 5%nat.
Proof.
  destruct (X9_posts_list_shape mockClient notLive "profile_x_001" (Some 5)
              (steadyWorld noon (1 # 2) tokenReply))
    as (posts & w' & Hrun & Hlen & _).
  - reflexivity.
  - exists posts, w'. split; [exact Hrun | exact Hlen].
Defined.

(** X10. Timestamps of the listed posts.  When the clock never runs
    backwards, every post of [generateMockPosts] is due no earlier than
    it was created, and, when it has a [sent_at], was sent no earlier
    than it was created. *)
Theorem X10_posts_list_timestamps :
  forall (profileId : string) (optionsCount : option Z) (w : World)
         (p : PostList.ListedPost),
    monotoneClock w ->
    In p (fst (PostList.generateMockPosts profileId optionsCount w)) ->
    (exists due, due_at (PostList.listed p) = Some due
                 /\ created_at (PostList.listed p) <= due)
    /\ forall sentTime, PostList.sent_at p = Some sentTime ->
                        created_at (PostList.listed p) <= sentTime.
Proof.
  intros profileId optionsCount w p Hmono Hin.
  apply In_nth_error in Hin. destruct Hin as [k Hk].
  destruct (generateMockPosts_indexed profileId w
              (fun i p =>
                 (exists due, due_at (PostList.listed p) = Some due
                              /\ created_at (PostList.listed p) <= due)
                 /\ forall sentTime, PostList.sent_at p = Some sentTime ->
                                     created_at (PostList.listed p) <= sentTime)
              ) with (optionsCount := optionsCount) as [_ Hall].
  - intros i w1 Hi Hc _.
    unfold PostList.listedPost, gbind, random, now, gret.
    cbn [clock clock_reads dice dice_rolls]. rewrite Hc.
    pose proof (Hmono (clock_reads w1) (S (clock_reads w1)) ltac:(lia)).
    pose proof (Hmono (clock_reads w1) (S (S (clock_reads w1))) ltac:(lia)).
    match goal with |- context [Qgtb ?a (5 # 10)] =>
      destruct (Qgtb a (5 # 10)) end;
      cbn [fst PostList.listed PostList.sent_at created_at due_at];
      (split; [eexists; split; [reflexivity | lia]|]);
      intros sentTime Hs; [injection Hs as <-; lia | discriminate Hs].
  - exact (Hall k p Hk).
Qed.

Lemma X10_posts_list_timestamps_witness :
  Forall (fun p => forall sentTime,
                     PostList.sent_at p = Some sentTime ->
                     created_at (PostList.listed p) <= sentTime)
         (fst (PostList.generateMockPosts "profile_x_001" (Some 3)
                 (steadyWorld noon (6 # 10) tokenReply))).
Proof.
  apply Forall_forall. intros p Hin.
  apply (X10_posts_list_timestamps "profile_x_001" (Some 3)
           (steadyWorld noon (6 # 10) tokenReply) p).
  - intros n m _. cbn. lia.
  - exact Hin.
Defined.

Lemma floor_of_draw (r : Q) (n : Z) :
  (0 <= r)%Q -> (r < 1)%Q -> 0 < n ->
  0 <= Math_floor (r * inject_Z n) < n.
Proof.
  intros H0 H1 Hn. unfold Math_floor.
  assert (Hn' : (0 < inject_Z n)%Q) by (unfold Qlt; cbn; lia).
  split.
  - apply Qfloor_at_least. apply Qmult_le_0_compat; [exact H0|].
    now apply Qlt_le_weak.
  - rewrite Zlt_Qlt. eapply Qle_lt_trans; [apply Qfloor_le|].
    setoid_replace (inject_Z n) with (1 * inject_Z n)%Q at 2 by ring.
    now apply Qmult_lt_compat_r.
Qed.

(** X11. Statistics of the listed posts.  When [Math.random()] stays in
    [0, 1), every post of [generateMockPosts] has statistics that are not
    negative and lie below the bound of their field: reach 10000,
    clicks 500, retweets 100, favorites 200, mentions 50, comments 30,
    shares 40. *)
Theorem X11_posts_list_statistics :
  forall (profileId : string) (optionsCount : option Z) (w : World)
         (p : PostList.ListedPost),
    fairDice w ->
    In p (fst (PostList.generateMockPosts profileId optionsCount w)) ->
    let s := statistics (PostList.listed p) in
    0 <= stat_reach s < 10000
    /\ 0 <= stat_clicks s < 500
    /\ 0 <= stat_retweets s < 100
    /\ 0 <= stat_favorites s < 200
    /\ 0 <= stat_mentions s < 50
    /\ 0 <= stat_comments s < 30
    /\ 0 <= stat_shares s < 40.
Proof.
  intros profileId optionsCount w p Hfair Hin.
  apply In_nth_error in Hin. destruct Hin as [k Hk].
  destruct (generateMockPosts_indexed profileId w
              (fun _ p =>
                 let s := statistics (PostList.listed p) in
                 0 <= stat_reach s < 10000
                 /\ 0 <= stat_clicks s < 500
                 /\ 0 <= stat_retweets s < 100
                 /\ 0 <= stat_favorites s < 200
                 /\ 0 <= stat_mentions s < 50
                 /\ 0 <= stat_comments s < 30
                 /\ 0 <= stat_shares s < 40))
    with (optionsCount := optionsCount) as [_ Hall].
  - intros i w1 _ _ Hd.
    unfold PostList.listedPost, gbind, random, now, gret.
    cbn [clock clock_reads dice dice_rolls]. rewrite Hd.
    match goal with |- context [Qgtb ?a (5 # 10)] =>
      destruct (Qgtb a (5 # 10)) end;
      cbn [fst PostList.listed statistics stat_reach stat_clicks
           stat_retweets stat_favorites stat_mentions stat_comments
           stat_shares];
      cbn zeta;
      repeat split;
      try (apply (floor_of_draw _ 10000); try apply Hfair; lia);
      try (apply (floor_of_draw _ 500); try apply Hfair; lia);
      try (apply (floor_of_draw _ 100); try apply Hfair; lia);
      try (apply (floor_of_draw _ 200); try apply Hfair; lia);
      try (apply (floor_of_draw _ 50); try apply Hfair; lia);
      try (apply (floor_of_draw _ 30); try apply Hfair; lia);
      try (apply (floor_of_draw _ 40); try apply Hfair; lia).
  - exact (Hall k p Hk).
Qed.

Lemma X11_posts_list_statistics_witness :
  Forall (fun p => 0 <= stat_reach (statistics (PostList.listed p)) < 10000)
         (fst (PostList.generateMockPosts "profile_x_001" (Some 3)
                 (steadyWorld noon (6 # 10) tokenReply))).
Proof.
  apply Forall_forall. intros p Hin.
  apply (X11_posts_list_statistics "profile_x_001" (Some 3)
           (steadyWorld noon (6 # 10) tokenReply) p).
  - intros n. cbn. split; [discriminate | reflexivity].
  - exact Hin.
Defined.

(* ================================================================= *)
(** ** Size and provenance of the batch records *)

Lemma includesPlatform_all (p : SocialPlatform) :
  includesPlatform allPlatforms p = true.
Proof. destruct p; reflexivity. Qed.

Lemma filter_all {A : Type} (f : A -> bool) (l : list A) :
  (forall a, f a = true) -> filter f l = l.
Proof.
  intros H. induction l as [|a l IH]; cbn; [reflexivity|].
  now rewrite H, IH.
Qed.

(** The platforms in use are those asked for, or all four. *)
Lemma platformsToUse_spec (options : AnalyticsOptions) :
  platformsToUse options
  = match platforms options with
    | Some (p :: rest) => p :: rest
    | _ => allPlatforms
    end.
Proof.
  unfold platformsToUse. destruct (platforms options) as [[|p rest]|];
    try reflexivity.
  cbn [List.length Nat.ltb Nat.leb].
  apply (filter_all _ (p :: rest)). apply includesPlatform_all.
Qed.

Lemma platformsToUse_nonempty (options : AnalyticsOptions) :
  (0 < List.length (platformsToUse options))%nat.
Proof.
  rewrite platformsToUse_spec.
  destruct (platforms options) as [[|p rest]|]; cbn; lia.
Qed.

(** The catalog profile of a platform. *)
Lemma makePost_provenance (profileId : string) (p : SocialPlatform)
    (index postDate : Z) (r1 r2 r3 : Q) :
  let post := makePost profileId p index postDate r1 r2 r3 in
  pa_service post = p
  /\ exists profile, In profile generateMockProfiles
                     /\ service profile = p
                     /\ id profile = pa_profileId post.
Proof.
  cbn zeta. destruct p; (split; [reflexivity|]).
  - exists (nth 0 generateMockProfiles (nth 0 generateMockProfiles
             (mkProfile "" PlatformX "" "" "" "" "" [] false))).
    repeat split. cbn. auto.
  - exists (nth 1 generateMockProfiles (nth 0 generateMockProfiles
             (mkProfile "" PlatformX "" "" "" "" "" [] false))).
    repeat split. cbn. auto.
  - exists (nth 2 generateMockProfiles (nth 0 generateMockProfiles
             (mkProfile "" PlatformX "" "" "" "" "" [] false))).
    repeat split. cbn. auto.
  - exists (nth 3 generateMockProfiles (nth 0 generateMockProfiles
             (mkProfile "" PlatformX "" "" "" "" "" [] false))).
    repeat split. cbn. auto 10.
Qed.

Section BatchSize.
Variable profileId : string.
Variable options : AnalyticsOptions.
Variable totalPosts : Z.

Let sized (s : Batch) (w : World) : Prop :=
postIndex s = Z.of_nat (List.length (analytics s))
/\ postIndex s <= Z.max 0 totalPosts
/\ Forall (fun post =>
             In (pa_service post) (platformsToUse options)
             /\ exists profile, In profile generateMockProfiles
                                /\ service profile = pa_service post
                                /\ id profile = pa_profileId post)
          (analytics s).

Lemma postStep_sized (day dailyPostCount i : Z) (s : Batch) (w : World) :
sized s w ->
(postIndex s <? totalPosts) = true ->
sized (fst (postStep profileId options day dailyPostCount i s w))
      (snd (postStep profileId options day dailyPostCount i s w)).
Proof.
unfold sized. intros (Hidx & Hmax & Hall) Hcond. apply Z.ltb_lt in Hcond.
unfold postStep, gbind, now, random, gret.
cbn [clock clock_reads dice dice_rolls network sent].
match goal with |- context [beforeStart options ?d] =>
  destruct (beforeStart options d) end; [repeat split; assumption|].
match goal with |- context [afterEnd options ?d] =>
  destruct (afterEnd options d) end; [repeat split; assumption|].
cbn [fst snd analytics postIndex]. split; [|split].
- rewrite length_app. cbn [List.length]. lia.
- lia.
- apply Forall_app. split; [assumption|]. constructor; [|constructor].
  match goal with
  | |- context [makePost profileId ?p ?k ?d ?a ?b ?c] =>
      destruct (makePost_provenance profileId p k d a b c) as [Hs Hp];
      cbn zeta in Hs, Hp; rewrite Hs; split; [|exact Hp]
  end.
  apply nth_In.
  pose proof (platformsToUse_nonempty options) as Hne.
  pose proof (Z.mod_pos_bound (postIndex s)
                (Z.of_nat (List.length (platformsToUse options)))
                ltac:(lia)).
  lia.
Qed.

Lemma dayStep_sized (postsPerDay day : Z) (s : Batch) (w : World) :
sized s w ->
sized (fst (dayStep profileId options totalPosts postsPerDay day s w))
      (snd (dayStep profileId options totalPosts postsPerDay day s w)).
Proof.
intros H. unfold dayStep.
apply (for_loop_invariant sized); [|exact H].
intros i s1 w1 H1 Hc. now apply postStep_sized.
Qed.

End BatchSize.

(** What [generateMockAnalytics] returns: no more records than the post
    count computed for the window, and only records of the platforms in
    use, each under the catalog profile of its platform. *)
Lemma generateMockAnalytics_sized (profileId : string)
    (options : AnalyticsOptions) (w : World) :
  let posts := fst (generateMockAnalytics profileId options w) in
  (List.length posts <= 500)%nat
  /\ Forall (fun post =>
               In (pa_service post) (platformsToUse options)
               /\ exists profile, In profile generateMockProfiles
                                  /\ service profile = pa_service post
                                  /\ id profile = pa_profileId post)
            posts.
Proof.
  cbn zeta. unfold generateMockAnalytics, gbind.
  assert (H : let posts := fst (generateUnsorted profileId options w) in
              (List.length posts <= 500)%nat
              /\ Forall (fun post =>
                   In (pa_service post) (platformsToUse options)
                   /\ exists profile, In profile generateMockProfiles
                                      /\ service profile = pa_service post
                                      /\ id profile = pa_profileId post)
                   posts).
  { cbn zeta. unfold generateUnsorted.
    destruct (getTimeRangeDays options) as [timeRangeDays|];
      [|cbn; split; [lia | constructor]].
    unfold gbind.
    set (totalPosts := calculatePostCount timeRangeDays options).
    assert (Hcap : totalPosts <= 500)
      by (unfold totalPosts, calculatePostCount; apply Z.le_min_r).
    match goal with
    | |- context [for_loop ?n ?i ?c ?b ?s w] =>
        pose proof (for_loop_invariant
                      (fun (bt : Batch) (_ : World) =>
                         postIndex bt = Z.of_nat (List.length (analytics bt))
                         /\ postIndex bt <= Z.max 0 totalPosts
                         /\ Forall (fun post =>
                              In (pa_service post) (platformsToUse options)
                              /\ exists profile,
                                   In profile generateMockProfiles
                                   /\ service profile = pa_service post
                                   /\ id profile = pa_profileId post)
                              (analytics bt)) c b) as Hloop;
        specialize (Hloop
          ltac:(intros; now apply dayStep_sized) n i s w);
        destruct (for_loop n i c b s w) as [s1 w1]
    end.
    cbn [fst snd gret] in *.
    destruct Hloop as (Hidx & Hmax & Hall).
    - cbn. repeat split; try lia. constructor.
    - split; [lia | exact Hall]. }
  destruct (generateUnsorted profileId options w) as [posts w1].
  cbn [fst gret] in *. cbn zeta in H. destruct H as [Hlen Hall].
  pose proof (sort_Permutation newestFirst posts) as Hperm.
  split.
  - rewrite <- (Permutation_length Hperm). exact Hlen.
  - eapply Permutation_Forall; eassumption.
Qed.

(** X12. The cap.  In simulation mode [analytics.posts] never returns
    more than 500 records, whatever window, period and platforms are
    asked for. *)
Theorem X12_batch_size_capped :
  forall (client : Client) (live : M (list PostAnalytics))
         (profileId : string) (options : PartialAnalyticsOptions) (w : World),
    mockMode client = true ->
    exists posts w',
      analytics_posts client live profileId options w = (inr posts, w')
      /\ (List.length posts <= 500)%nat.
Proof.
  intros client live profileId options w Hmock.
  unfold analytics_posts.
  rewrite executeAnalyticsRequest_mock by exact Hmock.
  do 2 eexists. split; [reflexivity|].
  apply generateMockAnalytics_sized.
Qed.

(** A window of ten years (3652 days, four platforms): the post count
    is capped and 500 records are returned. *)
Lemma X12_batch_size_capped_witness :
  match analytics_posts mockClient notLive "profile_x_001"
          (mkPartialOptions None (Some "2016-11-02") (Some "2026-11-02")
                            None None)
          (steadyWorld noon (1 # 2) tokenReply) with
  | (inr posts, _) => (List.length posts <= 500)%nat
  | (inl _, _) => False
  end.
Proof.
  destruct (X12_batch_size_capped mockClient notLive "profile_x_001"
              (mkPartialOptions None (Some "2016-11-02") (Some "2026-11-02")
                                None None)
              (steadyWorld noon (1 # 2) tokenReply))
    as (posts & w' & Hrun & Hlen).
  - reflexivity.
  - rewrite Hrun. exact Hlen.
Defined.

(** X13. Provenance of the batch records.  In simulation mode every
    record of [analytics.posts] belongs to one of the platforms asked for
    (to one of the four when none is asked for), and its [profileId] is
    the id of the catalog profile of that platform: the profile id passed
    by the caller appears in no record. *)
Theorem X13_batch_provenance :
  forall (client : Client) (live : M (list PostAnalytics))
         (profileId : string) (options : PartialAnalyticsOptions) (w : World),
    mockMode client = true ->
    exists posts w',
      analytics_posts client live profileId options w = (inr posts, w')
      /\ forall post, In post posts ->
           In (pa_service post)
              match opt_platforms options with
              | Some (p :: rest) => p :: rest
              | _ => allPlatforms
              end
           /\ exists profile, In profile generateMockProfiles
                              /\ service profile = pa_service post
                              /\ id profile = pa_profileId post.
Proof.
  intros client live profileId options w Hmock.
  unfold analytics_posts.
  rewrite executeAnalyticsRequest_mock by exact Hmock.
  do 2 eexists. split; [reflexivity|].
  destruct (generateMockAnalytics_sized profileId
              (fst (createCompleteAnalyticsOptions options w))
              (snd (createCompleteAnalyticsOptions options w)))
    as [_ Hall].
  rewrite Forall_forall in Hall. intros post Hin.
  specialize (Hall post Hin). rewrite platformsToUse_spec in Hall.
  exact Hall.
Qed.

Lemma X13_batch_provenance_witness :
  match analytics_posts mockClient notLive "some-other-profile"
          (mkPartialOptions (Some TR_7d) None None None
                            (Some [Instagram; LinkedIn]))
          (steadyWorld noon (1 # 2) tokenReply) with
  | (inr posts, _) =>
      forall post, In post posts ->
        In (pa_service post) [Instagram; LinkedIn]
  | (inl _, _) => False
  end.
Proof.
  destruct (X13_batch_provenance mockClient notLive "some-other-profile"
              (mkPartialOptions (Some TR_7d) None None None
                                (Some [Instagram; LinkedIn]))
              (steadyWorld noon (1 # 2) tokenReply))
    as (posts & w' & Hrun & Hall).
  - reflexivity.
  - rewrite Hrun. intros post Hin. now apply Hall.
Defined.

(* ================================================================= *)
(** ** The time range in simulation mode *)

Lemma string_of_Z_head (z : Z) :
  exists c rest, string_of_Z z = String c rest /\ c <> "T"%char.
Proof.
  unfold string_of_Z, NilZero.string_of_int, NilZero.string_of_uint.
  destruct (Z.to_int z) as [d | d]; destruct d; cbn;
    do 2 eexists; (split; [reflexivity | discriminate]).
Qed.

Lemma formatYear_head (y : Z) :
  exists c rest, Dates.formatYear y = String c rest /\ c <> "T"%char.
Proof.
  unfold Dates.formatYear.
  destruct ((0 <=? y) && (y <=? 9999)).
  - unfold Dates.pad.
    destruct (string_of_Z_head y) as (c & rest & -> & Hc).
    destruct (4 - String.length (String c rest))%nat; cbn.
    + do 2 eexists; split; [reflexivity | exact Hc].
    + do 2 eexists; split; [reflexivity | discriminate].
  - destruct (y <? 0); cbn; do 2 eexists;
      (split; [reflexivity | discriminate]).
Qed.

(** The date part of an ISO string is never empty. *)
Lemma toDateString_nonempty (t : Z) : Dates.toDateString t <> "".
Proof.
  unfold Dates.toDateString, Dates.toISOString.
  destruct (Dates.civil_from_days (t / Dates.msPerDay)) as [[y m] d].
  destruct (formatYear_head y) as (c & rest & -> & Hc).
  cbn [append Dates.beforeT].
  destruct (Ascii.eqb_spec c "T"); [contradiction | discriminate].
Qed.

Lemma string_or_nonempty (a b : string) : b <> "" -> string_or a b <> "".
Proof.
  intros Hb. unfold string_or.
  destruct (String.eqb_spec a ""); [exact Hb | assumption].
Qed.

(** With both dates set, the window length comes from the dates. *)
Lemma getTimeRangeDays_dates (t : TimeRange) (s e p : string)
    (pl : option (list SocialPlatform)) :
  s <> "" -> e <> "" ->
  getTimeRangeDays (mkAnalyticsOptions t s e p pl)
  = match Dates.parseDate s, Dates.parseDate e with
    | Some startTime, Some endTime =>
        Some (Math_ceil (inject_Z (endTime - startTime)
                         / inject_Z (24 * 60 * 60 * 1000)))
    | _, _ => None
    end.
Proof.
  intros Hs He. unfold getTimeRangeDays. cbn [start end_].
  destruct (String.eqb_spec s ""); [contradiction|].
  destruct (String.eqb_spec e ""); [contradiction|]. reflexivity.
Qed.

Lemma generateMockAnalytics_timeRange (profileId : string)
    (t1 t2 : TimeRange) (s e p : string) (pl : option (list SocialPlatform))
    (w : World) :
  s <> "" -> e <> "" ->
  generateMockAnalytics profileId (mkAnalyticsOptions t1 s e p pl) w
  = generateMockAnalytics profileId (mkAnalyticsOptions t2 s e p pl) w.
Proof.
  intros Hs He. unfold generateMockAnalytics, generateUnsorted.
  rewrite !getTimeRangeDays_dates by assumption. reflexivity.
Qed.

(** X14. The time range is not read in simulation mode.  Whatever
    [timeRange] is passed, or none, [analytics.posts] in simulation mode
    returns the same records and leaves the same world: the window is the
    one of [start] and [end], which default to the last 30 days. *)
Theorem X14_time_range_not_read :
  forall (client : Client) (live : M (list PostAnalytics))
         (profileId : string) (options : PartialAnalyticsOptions)
         (t1 t2 : option TimeRange) (w : World),
    mockMode client = true ->
    analytics_posts client live profileId (withTimeRange options t1) w
    = analytics_posts client live profileId (withTimeRange options t2) w.
Proof.
  intros client live profileId options t1 t2 w Hmock.
  unfold analytics_posts.
  rewrite !executeAnalyticsRequest_mock by exact Hmock.
  unfold createCompleteAnalyticsOptions, withTimeRange, gbind, now, gret.
  cbn [fst snd opt_timeRange opt_start opt_end opt_period opt_platforms].
  match goal with
  | |- context [generateMockAnalytics profileId
                  (mkAnalyticsOptions ?ta ?s ?e ?p ?pl) ?w1] =>
      rewrite (generateMockAnalytics_timeRange profileId ta
                 match t2 with Some t => t | None => TR_30d end
                 s e p pl w1)
        by (apply string_or_nonempty, toDateString_nonempty)
  end.
  reflexivity.
Qed.

Lemma X14_time_range_not_read_witness :
  analytics_posts mockClient notLive "profile_x_001"
                  (withTimeRange sevenDays (Some TR_7d))
                  (steadyWorld noon (1 # 2) tokenReply)
  = analytics_posts mockClient notLive "profile_x_001"
                    (withTimeRange sevenDays (Some TR_1y))
                    (steadyWorld noon (1 # 2) tokenReply).
Proof.
  apply (X14_time_range_not_read mockClient notLive "profile_x_001"
           sevenDays (Some TR_7d) (Some TR_1y)
           (steadyWorld noon (1 # 2) tokenReply)).
  reflexivity.
Defined.

(* ================================================================= *)
(** ** Further properties of the summary *)

Lemma sumReach_cons (p : PostAnalytics) (posts : list PostAnalytics) :
  sumReach (p :: posts) = reach p + sumReach posts.
Proof.
  unfold sumReach. rewrite !fold_left_Zsum with (f := reach). cbn. lia.
Qed.

(** Splitting a list of records by platform loses and repeats nothing. *)
Lemma breakdown_partition (posts : list PostAnalytics) :
  countTotal (map (breakdownFor posts) allPlatforms) = List.length posts
  /\ reachTotal (map (breakdownFor posts) allPlatforms) = sumReach posts.
Proof.
  unfold allPlatforms.
  cbn [map countTotal reachTotal breakdownFor postCount bd_reach].
  induction posts as [|p rest [IHn IHr]]; [split; reflexivity|].
  rewrite sumReach_cons. cbn [filter List.length].
  destruct (pa_service p); cbn [platform_eqb List.length];
    rewrite ?sumReach_cons; split; lia.
Qed.

(** Dropping the platforms without posts changes no total. *)
Lemma breakdown_filter (posts : list PostAnalytics)
    (ps : list SocialPlatform) :
  let kept := filter (fun item => (0 <? postCount item)%nat)
                     (map (breakdownFor posts) ps) in
  countTotal kept = countTotal (map (breakdownFor posts) ps)
  /\ reachTotal kept = reachTotal (map (breakdownFor posts) ps)
  /\ Forall (fun item => (0 < postCount item)%nat) kept.
Proof.
  cbn zeta. induction ps as [|p ps (IHn & IHr & IHp)];
    [repeat split; constructor|].
  cbn [map filter].
  destruct (Nat.ltb_spec 0 (postCount (breakdownFor posts p))) as [Hpos | H0].
  - cbn [countTotal reachTotal]. repeat split; try congruence.
    now constructor.
  - cbn [countTotal reachTotal]. repeat split; try assumption; try lia.
    rewrite IHr.
    assert (Hnil : filter (fun post => platform_eqb (pa_service post) p) posts
                   = []).
    { cbn [breakdownFor postCount] in H0.
      destruct (filter _ posts); [reflexivity | cbn in H0; lia]. }
    cbn [breakdownFor bd_reach]. rewrite Hnil. reflexivity.
Qed.

(** X15. The platform breakdown adds up.  In simulation mode the entries
    of [summary.platformBreakdown] all count at least one post, their
    post counts add up to [summary.totalPosts] and their reaches add up
    to [summary.topMetrics.reach]. *)
Theorem X15_breakdown_adds_up :
  forall (client : Client) (live : M AnalyticsSummary)
         (profileId : string) (options : PartialAnalyticsOptions) (w : World),
    mockMode client = true ->
    exists summary w',
      analytics_summary client live profileId options w = (inr summary, w')
      /\ countTotal (platformBreakdown summary) = totalPosts summary
      /\ reachTotal (platformBreakdown summary)
         = top_reach (topMetrics summary)
      /\ Forall (fun item => (0 < postCount item)%nat)
                (platformBreakdown summary).
Proof.
  intros client live profileId options w Hmock.
  unfold analytics_summary.
  rewrite executeAnalyticsRequest_mock by exact Hmock.
  set (complete := fst (createCompleteAnalyticsOptions options w)).
  set (w1 := snd (createCompleteAnalyticsOptions options w)).
  unfold generateMockSummary, gbind.
  destruct (generateMockAnalytics profileId complete w1) as [posts w2].
  unfold random, gret. cbn [fst snd].
  do 2 eexists. split; [reflexivity|].
  cbn [platformBreakdown totalPosts topMetrics top_reach].
  destruct (breakdown_filter posts allPlatforms) as (Hn & Hr & Hp).
  destruct (breakdown_partition posts) as [Hn' Hr'].
  cbn zeta in *. repeat split; try assumption; congruence.
Qed.

Lemma X15_breakdown_adds_up_witness :
  exists summary w',
    analytics_summary mockClient notLive "profile_x_001" sevenDays
                      (steadyWorld noon (1 # 2) tokenReply)
    = (inr summary, w')
    /\ countTotal (platformBreakdown summary) = totalPosts summary.
Proof.
  destruct (X15_breakdown_adds_up mockClient notLive "profile_x_001"
              sevenDays (steadyWorld noon (1 # 2) tokenReply))
    as (summary & w' & Hrun & Hn & _).
  - reflexivity.
  - exists summary, w'. split; assumption.
Defined.

(** The generators leave the random source as it was: only the number
    of draws made changes. *)
Lemma generateMockAnalytics_oracles (profileId : string)
    (options : AnalyticsOptions) (w : World) :
  dice (snd (generateMockAnalytics profileId options w)) = dice w.
Proof.
  unfold generateMockAnalytics, gbind.
  assert (H : dice (snd (generateUnsorted profileId options w)) = dice w).
  { unfold generateUnsorted.
    destruct (getTimeRangeDays options) as [timeRangeDays|]; [|reflexivity].
    unfold gbind.
    match goal with
    | |- context [for_loop ?n ?i ?c ?b ?s w] =>
        pose proof (for_loop_invariant
                      (fun (_ : Batch) (w' : World) => dice w' = dice w)
                      c b) as Hloop;
        specialize (Hloop
          ltac:(intros; unfold dayStep;
                apply (for_loop_invariant
                         (fun (_ : Batch) (w' : World) => dice w' = dice w));
                [|assumption];
                intros; unfold postStep, gbind, now, random, gret;
                cbn [clock clock_reads dice dice_rolls network sent];
                repeat match goal with
                       | |- context [if ?c then _ else _] => destruct c
                       end; assumption) n i s w);
        destruct (for_loop n i c b s w) as [s1 w1]
    end.
    cbn [fst snd gret] in *. now apply Hloop. }
  destruct (generateUnsorted profileId options w) as [posts w1].
  exact H.
Qed.

(** X16. The trend.  With [Math.random()] in [0, 1), the trend of the
    summary generated in simulation mode has a percentage between 5 and
    24 and a direction that is never 'stable': 'up' exactly when the
    average engagement rate exceeds 5%. *)
Theorem X16_trend :
  forall (profileId : string) (options : AnalyticsOptions) (w : World),
    fairDice w ->
    let summary := fst (generateMockSummary profileId options w) in
    5 <= trendPercentage summary <= 24
    /\ trendDirection summary <> Stable
    /\ (trendDirection summary = Up
        <-> (5 # 100 < averageEngagementRate summary)%Q).
Proof.
  intros profileId options w Hfair. cbn zeta.
  unfold generateMockSummary, gbind.
  pose proof (generateMockAnalytics_oracles profileId options w) as Hd.
  destruct (generateMockAnalytics profileId options w) as [posts w2].
  cbn [snd] in Hd.
  unfold random, gret.
  cbn [fst trendPercentage trendDirection averageEngagementRate].
  split; [|split].
  - rewrite Hd.
    pose proof (floor_of_draw (dice w (dice_rolls w2)) 20
                  (proj1 (Hfair _)) (proj2 (Hfair _)) ltac:(lia)) as Hr.
    change (inject_Z 20) with 20%Q in Hr. lia.
  - match goal with |- (if ?c then _ else _) <> _ => destruct c end;
      discriminate.
  - unfold Qgtb.
    match goal with |- context [Qle_bool ?a ?b] =>
      destruct (Qle_bool a b) eqn:Hle end; cbn [negb].
    + apply Qle_bool_iff in Hle. split; [discriminate|].
      intros Hlt. exfalso. eapply Qlt_not_le; eassumption.
    + split; [intros _|reflexivity].
      apply Qnot_le_lt. intros H. apply Qle_bool_iff in H. congruence.
Qed.

Lemma X16_trend_witness :
  5 <= trendPercentage
         (fst (generateMockSummary "profile_x_001"
                 (mkAnalyticsOptions TR_7d "2026-10-26" "2026-11-02" "day" None)
                 (steadyWorld noon (1 # 2) tokenReply)))
    <= 24.
Proof.
  apply (X16_trend "profile_x_001"
           (mkAnalyticsOptions TR_7d "2026-10-26" "2026-11-02" "day" None)
           (steadyWorld noon (1 # 2) tokenReply)).
  intros n. cbn. split; [discriminate | reflexivity].
Defined.

(* ================================================================= *)
(** ** The split of the engagement over the metric bag *)





(* ================================================================= *)
(** ** Query parameters of the live analytics requests *)

Lemma get_app_other (name k v : string) (l : list (string * string)) :
  k <> name -> Params.get name (l ++ [(k, v)]) = Params.get name l.
Proof.
  intros Hk. induction l as [|[k' v'] l IH]; cbn.
  - destruct (String.eqb_spec k name); [contradiction | reflexivity].
  - destruct (String.eqb k' name); [reflexivity | exact IH].
Qed.

Lemma get_appendIf_other (name k : string) (o : option string)
    (l : list (string * string)) :
  k <> name -> Params.get name (Params.appendIf o k l) = Params.get name l.
Proof.
  intros Hk. unfold Params.appendIf.
  destruct o as [s|]; [|reflexivity].
  destruct (String.eqb s ""); [reflexivity|]. now apply get_app_other.
Qed.

Lemma get_appendIf_same (name : string) (o : option string)
    (l : list (string * string)) :
  Params.get name l = None ->
  Params.get name (Params.appendIf o name l)
  = if Params.truthy o then o else None.
Proof.
  intros Hl. unfold Params.appendIf, Params.truthy.
  destruct o as [s|]; [|exact Hl].
  destruct (String.eqb s ""); cbn [negb]; [exact Hl|].
  induction l as [|[k v] l IH]; cbn in *.
  - now rewrite String.eqb_refl.
  - destruct (String.eqb k name); [discriminate Hl | now apply IH].
Qed.

(** X18. Precedence of explicit dates.  When [start] or [end] is given,
    [buildAnalyticsParams] reads neither the clock nor [timeRange]: the
    parameters carry exactly the dates given, so a request with only an
    [end] has no [start] parameter.  When neither is given, [start] and
    [end] are the dates of [days] days before the call and of the call,
    [days] being 7, 30, 90 or 365 for the time range, 30 without one. *)
Theorem X18_explicit_dates_win :
  forall (options : PartialAnalyticsOptions) (groupBy : option string)
         (w : World),
    let run := Params.buildAnalyticsParams options groupBy w in
    (Params.truthy (opt_start options) || Params.truthy (opt_end options)
     = true ->
     snd run = w
     /\ (forall t, fst (Params.buildAnalyticsParams
                          (withTimeRange options t) groupBy w) = fst run)
     /\ Params.get "start" (fst run)
        = (if Params.truthy (opt_start options)
           then opt_start options else None)
     /\ Params.get "end" (fst run)
        = (if Params.truthy (opt_end options)
           then opt_end options else None))
    /\ (Params.truthy (opt_start options) || Params.truthy (opt_end options)
        = false ->
        let t := clock w (clock_reads w) in
        let days := timeRangeMap match opt_timeRange options with
                                 | Some r => r
                                 | None => TR_30d
                                 end in
        Params.get "start" (fst run)
        = Some (Dates.toDateString (t - days * Dates.msPerDay))
        /\ Params.get "end" (fst run) = Some (Dates.toDateString t)).
Proof.
  intros options groupBy w. cbn zeta.
  unfold Params.buildAnalyticsParams, withTimeRange, gbind.
  cbn [opt_start opt_end opt_period opt_timeRange].
  split; intros Hdates; rewrite Hdates.
  - unfold gret. cbn [fst snd].
    split; [reflexivity|]. split; [reflexivity|].
    split.
    + rewrite !get_appendIf_other by discriminate.
      now apply get_appendIf_same.
    + rewrite 2!get_appendIf_other by discriminate.
      apply get_appendIf_same.
      now rewrite get_appendIf_other by discriminate.
  - unfold Params.convertTimeRangeToDateRange, gbind, now, gret.
    cbn [fst snd]. rewrite !get_appendIf_other by discriminate.
    cbn [Params.get String.eqb Ascii.eqb Bool.eqb].
    split; [|reflexivity].
    f_equal. f_equal. unfold Dates.msPerDay.
    destruct (opt_timeRange options) as [[]|]; cbn; lia.
Qed.

(** Only an [end] is given: the request carries it and no [start]. *)
Lemma X18_explicit_dates_win_witness :
  let run := Params.buildAnalyticsParams
               (mkPartialOptions (Some TR_7d) None (Some "2024-01-31")
                                 (Some "week") None)
               None (steadyWorld noon (1 # 2) tokenReply) in
  Params.get "start" (fst run) = None
  /\ Params.get "end" (fst run) = Some "2024-01-31"
  /\ fst run = [("end", "2024-01-31"); ("period", "week")].
Proof.
  destruct (X18_explicit_dates_win
              (mkPartialOptions (Some TR_7d) None (Some "2024-01-31")
                                (Some "week") None)
              None (steadyWorld noon (1 # 2) tokenReply))
    as [Hdates _].
  destruct Hdates as (_ & _ & Hstart & Hend); [reflexivity|].
  cbn zeta. split; [exact Hstart|]. split; [exact Hend | reflexivity].
Defined.

(* ================================================================= *)
(** ** The client that [initialize] builds *)

Lemma number_or_nonzero (o : option Z) (d : Z) :
  d <> 0 -> number_or o d <> 0.
Proof.
  intros Hd. unfold number_or, Z_or. destruct o as [v|]; [|exact Hd].
  destruct (Z.eqb_spec v 0); assumption.
Qed.

(** X19. Defaults.  A client that [initialize] returns has a timeout,
    a number of attempts, a base delay, a quota and a window that are not
    zero (a configured 0 gives way to the default), a backoff factor of
    2 with the attempts and delay of its configuration, the credentials
    that were configured, and a rate-limit window that starts empty and
    ends one window after the reading of the clock made by the call. *)
Theorem X19_initialized_client :
  forall (clientConfig : ClientConfig) (w w' : World) (client : Client),
    initialize clientConfig w = (inr client, w') ->
    timeout (config client) <> 0
    /\ retryAttempts (config client) <> 0
    /\ retryDelay (config client) <> 0
    /\ RateLimit.quota (rateLimit (config client)) <> 0
    /\ RateLimit.window (rateLimit (config client)) <> 0
    /\ retryConfig client
       = Retry.mkRetryConfig (retryAttempts (config client))
                             (retryDelay (config client)) 2
    /\ cfg_bufferSDK clientConfig = Some (bufferSDK (config client))
    /\ rateLimitState client
       = RateLimit.mkRateLimitState
           0 (clock w (clock_reads w)
              + RateLimit.window (rateLimit (config client))).
Proof.
  intros clientConfig w w' client Hrun.
  unfold initialize, exchangeCodeForTokens in Hrun.
  destruct (cfg_bufferSDK clientConfig) as [sdk|]; [|discriminate Hrun].
  unfold bind, http_post, liftResult, throw, ret, Date_now in Hrun.
  destruct (network w (List.length (sent w))) as [e | response];
    [discriminate Hrun|].
  destruct (get_property response "data") as [e | inner];
    [discriminate Hrun|].
  assert (Hgoal : forall token,
             (mkClient
                     (mkConfig token "http://localhost:8083/api/v1/sdk"
                        (number_or (cfg_timeout clientConfig) 10000)
                        (number_or (cfg_retryAttempts clientConfig) 3)
                        (number_or (cfg_retryDelay clientConfig) 1000)
                        (RateLimit.mkRateLimitConfig
                           (number_or (option_map RateLimit.quota
                              (cfg_rateLimit clientConfig)) 100)
                           (number_or (option_map RateLimit.window
                              (cfg_rateLimit clientConfig)) 3600000))
                        sdk)
                     (Retry.mkRetryConfig
                        (number_or (cfg_retryAttempts clientConfig) 3)
                        (number_or (cfg_retryDelay clientConfig) 1000) 2)
                     (RateLimit.mkRateLimitState 0
                        (clock w (clock_reads w)
                         + number_or (option_map RateLimit.window
                             (cfg_rateLimit clientConfig)) 3600000))) = client ->
             timeout (config client) <> 0
             /\ retryAttempts (config client) <> 0
             /\ retryDelay (config client) <> 0
             /\ RateLimit.quota (rateLimit (config client)) <> 0
             /\ RateLimit.window (rateLimit (config client)) <> 0
             /\ retryConfig client
                = Retry.mkRetryConfig (retryAttempts (config client))
                                      (retryDelay (config client)) 2
             /\ Some sdk = Some (bufferSDK (config client))
             /\ rateLimitState client
                = RateLimit.mkRateLimitState
                    0 (clock w (clock_reads w)
                       + RateLimit.window (rateLimit (config client)))).
  { intros token <-.
    cbn [config timeout retryAttempts retryDelay rateLimit RateLimit.quota
         RateLimit.window retryConfig bufferSDK rateLimitState].
    repeat split; apply number_or_nonzero; discriminate. }
  destruct inner as [| s | n | fields];
    unfold get_property in Hrun; cbv beta iota in Hrun;
    try discriminate Hrun.
  - injection Hrun as Hc _. exact (Hgoal _ Hc).
  - destruct (lookup_field "data" fields) as [| s | n | inner2];
      cbv beta iota in Hrun; try discriminate Hrun;
      injection Hrun as Hc _; exact (Hgoal _ Hc).
Qed.

Lemma X19_initialized_client_witness :
  RateLimit.quota
    (rateLimit (config mockClient)) <> 0
  /\ rateLimitState mockClient
     = RateLimit.mkRateLimitState 0 (noon + 3600000).
Proof.
  destruct (X19_initialized_client
              (mkClientConfig (Some "test-token") None (Some 0) None None
                              (Some (sampleSDK true)))
              (steadyWorld noon (1 # 2) tokenReply)
              (snd (initialize testConfig (steadyWorld noon (1 # 2) tokenReply)))
              mockClient)
    as (_ & _ & _ & Hq & _ & _ & _ & Hst).
  - reflexivity.
  - split; [exact Hq | exact Hst].
Defined.

(* ================================================================= *)
(** ** The profile catalog *)

(** X20. List, then get.  In simulation mode [profiles.list] returns
    four profiles with distinct ids, one for each platform, and
    [profiles.get] with the id of any of them returns that very profile. *)
Theorem X20_profiles_round_trip :
  forall (client : Client) (liveList : M (list BufferProfile))
         (liveGet : M BufferProfile) (w : World),
    mockMode client = true ->
    exists profiles,
      profiles_list client liveList w = (inr profiles, w)
      /\ map service profiles = allPlatforms
      /\ NoDup (map id profiles)
      /\ forall p, In p profiles ->
                   profiles_get client liveGet (id p) w = (inr p, w).
Proof.
  intros client liveList liveGet w Hmock.
  exists generateMockProfiles. unfold profiles_list, profiles_get.
  rewrite Hmock. split; [reflexivity|]. split; [reflexivity|]. split.
  - cbn [map generateMockProfiles id].
    repeat (apply NoDup_cons;
            [cbn; intros H;
             repeat (destruct H as [H | H]; [discriminate H|]); exact H|]).
    apply NoDup_nil.
  - intros p Hp. cbn in Hp.
    repeat (destruct Hp as [<- | Hp]; [reflexivity|]). contradiction.
Qed.

Lemma X20_profiles_round_trip_witness :
  exists profiles,
    profiles_list mockClient notLive (steadyWorld noon (1 # 2) tokenReply)
    = (inr profiles, steadyWorld noon (1 # 2) tokenReply)
    /\ List.length profiles = 4%nat.
Proof.
  destruct (X20_profiles_round_trip mockClient notLive notLive
              (steadyWorld noon (1 # 2) tokenReply))
    as (profiles & Hrun & Hservices & _).
  - reflexivity.
  - exists profiles. split; [exact Hrun|].
    rewrite <- (length_map service), Hservices. reflexivity.
Defined.

(* ================================================================= *)
(** ** Identifiers of the batch records *)

Lemma postId_inj (p p' : SocialPlatform) (k k' : Z) :
  "post_" ++ platformName p ++ "_" ++ string_of_Z k
  = "post_" ++ platformName p' ++ "_" ++ string_of_Z k' ->
  k = k'.
Proof.
  intros H. destruct p, p'; cbn in H; try discriminate H;
    injection H as H; now apply string_of_Z_inj.
Qed.

Lemma NoDup_snoc {A : Type} (l : list A) (a : A) :
  NoDup l -> ~ In a l -> NoDup (l ++ [a]).
Proof.
  induction 1 as [|b l Hb Hl IH]; intros Ha; cbn.
  - constructor; [intros [] | constructor].
  - constructor.
    + rewrite in_app_iff. intros [H | [H | []]]; [contradiction|].
      subst. apply Ha. now left.
    + apply IH. intros H. apply Ha. now right.
Qed.

Section BatchIds.
Variable profileId : string.
Variable options : AnalyticsOptions.

Let numbered (s : Batch) (w : World) : Prop :=
Forall (fun post => exists p k,
            postId post = "post_" ++ platformName p ++ "_" ++ string_of_Z k
            /\ k < postIndex s)
       (analytics s)
/\ NoDup (map postId (analytics s)).

Lemma postStep_numbered (day dailyPostCount i : Z) (s : Batch) (w : World) :
numbered s w ->
numbered (fst (postStep profileId options day dailyPostCount i s w))
         (snd (postStep profileId options day dailyPostCount i s w)).
Proof.
unfold numbered. intros (Hall & Hnd).
unfold postStep, gbind, now, random, gret.
cbn [clock clock_reads dice dice_rolls network sent].
match goal with |- context [beforeStart options ?d] =>
  destruct (beforeStart options d) end; [split; assumption|].
match goal with |- context [afterEnd options ?d] =>
  destruct (afterEnd options d) end; [split; assumption|].
cbn [fst snd analytics postIndex].
match goal with
| |- context [makePost profileId ?p ?k ?d ?a ?b ?c] =>
    set (post := makePost profileId p k d a b c);
    assert (Hid : postId post
                  = "post_" ++ platformName p ++ "_"
                      ++ string_of_Z (postIndex s))
      by (unfold post, makePost; destruct (reachRange p); reflexivity)
end.
split.
- apply Forall_app. split.
  + eapply Forall_impl; [|exact Hall].
    intros q (p' & k & Hq & Hk). exists p', k. split; [exact Hq | lia].
  + constructor; [|constructor]. do 2 eexists. split; [exact Hid | lia].
- rewrite map_app. cbn [map]. apply NoDup_snoc; [exact Hnd|].
  rewrite in_map_iff. intros (q & Hq & Hin).
  rewrite Forall_forall in Hall.
  destruct (Hall q Hin) as (p' & k & Hq' & Hk).
  rewrite Hid, Hq' in Hq. apply postId_inj in Hq. lia.
Qed.

Lemma dayStep_numbered (totalPosts postsPerDay day : Z) (s : Batch)
  (w : World) :
numbered s w ->
numbered (fst (dayStep profileId options totalPosts postsPerDay day s w))
         (snd (dayStep profileId options totalPosts postsPerDay day s w)).
Proof.
intros H. unfold dayStep.
apply (for_loop_invariant numbered); [|exact H].
intros i s1 w1 H1 _. now apply postStep_numbered.
Qed.

End BatchIds.

Lemma generateMockAnalytics_ids (profileId : string)
    (options : AnalyticsOptions) (w : World) :
  NoDup (map postId (fst (generateMockAnalytics profileId options w))).
Proof.
  unfold generateMockAnalytics, gbind.
  assert (H : NoDup (map postId (fst (generateUnsorted profileId options w)))).
  { unfold generateUnsorted.
    destruct (getTimeRangeDays options) as [timeRangeDays|];
      [|constructor].
    unfold gbind.
    match goal with
    | |- context [for_loop ?n ?i ?c ?b ?s w] =>
        pose proof (for_loop_invariant
                      (fun (bt : Batch) (_ : World) =>
                         Forall (fun post => exists p k,
                                   postId post
                                   = "post_" ++ platformName p ++ "_"
                                       ++ string_of_Z k
                                   /\ k < postIndex bt)
                                (analytics bt)
                         /\ NoDup (map postId (analytics bt))) c b) as Hloop;
        specialize (Hloop
          ltac:(intros; now apply dayStep_numbered) n i s w);
        destruct (for_loop n i c b s w) as [s1 w1]
    end.
    cbn [fst snd gret] in *. apply Hloop. split; constructor. }
  destruct (generateUnsorted profileId options w) as [posts w1].
  cbn [fst gret] in *.
  eapply Permutation_NoDup; [|exact H].
  apply Permutation_map, sort_Permutation.
Qed.

(** X21. Distinct ids.  In simulation mode no two records returned by
    [analytics.posts] have the same [postId]. *)
Theorem X21_batch_ids_distinct :
  forall (client : Client) (live : M (list PostAnalytics))
         (profileId : string) (options : PartialAnalyticsOptions) (w : World),
    mockMode client = true ->
    exists posts w',
      analytics_posts client live profileId options w = (inr posts, w')
      /\ NoDup (map postId posts).
Proof.
  intros client live profileId options w Hmock.
  unfold analytics_posts.
  rewrite executeAnalyticsRequest_mock by exact Hmock.
  do 2 eexists. split; [reflexivity|]. apply generateMockAnalytics_ids.
Qed.

Lemma X21_batch_ids_distinct_witness :
  match analytics_posts mockClient notLive "profile_x_001" sevenDays
          (steadyWorld noon (1 # 2) tokenReply) with
  | (inr posts, _) => NoDup (map postId posts)
  | (inl _, _) => False
  end.
Proof.
  destruct (X21_batch_ids_distinct mockClient notLive "profile_x_001"
              sevenDays (steadyWorld noon (1 # 2) tokenReply))
    as (posts & w' & Hrun & Hnd).
  - reflexivity.
  - rewrite Hrun. exact Hnd.
Defined.

(* ================================================================= *)
(** ** ISO strings read back *)

Ltac Zify.zify_post_hook ::= Z.div_mod_to_equations.

Ltac split_tests :=
  repeat match goal with
         | |- context [if ?b then _ else _] =>
             let H := fresh "T" in destruct b eqn:H
         | H : context [if ?b then _ else _] |- _ =>
             let H' := fresh "T" in destruct b eqn:H'
         end.

Lemma allFrom_spec (n : nat) :
  forall (z0 : Z) (f : Z -> bool),
    allFrom n z0 f = true ->
    forall z, z0 <= z < z0 + Z.of_nat n -> f z = true.
Proof.
  induction n as [|n IH]; intros z0 f H z Hz; [lia|].
  cbn [allFrom] in H. apply andb_true_iff in H. destruct H as [H1 H2].
  destruct (Z.eq_dec z z0) as [-> |]; [exact H1|].
  apply (IH (z0 + 1) f H2). lia.
Qed.

Lemma pad2_checked : allFrom (Z.to_nat 100) 0 (padReadsBack 2) = true.
Proof. vm_compute. reflexivity. Qed.

Lemma pad3_checked : allFrom (Z.to_nat 1000) 0 (padReadsBack 3) = true.
Proof. vm_compute. reflexivity. Qed.

Lemma pad4_checked : allFrom (Z.to_nat 10000) 0 (padReadsBack 4) = true.
Proof. vm_compute. reflexivity. Qed.

Lemma padReadsBack_spec (width : nat) (z : Z) :
  padReadsBack width z = true ->
  String.length (Dates.pad width z) = width
  /\ Dates.numberOf (Dates.pad width z) 0 = Some z
  /\ exists c rest, Dates.pad width z = String c rest
                    /\ Dates.digit c <> None.
Proof.
  unfold padReadsBack. intros H.
  apply andb_true_iff in H. destruct H as [H H3].
  apply andb_true_iff in H. destruct H as [H1 H2].
  apply Nat.eqb_eq in H1. split; [exact H1|]. split.
  - destruct (Dates.numberOf (Dates.pad width z) 0) as [v|];
      [|discriminate H2].
    apply Z.eqb_eq in H2. now subst.
  - destruct (Dates.pad width z) as [|c rest]; [discriminate H3|].
    exists c, rest. split; [reflexivity|].
    destruct (Dates.digit c); [discriminate | discriminate H3].
Qed.

Lemma pad2_shape (z : Z) :
  0 <= z < 100 ->
  exists c1 c2,
    Dates.pad 2 z = String c1 (String c2 "")
    /\ Dates.numberOf (String c1 (String c2 "")) 0 = Some z.
Proof.
  intros Hz.
  destruct (padReadsBack_spec 2 z) as (Hlen & Hnum & _).
  { apply (allFrom_spec _ 0 _ pad2_checked). lia. }
  destruct (Dates.pad 2 z) as [|c1 [|c2 [|c3 s]]]; try discriminate Hlen.
  now exists c1, c2.
Qed.

Lemma pad3_shape (z : Z) :
  0 <= z < 1000 ->
  exists c1 c2 c3,
    Dates.pad 3 z = String c1 (String c2 (String c3 ""))
    /\ Dates.numberOf (String c1 (String c2 (String c3 ""))) 0 = Some z.
Proof.
  intros Hz.
  destruct (padReadsBack_spec 3 z) as (Hlen & Hnum & _).
  { apply (allFrom_spec _ 0 _ pad3_checked). lia. }
  destruct (Dates.pad 3 z) as [|c1 [|c2 [|c3 [|c4 s]]]];
    try discriminate Hlen.
  now exists c1, c2, c3.
Qed.

Lemma pad4_shape (z : Z) :
  0 <= z < 10000 ->
  exists c1 c2 c3 c4,
    Dates.pad 4 z = String c1 (String c2 (String c3 (String c4 "")))
    /\ Dates.numberOf (String c1 (String c2 (String c3 (String c4 "")))) 0
       = Some z
    /\ Dates.digit c1 <> None.
Proof.
  intros Hz.
  destruct (padReadsBack_spec 4 z) as (Hlen & Hnum & c & rest & Hc & Hd).
  { apply (allFrom_spec _ 0 _ pad4_checked). lia. }
  destruct (Dates.pad 4 z) as [|c1 [|c2 [|c3 [|c4 [|c5 s]]]]];
    try discriminate Hlen.
  injection Hc as <- _. now exists c1, c2, c3, c4.
Qed.

(** A string that starts with a digit has a four-digit year. *)
Lemma parseDate_digit_head (c : ascii) (rest : string) :
  Dates.digit c <> None ->
  Dates.parseDate (String c rest)
  = parseAfterYear (String c rest) 4 (Dates.field (String c rest) 0 4).
Proof.
  intros Hd.
  destruct c as [[] [] [] [] [] [] [] []];
    try (exfalso; apply Hd; reflexivity); reflexivity.
Qed.

(** The calendar conversions are inverse to each other, and the day
    computed for a day number exists in its month. *)
Lemma civil_round_trip (z : Z) :
  let '(y, m, d) := Dates.civil_from_days z in
  Dates.days_from_civil y m d = z
  /\ 1 <= m <= 12 /\ 1 <= d <= Dates.daysInMonth y m.
Proof.
  assert (Hvalid : let '(y, m, d) := Dates.civil_from_days z in
                   d <= Dates.daysInMonth y m).
  { unfold Dates.civil_from_days, Dates.daysInMonth, Dates.isLeap.
    set (era := (z + 719468) / 146097).
    set (doe := z + 719468 - era * 146097).
    assert (Hdoe : 0 <= doe < 146097) by (subst doe era; lia).
    set (yoe := (doe - doe / 1460 + doe / 36524 - doe / 146096) / 365).
    assert (Hyoe : 0 <= yoe <= 399) by (subst yoe; lia).
    set (doy := doe - (365 * yoe + yoe / 4 - yoe / 100)).
    assert (Hdoy : 0 <= doy <= 365) by (subst doy yoe; lia).
    set (mp := (5 * doy + 2) / 153).
    assert (Hmp : 0 <= mp <= 11) by (subst mp; lia).
    clearbody era.
    split_tests;
      repeat match goal with
             | H : _ || _ = true |- _ =>
                 apply Bool.orb_true_iff in H; destruct H
             | H : _ || _ = false |- _ =>
                 apply Bool.orb_false_iff in H; destruct H
             | H : _ && _ = true |- _ =>
                 apply Bool.andb_true_iff in H; destruct H
             | H : _ && _ = false |- _ =>
                 apply Bool.andb_false_iff in H; destruct H
             | H : negb _ = true |- _ => apply Bool.negb_true_iff in H
             | H : negb _ = false |- _ => apply Bool.negb_false_iff in H
             end;
      subst mp; lia. }
  revert Hvalid.
  unfold Dates.civil_from_days, Dates.days_from_civil.
  set (era := (z + 719468) / 146097).
  set (doe := z + 719468 - era * 146097).
  assert (Hdoe : 0 <= doe < 146097) by (subst doe era; lia).
  set (yoe := (doe - doe / 1460 + doe / 36524 - doe / 146096) / 365).
  assert (Hyoe : 0 <= yoe <= 399) by (subst yoe; lia).
  set (doy := doe - (365 * yoe + yoe / 4 - yoe / 100)).
  assert (Hdoy : 0 <= doy <= 365) by (subst doy yoe; lia).
  set (mp := (5 * doy + 2) / 153).
  assert (Hmp : 0 <= mp <= 11) by (subst mp; lia).
  intros Hvalid.
  split_tests; (split; [|split; [lia | split; [lia | exact Hvalid]]]);
    subst doy doe; lia.
Qed.

(** The year of a day of the years 0000 to 9999. *)
Lemma civil_year_range (z : Z) :
  -719528 <= z <= 2932896 ->
  let '(y, m, d) := Dates.civil_from_days z in 0 <= y <= 9999.
Proof.
  intros Hz. unfold Dates.civil_from_days.
  set (era := (z + 719468) / 146097).
  set (doe := z + 719468 - era * 146097).
  assert (Hera : -1 <= era <= 24) by (subst era; lia).
  assert (Hdoe : 0 <= doe < 146097) by (subst doe era; lia).
  set (yoe := (doe - doe / 1460 + doe / 36524 - doe / 146096) / 365).
  assert (Hyoe : 0 <= yoe <= 399) by (subst yoe; lia).
  set (doy := doe - (365 * yoe + yoe / 4 - yoe / 100)).
  assert (Hdoy : 0 <= doy <= 365) by (subst doy yoe; lia).
  set (mp := (5 * doy + 2) / 153).
  assert (Hmp : 0 <= mp <= 11) by (subst mp; lia).
  split_tests; subst mp doy yoe doe era; lia.
Qed.

Lemma daysInMonth_le_31 (y m : Z) : Dates.daysInMonth y m <= 31.
Proof. unfold Dates.daysInMonth. split_tests; lia. Qed.

(** [parseDate] reads the string written by [toISOString] back as the
    same time value. *)
Lemma toISOString_reads_back (t : Z) :
  commonEra t -> Dates.parseDate (Dates.toISOString t) = Some t.
Proof.
  intros [Hlo Hhi]. unfold Dates.toISOString.
  pose proof (civil_round_trip (t / Dates.msPerDay)) as Hrt.
  pose proof (civil_year_range (t / Dates.msPerDay)) as Hyr.
  destruct (Dates.civil_from_days (t / Dates.msPerDay)) as [[y m] d].
  destruct Hrt as (Hday & Hm & Hd).
  assert (Hy : 0 <= y <= 9999).
  { apply Hyr. unfold Dates.msPerDay. lia. }
  clear Hyr.
  pose proof (daysInMonth_le_31 y m) as H31.
  set (r := t mod Dates.msPerDay).
  assert (Hr : 0 <= r < 86400000) by (subst r; unfold Dates.msPerDay; lia).
  unfold Dates.formatYear.
  replace ((0 <=? y) && (y <=? 9999)) with true
    by (symmetry; apply andb_true_iff; split; apply Z.leb_le; lia).
  destruct (pad4_shape y) as (y1 & y2 & y3 & y4 & Ey & Ny & Dy); [lia|].
  destruct (pad2_shape m) as (m1 & m2 & Em & Nm); [lia|].
  destruct (pad2_shape d) as (d1 & d2 & Ed & Nd); [lia|].
  destruct (pad2_shape (r / 3600000)) as (h1 & h2 & Eh & Nh); [lia|].
  destruct (pad2_shape ((r / 60000) mod 60)) as (i1 & i2 & Ei & Ni); [lia|].
  destruct (pad2_shape ((r / 1000) mod 60)) as (s1 & s2 & Es & Ns); [lia|].
  destruct (pad3_shape (r mod 1000)) as (l1 & l2 & l3 & El & Nl); [lia|].
  rewrite Ey, Em, Ed, Eh, Ei, Es, El. cbn [append].
  rewrite parseDate_digit_head by exact Dy.
  unfold parseAfterYear, Dates.timeOfDay, Dates.field, Dates.charAt.
  cbn -[Dates.numberOf Dates.daysInMonth Dates.days_from_civil Z.mul Z.add
        Z.leb Z.abs Dates.msPerDay Dates.maxTime].
  rewrite Ny, Nm, Nd, Nh, Ni, Ns, Nl.
  replace ((1 <=? m) && (m <=? 12) && (1 <=? d)
           && (d <=? Dates.daysInMonth y m)) with true
    by (symmetry; repeat (apply andb_true_iff; split); apply Z.leb_le; lia).
  replace ((r / 3600000 <=? 23) && ((r / 60000) mod 60 <=? 59)
           && ((r / 1000) mod 60 <=? 59)) with true
    by (symmetry; repeat (apply andb_true_iff; split); apply Z.leb_le; lia).
  rewrite Hday.
  replace (t / Dates.msPerDay * Dates.msPerDay
           + (r / 3600000 * 3600000 + (r / 60000) mod 60 * 60000
              + (r / 1000) mod 60 * 1000 + r mod 1000)) with t
    by (subst r; unfold Dates.msPerDay; lia).
  replace (Z.abs t <=? Dates.maxTime) with true
    by (symmetry; apply Z.leb_le; unfold Dates.maxTime; lia).
  reflexivity.
Qed.

(** *** The final sort *)

Lemma insert_In {A : Type} (compare : A -> A -> Z) (a x : A) (l : list A) :
  In x (insert compare a l) -> x = a \/ In x l.
Proof.
  intros H.
  apply (Permutation_in x (Permutation_sym (insert_Permutation compare a l)))
    in H.
  destruct H as [<- | H]; [now left | now right].
Qed.

Lemma notOlder_trans (a b c : PostAnalytics) :
  notOlder a b -> notOlder b c -> notOlder a c.
Proof.
  intros (ta & tb & Ha & Hb & Hab) (tb' & tc & Hb' & Hc & Hbc).
  rewrite Hb in Hb'. injection Hb' as <-.
  exists ta, tc. repeat split; [assumption | assumption | lia].
Qed.

Lemma insert_sorted (a : PostAnalytics) (l : list PostAnalytics) :
  Dates.parseDate (publishedAt a) <> None ->
  Forall (fun p => Dates.parseDate (publishedAt p) <> None) l ->
  StronglySorted notOlder l ->
  StronglySorted notOlder (insert newestFirst a l).
Proof.
  intros Ha Hl Hs. induction Hs as [|b l Hs IH Hb]; cbn [insert].
  - constructor; constructor.
  - apply Forall_cons_iff in Hl. destruct Hl as [Hpb Hl].
    destruct (Dates.parseDate (publishedAt a)) as [ta|] eqn:Eta;
      [clear Ha | now elim Ha].
    destruct (Dates.parseDate (publishedAt b)) as [tb|] eqn:Etb;
      [clear Hpb | now elim Hpb].
    unfold newestFirst at 1. rewrite Eta, Etb.
    destruct (tb - ta <=? 0) eqn:Hcmp.
    + apply Z.leb_le in Hcmp.
      assert (Hab : notOlder a b) by (exists ta, tb; repeat split; auto; lia).
      constructor; [now constructor|].
      constructor; [exact Hab|].
      eapply Forall_impl; [|exact Hb].
      intros c Hbc. now apply (notOlder_trans a b c).
    + apply Z.leb_gt in Hcmp.
      constructor; [now apply IH|].
      apply Forall_forall. intros x Hx.
      apply insert_In in Hx. destruct Hx as [-> | Hx].
      * exists tb, ta. repeat split; auto; lia.
      * rewrite Forall_forall in Hb. now apply Hb.
Qed.

Lemma sort_sorted (l : list PostAnalytics) :
  Forall (fun p => Dates.parseDate (publishedAt p) <> None) l ->
  StronglySorted notOlder (sort newestFirst l).
Proof.
  induction l as [|a l IH]; intros H; cbn [sort]; [constructor|].
  apply Forall_cons_iff in H. destruct H as [Ha Hl].
  apply insert_sorted; [exact Ha | | now apply IH].
  eapply Permutation_Forall; [apply sort_Permutation | exact Hl].
Qed.

(** *** The date window of the batch *)

Section BatchWindow.
Variable profileId : string.
Variable options : AnalyticsOptions.
Variables s0 e0 : Z.
Hypothesis start_parsed : Dates.parseDate (start options) = Some s0.
Hypothesis end_parsed : Dates.parseDate (end_ options) = Some e0.

Let stamped (p : PostAnalytics) : Prop :=
  exists d, s0 <= d <= e0 /\ publishedAt p = Dates.toISOString d.

Let inv (s : Batch) (w : World) : Prop := Forall stamped (analytics s).

Lemma publishedAt_makePost (p : SocialPlatform) (index postDate : Z)
    (r1 r2 r3 : Q) :
  publishedAt (makePost profileId p index postDate r1 r2 r3)
  = Dates.toISOString postDate.
Proof. unfold makePost. now destruct (reachRange p). Qed.

Lemma beforeStart_false (d : Z) :
  beforeStart options d = false -> s0 <= d.
Proof.
  unfold beforeStart. rewrite start_parsed.
  destruct (String.eqb_spec (start options) "") as [E|_].
  - rewrite E in start_parsed. discriminate start_parsed.
  - cbn [negb andb]. intros H. apply Z.ltb_ge in H. exact H.
Qed.

Lemma afterEnd_false (d : Z) :
  afterEnd options d = false -> d <= e0.
Proof.
  unfold afterEnd. rewrite end_parsed.
  destruct (String.eqb_spec (end_ options) "") as [E|_].
  - rewrite E in end_parsed. discriminate end_parsed.
  - cbn [negb andb]. intros H. rewrite Z.gtb_ltb in H.
    apply Z.ltb_ge in H. exact H.
Qed.

Lemma postStep_window (day dailyPostCount i : Z) (s : Batch) (w : World) :
  inv s w ->
  inv (fst (postStep profileId options day dailyPostCount i s w))
      (snd (postStep profileId options day dailyPostCount i s w)).
Proof.
  unfold inv. intros HP. unfold postStep, gbind, now, random, gret.
  cbn [clock clock_reads dice dice_rolls network sent].
  match goal with |- context [beforeStart options ?d] =>
    destruct (beforeStart options d) eqn:Hb end; [assumption|].
  match goal with |- context [afterEnd options ?d] =>
    destruct (afterEnd options d) eqn:Ha end; [assumption|].
  cbn [fst snd analytics].
  apply Forall_app. split; [assumption|].
  constructor; [|constructor].
  eexists. split; [|apply publishedAt_makePost].
  split; [now apply beforeStart_false | now apply afterEnd_false].
Qed.

Lemma dayStep_window (totalPosts postsPerDay day : Z) (s : Batch)
    (w : World) :
  inv s w ->
  inv (fst (dayStep profileId options totalPosts postsPerDay day s w))
      (snd (dayStep profileId options totalPosts postsPerDay day s w)).
Proof.
  intros H. unfold dayStep. apply (for_loop_invariant inv); [|exact H].
  intros i s1 w1 H1 _. now apply postStep_window.
Qed.

(** Every record of the batch carries the ISO string of a time of the
    window. *)
Lemma generateMockAnalytics_window (w : World) :
  Forall (fun p => exists d, s0 <= d <= e0
                             /\ publishedAt p = Dates.toISOString d)
         (fst (generateMockAnalytics profileId options w)).
Proof.
  unfold generateMockAnalytics, gbind.
  assert (H : Forall stamped (fst (generateUnsorted profileId options w))).
  { unfold generateUnsorted.
    destruct (getTimeRangeDays options) as [timeRangeDays|];
      [|constructor].
    unfold gbind.
    match goal with
    | |- context [for_loop ?n ?i ?c ?b ?s w] =>
        pose proof (for_loop_invariant inv c b) as Hloop;
        specialize (Hloop
          ltac:(intros; now apply dayStep_window) n i s w);
        destruct (for_loop n i c b s w) as [s1 w1]
    end.
    cbn [fst snd gret] in *. apply Hloop. constructor. }
  destruct (generateUnsorted profileId options w) as [posts w1].
  cbn [fst gret] in *.
  eapply Permutation_Forall; [apply sort_Permutation | exact H].
Qed.

End BatchWindow.


(** *** Dates without a time *)

Lemma digit_not_T (c : ascii) :
  Dates.digit c <> None -> Ascii.eqb c "T" = false.
Proof.
  intros Hd.
  destruct c as [[] [] [] [] [] [] [] []];
    try (exfalso; apply Hd; reflexivity); reflexivity.
Qed.

(** [split('T')[0]] keeps a leading run of digits. *)
Lemma beforeT_digits (s rest : string) :
  forall acc v,
    Dates.numberOf s acc = Some v ->
    Dates.beforeT (s ++ rest) = s ++ Dates.beforeT rest.
Proof.
  induction s as [|c s IH]; intros acc v H; [reflexivity|].
  cbn [Dates.numberOf] in H. cbn [append Dates.beforeT].
  destruct (Dates.digit c) as [k|] eqn:Hk; [|discriminate H].
  rewrite digit_not_T by (rewrite Hk; discriminate).
  f_equal. exact (IH _ _ H).
Qed.

Lemma pad_numberOf (width : nat) (n : nat) (z : Z) :
  allFrom n 0 (padReadsBack width) = true ->
  0 <= z < Z.of_nat n ->
  Dates.numberOf (Dates.pad width z) 0 = Some z.
Proof.
  intros Hall Hz.
  destruct (padReadsBack_spec width z) as (_ & Hnum & _); [|exact Hnum].
  apply (allFrom_spec _ 0 _ Hall). lia.
Qed.

(** [parseDate] reads the date written by [toDateString] as midnight UTC
    of that day. *)
Lemma toDateString_reads_back (t : Z) :
  commonEra t ->
  Dates.parseDate (Dates.toDateString t)
  = Some (t / Dates.msPerDay * Dates.msPerDay).
Proof.
  intros [Hlo Hhi]. unfold Dates.toDateString, Dates.toISOString.
  pose proof (civil_round_trip (t / Dates.msPerDay)) as Hrt.
  pose proof (civil_year_range (t / Dates.msPerDay)) as Hyr.
  destruct (Dates.civil_from_days (t / Dates.msPerDay)) as [[y m] d].
  destruct Hrt as (Hday & Hm & Hd).
  assert (Hy : 0 <= y <= 9999).
  { apply Hyr. unfold Dates.msPerDay. lia. }
  clear Hyr.
  pose proof (daysInMonth_le_31 y m) as H31.
  unfold Dates.formatYear.
  replace ((0 <=? y) && (y <=? 9999)) with true
    by (symmetry; apply andb_true_iff; split; apply Z.leb_le; lia).
  rewrite (beforeT_digits (Dates.pad 4 y) _ 0 y)
    by (apply (pad_numberOf 4 _ y pad4_checked); lia).
  cbn [append Dates.beforeT Ascii.eqb Bool.eqb].
  rewrite (beforeT_digits (Dates.pad 2 m) _ 0 m)
    by (apply (pad_numberOf 2 _ m pad2_checked); lia).
  cbn [append Dates.beforeT Ascii.eqb Bool.eqb].
  rewrite (beforeT_digits (Dates.pad 2 d) _ 0 d)
    by (apply (pad_numberOf 2 _ d pad2_checked); lia).
  cbn [append Dates.beforeT Ascii.eqb Bool.eqb].
  destruct (pad4_shape y) as (y1 & y2 & y3 & y4 & Ey & Ny & Dy); [lia|].
  destruct (pad2_shape m) as (m1 & m2 & Em & Nm); [lia|].
  destruct (pad2_shape d) as (d1 & d2 & Ed & Nd); [lia|].
  rewrite Ey, Em, Ed. cbn [append].
  rewrite parseDate_digit_head by exact Dy.
  unfold parseAfterYear, Dates.field, Dates.charAt.
  cbn -[Dates.numberOf Dates.daysInMonth Dates.days_from_civil Z.mul Z.add
        Z.leb Z.abs Dates.msPerDay Dates.maxTime].
  rewrite Ny, Nm, Nd.
  replace ((1 <=? m) && (m <=? 12) && (1 <=? d)
           && (d <=? Dates.daysInMonth y m)) with true
    by (symmetry; repeat (apply andb_true_iff; split); apply Z.leb_le; lia).
  rewrite Hday.
  replace (Z.abs (t / Dates.msPerDay * Dates.msPerDay) <=? Dates.maxTime)
    with true
    by (symmetry; apply Z.leb_le; unfold Dates.maxTime, Dates.msPerDay; lia).
  reflexivity.
Qed.
(** With a window of the years 0000 to 9999 the batch lies inside the
    window and comes newest first. *)
Lemma batch_window_sorted (profileId : string) (options : AnalyticsOptions)
    (s0 e0 : Z) (w : World) :
  Dates.parseDate (start options) = Some s0 ->
  Dates.parseDate (end_ options) = Some e0 ->
  -62167219200000 <= s0 ->
  e0 <= 253402300799999 ->
  Forall (publishedWithin s0 e0)
         (fst (generateMockAnalytics profileId options w))
  /\ StronglySorted notOlder
       (fst (generateMockAnalytics profileId options w)).
Proof.
  intros Hs He Hlo Hhi.
  pose proof (generateMockAnalytics_window profileId options s0 e0 Hs He w)
    as H.
  assert (Hin : Forall (publishedWithin s0 e0)
                  (fst (generateMockAnalytics profileId options w))).
  { eapply Forall_impl; [|exact H].
    intros p (d & Hd & Hp). exists d. split; [|exact Hd].
    rewrite Hp. apply toISOString_reads_back. unfold commonEra. lia. }
  split; [exact Hin|].
  unfold generateMockAnalytics, gbind in *.
  destruct (generateUnsorted profileId options w) as [posts w1].
  cbn [fst gret] in *.
  apply sort_sorted.
  eapply Permutation_Forall;
    [apply Permutation_sym, (sort_Permutation newestFirst)|].
  eapply Forall_impl; [|exact Hin].
  intros p (d & Hp & _). rewrite Hp. discriminate.
Qed.

(** X22.  When [options.start] and [options.end] parse to times of the
    years 0000 to 9999, every record that [generateMockAnalytics]
    returns is dated inside the window from [start] to [end]: the two
    [continue] statements drop every other post. *)
Theorem X22_batch_inside_window (profileId : string)
    (options : AnalyticsOptions) (s0 e0 : Z) (w : World) :
  Dates.parseDate (start options) = Some s0 ->
  Dates.parseDate (end_ options) = Some e0 ->
  -62167219200000 <= s0 ->
  e0 <= 253402300799999 ->
  Forall (publishedWithin s0 e0)
         (fst (generateMockAnalytics profileId options w)).
Proof.
  intros Hs He Hlo Hhi.
  exact (proj1 (batch_window_sorted profileId options s0 e0 w
                  Hs He Hlo Hhi)).
Qed.

Lemma X22_batch_inside_window_witness :
  Forall (publishedWithin 1704067200000 1706659200000)
         (fst (generateMockAnalytics "profile_x_001" january
                 (steadyWorld 1705320000000 (1 # 2) tokenReply))).
Proof.
  apply (X22_batch_inside_window "profile_x_001" january
           1704067200000 1706659200000
           (steadyWorld 1705320000000 (1 # 2) tokenReply)).
  - vm_compute. reflexivity.
  - vm_compute. reflexivity.
  - lia.
  - lia.
Defined.

(** X23.  Under the same condition the records come newest first: the
    time read from [publishedAt] never increases along the list that
    [generateMockAnalytics] returns. *)
Theorem X23_batch_newest_first (profileId : string)
    (options : AnalyticsOptions) (s0 e0 : Z) (w : World) :
  Dates.parseDate (start options) = Some s0 ->
  Dates.parseDate (end_ options) = Some e0 ->
  -62167219200000 <= s0 ->
  e0 <= 253402300799999 ->
  StronglySorted notOlder
    (fst (generateMockAnalytics profileId options w)).
Proof.
  intros Hs He Hlo Hhi.
  exact (proj2 (batch_window_sorted profileId options s0 e0 w
                  Hs He Hlo Hhi)).
Qed.

Lemma X23_batch_newest_first_witness :
  StronglySorted notOlder
    (fst (generateMockAnalytics "profile_x_001" january
            (steadyWorld 1705320000000 (1 # 2) tokenReply))).
Proof.
  apply (X23_batch_newest_first "profile_x_001" january
           1704067200000 1706659200000
           (steadyWorld 1705320000000 (1 # 2) tokenReply)).
  - vm_compute. reflexivity.
  - vm_compute. reflexivity.
  - lia.
  - lia.
Defined.

(** X24.  [analytics.posts] called in simulation mode without [start]
    and [end], at a time of the years 0000 to 9999: the window is the
    one [createCompleteAnalyticsOptions] fills in, so every record lies
    between midnight UTC thirty days before the first reading of the clock
    and midnight UTC of the day of the second reading, and the list comes
    newest first.  Posts of the day of the call itself, which are later
    than its midnight, are not returned. *)
Theorem X24_default_window (client : Client)
    (live : M (list PostAnalytics)) (profileId : string)
    (options : PartialAnalyticsOptions) (w : World) :
  mockMode client = true ->
  opt_start options = None ->
  opt_end options = None ->
  commonEra (clock w (clock_reads w) - 30 * 24 * 60 * 60 * 1000) ->
  commonEra (clock w (S (clock_reads w))) ->
  exists posts w',
    analytics_posts client live profileId options w = (inr posts, w')
    /\ Forall (publishedWithin
                 (midnight (clock w (clock_reads w)
                            - 30 * 24 * 60 * 60 * 1000))
                 (midnight (clock w (S (clock_reads w)))))
              posts
    /\ StronglySorted notOlder posts.
Proof.
  intros Hmock Hstart Hend Hera1 Hera2.
  unfold analytics_posts.
  rewrite executeAnalyticsRequest_mock by exact Hmock.
  eexists. eexists. split; [reflexivity|].
  unfold createCompleteAnalyticsOptions, gbind, now, gret.
  cbn [fst snd clock clock_reads]. rewrite Hstart, Hend.
  match goal with
  | |- context [generateMockAnalytics _ ?o ?w1] =>
      apply (batch_window_sorted profileId o _ _ w1)
  end.
  - cbn [start]. unfold string_or. cbn [String.eqb].
    apply (toDateString_reads_back _ Hera1).
  - cbn [end_]. unfold string_or. cbn [String.eqb].
    apply (toDateString_reads_back _ Hera2).
  - destruct Hera1. unfold midnight, Dates.msPerDay. lia.
  - destruct Hera2. unfold midnight, Dates.msPerDay. lia.
Qed.

Lemma X24_default_window_witness :
  exists posts w',
    analytics_posts mockClient notLive "profile_x_001" sevenDays
                    (steadyWorld noon (1 # 2) tokenReply)
    = (inr posts, w')
    /\ Forall (publishedWithin 1790985600000 1793577600000) posts
    /\ StronglySorted notOlder posts.
Proof.
  apply (X24_default_window mockClient notLive "profile_x_001" sevenDays
           (steadyWorld noon (1 # 2) tokenReply)).
  - reflexivity.
  - reflexivity.
  - reflexivity.
  - unfold commonEra, steadyWorld, noon. cbn [clock clock_reads]. lia.
  - unfold commonEra, steadyWorld, noon. cbn [clock clock_reads]. lia.
Defined.
